(** * ness-wear-backend: categories, subcategories and the token gate

    A shallow embedding of [index.js] of the ness-wear-backend repository.
    The repository carries two versions of the entry point; both are
    embedded, as [VariantA] (string identifiers made from the clock, no
    start-up check of the signing secret, no index) and [VariantB]
    (identifiers assigned by the database and parsed with [ObjectId], a
    start-up check of the signing secret, unique indexes on [name]).

    Layout: JavaScript values, the MongoDB collections, the handler monad
    (state, exceptions, an operation trace and the clock), the two external
    libraries ([jsonwebtoken] and [bson]) as type classes, then the two
    variants; the lemmas and theorems follow the definitions. *)

From stdpp Require Import gmap strings list fin_maps pretty.
From Stdlib Require Import ZArith Ascii String.

#[local] Open Scope Z_scope.
#[local] Open Scope string_scope.
#[local] Open Scope list_scope.

(* ===================================================================== *)
(** ** JavaScript values *)
(* ===================================================================== *)

Module Js.

(** The values that travel through the handlers: what [JSON.parse] can
    put in a scalar field of a body (null, booleans, numbers, strings),
    [undefined] for a property that is read but absent, and the two kinds
    of object the handlers build themselves ([Date] and [ObjectId]).
    Numbers are the integer-valued ones; nested arrays and objects are
    outside the model. *)
Inductive value : Type :=
| VUndefined
| VNull
| VBool (b : bool)
| VNum (n : Z)
| VStr (s : string)
| VDate (ms : Z)
| VOid (hex : string).

#[global] Instance value_eq_dec : EqDecision value.
Proof. solve_decision. Defined.

(** [!v] is [negb (truthy v)]: undefined, null, false, 0 and the empty
    string are falsy; every object is truthy. *)
Definition truthy (v : value) : bool :=
  match v with
  | VUndefined | VNull => false
  | VBool b => b
  | VNum n => negb (Z.eqb n 0)
  | VStr s => negb (bool_decide (s = ""))
  | VDate _ | VOid _ => true
  end.

(** A JavaScript object used as a record: property name to value. *)
Abbreviation obj := (gmap string value).

(** Property read [o.k]: an absent property reads as [undefined]. *)
Definition prop (k : string) (o : obj) : value := default VUndefined (o !! k).

(** Object literal [{ k1: v1, ..., kn: vn }]. *)
Definition object (kvs : list (string * value)) : obj := list_to_map kvs.

(** Destructuring default [{ k = d } = o]: the default applies exactly
    when the property reads as [undefined]. *)
Definition prop_default (k : string) (d : value) (o : obj) : value :=
  match prop k o with VUndefined => d | v => v end.

(** [if (v !== undefined) o.k = v;] *)
Definition assign_if_defined (k : string) (v : value) (o : obj) : obj :=
  if decide (v = VUndefined) then o else <[k := v]> o.

(** [s.split(sep)] for a one-character separator. *)
Fixpoint split (sep : ascii) (s : string) : list string :=
  match s with
  | EmptyString => [EmptyString]
  | String c s' =>
      if Ascii.eqb c sep then EmptyString :: split sep s'
      else match split sep s' with
           | x :: xs => String c x :: xs
           | [] => [String c EmptyString]
           end
  end.

(** [s.startsWith(p)] *)
Definition startsWith (p s : string) : bool := String.prefix p s.

(** [n.toString()] for an integer-valued number. *)
Definition toString (n : Z) : string := pretty n.

End Js.
Import Js.

(* ===================================================================== *)
(** ** MongoDB collections *)
(* ===================================================================== *)

Module Mongo.

(** A stored document is a field map; a collection is the list of its
    documents in natural order. *)
Abbreviation doc := (gmap string value).

(** What the driver writes for a value: with the default
    [ignoreUndefined: false], [undefined] is serialised as null. *)
Definition bson (v : value) : value :=
  match v with VUndefined => VNull | _ => v end.

Definition serialize (d : doc) : doc := bson <$> d.

(** A filter document of equality conditions: [{}] is [[]], [{ _id: id }]
    is [[("_id", id)]]. The condition values are the scalar values of
    [value]. A condition that is itself an object, which the server
    reads as an operator document ([{ $gt: "" }], say) and not as a
    value to compare with, cannot be written here: what the handlers do
    with a body or query field that is an object or an array is outside
    the model, and the statements below are about scalar fields. *)
Definition filter := list (string * value).

(** [{ f: v }] on scalars: the stored field equals [v]; a null condition
    also matches a document without the field. *)
Definition field_eq (f : string) (v : value) (d : doc) : bool :=
  match d !! f with
  | Some x => bool_decide (x = bson v)
  | None => bool_decide (bson v = VNull)
  end.

Definition matches (q : filter) (d : doc) : bool :=
  forallb (fun c => field_eq c.1 c.2 d) q.

(** [find(q).toArray()] *)
Definition find (q : filter) (c : list doc) : list doc :=
  List.filter (matches q) c.

(** [findOne(q)]: the first match in natural order, or null. *)
Definition findOne (q : filter) (c : list doc) : option doc :=
  List.find (matches q) c.

(** The key of a document under an index on [f]: a missing field is
    indexed as null. *)
Definition index_key (f : string) (d : doc) : value := default VNull (d !! f).

(** [d] collides with a stored [d'] under one of the unique indexes. *)
Definition collides (uniq : list string) (d d' : doc) : bool :=
  existsb (fun f => bool_decide (index_key f d = index_key f d')) uniq.

(** [insertOne]: refused (E11000) when the document collides with a
    stored one on [_id] or on a field of [uniq]; appended otherwise. *)
Definition insert (uniq : list string) (d : doc) (c : list doc) : option (list doc) :=
  if existsb (collides ("_id" :: uniq) d) c then None else Some (c ++ [d]).

(** The collection without its first match; [None] when nothing matches. *)
Fixpoint delete_first (q : filter) (c : list doc) : option (list doc) :=
  match c with
  | [] => None
  | d :: c' =>
      if matches q d then Some c'
      else cons d <$> delete_first q c'
  end.

(** [deleteMany(q)] *)
Definition delete_many (q : filter) (c : list doc) : list doc :=
  List.filter (fun d => negb (matches q d)) c.

(** [{ $set: u }] applied to a document: the fields of [u] replace or
    extend those of the document. *)
Definition set_fields (u d : doc) : doc := serialize u ∪ d.

(** The collection with [$set: u] applied to its first match. *)
Fixpoint update_first (q : filter) (u : doc) (c : list doc) : option (list doc) :=
  match c with
  | [] => None
  | d :: c' =>
      if matches q d then Some (set_fields u d :: c')
      else cons d <$> update_first q u c'
  end.

(** Result of [updateOne(q, { $set: u })]. *)
Inductive update_result : Type :=
| Unmatched                       (* matchedCount = 0 *)
| Updated (c' : list doc)         (* matchedCount = 1 *)
| Rejected.                       (* E11000 from a unique index *)

Definition update (uniq : list string) (q : filter) (u : doc) (c : list doc)
  : update_result :=
  match findOne q c, delete_first q c, update_first q u c with
  | Some d, Some others, Some c' =>
      if existsb (collides uniq (set_fields u d)) others then Rejected
      else Updated c'
  | _, _, _ => Unmatched
  end.

End Mongo.

(* ===================================================================== *)
(** ** The handler monad *)
(* ===================================================================== *)

(** [db.collection("categories")] and [db.collection("subcategories")]. *)
Inductive coll : Type := Categories | Subcategories.

#[global] Instance coll_eq_dec : EqDecision coll.
Proof. solve_decision. Defined.

(** One call to the driver, as it appears in the operation trace. *)
Inductive op : Type :=
| OpFind (c : coll) (q : Mongo.filter)
| OpFindOne (c : coll) (q : Mongo.filter)
| OpInsertOne (c : coll) (d : Mongo.doc)
| OpUpdateOne (c : coll) (q : Mongo.filter) (u : Mongo.doc)
| OpDeleteOne (c : coll) (q : Mongo.filter)
| OpDeleteMany (c : coll) (q : Mongo.filter)
| OpCreateIndex (c : coll) (f : string).

(** What a [catch] block can receive. *)
Inductive exn : Type :=
| MongoServerError        (* E11000 duplicate key *)
| BSONError               (* [new ObjectId(s)] on a malformed [s] *)
| JsonWebTokenError.      (* thrown by [jwt.sign] and [jwt.verify] *)

(** The database behind the handle [db]: the two collections and the
    fields that carry a unique index besides [_id]. *)
Class Store (D : Type) : Type := {
  docs : coll -> D -> list Mongo.doc;
  with_docs : coll -> list Mongo.doc -> D -> D;
  unique_fields : coll -> D -> list string
}.

(** Everything a request can read or change: the database, the trace of
    driver calls, the clock ([clock n] is what the [n]-th reading of the
    time returns) and the identifiers the driver will generate. *)
Record world (D : Type) : Type := World {
  db : D;
  trace : list op;
  clock : nat -> Z;
  ticks : nat;
  oids : nat -> string;
  issued : nat
}.
Arguments World {D}.
Arguments db {D}.
Arguments trace {D}.
Arguments clock {D}.
Arguments ticks {D}.
Arguments oids {D}.
Arguments issued {D}.

Section Monad.
Context {D : Type} `{Store D}.

(** A computation may return or throw; the world it leaves behind is
    kept in both cases. A handler is one such computation, run from its
    first statement to its answer: the [async] handlers wait for the
    driver between their calls, and what another request does to the
    database in between is not part of a run. Statements about a handler
    are about one request served on its own. *)
Definition M (A : Type) : Type := world D -> (exn + A) * world D.

Definition ret {A} (a : A) : M A := fun w => (inr a, w).

Definition bind {A B} (m : M A) (k : A -> M B) : M B :=
  fun w => match m w with
           | (inr a, w') => k a w'
           | (inl e, w') => (inl e, w')
           end.

Definition throw {A} (e : exn) : M A := fun w => (inl e, w).

(** [try { m } catch (error) { h error }] *)
Definition try_catch {A} (m : M A) (h : exn -> M A) : M A :=
  fun w => match m w with
           | (inl e, w') => h e w'
           | r => r
           end.

Definition log (o : op) (w : world D) : world D :=
  World (db w) (trace w ++ [o]) (clock w) (ticks w) (oids w) (issued w).

Definition set_db (d : D) (w : world D) : world D :=
  World d (trace w) (clock w) (ticks w) (oids w) (issued w).

(** The world after one more reading of the clock. *)
Definition tick (w : world D) : world D :=
  World (db w) (trace w) (clock w) (S (ticks w)) (oids w) (issued w).

(** [new Date()] / [Date.now()]: milliseconds since the epoch. *)
Definition Date_now : M Z :=
  fun w => (inr (clock w (ticks w)), tick w).

(** [db.collection(c).find(q).toArray()] *)
Definition db_find (c : coll) (q : Mongo.filter) : M (list Mongo.doc) :=
  fun w => (inr (Mongo.find q (docs c (db w))), log (OpFind c q) w).

(** [db.collection(c).findOne(q)] *)
Definition db_findOne (c : coll) (q : Mongo.filter) : M (option Mongo.doc) :=
  fun w => (inr (Mongo.findOne q (docs c (db w))), log (OpFindOne c q) w).

(** The driver gives a document without [_id] a generated [ObjectId]
    before it is sent. *)
Definition with_generated_id (d : Mongo.doc) : M Mongo.doc :=
  fun w => match d !! "_id" with
           | Some _ => (inr d, w)
           | None => (inr (<["_id" := VOid (oids w (issued w))]> d),
                      World (db w) (trace w) (clock w) (ticks w) (oids w) (S (issued w)))
           end.

(** [db.collection(c).insertOne(d)]; returns [result.insertedId]. *)
Definition db_insertOne (c : coll) (d : Mongo.doc) : M value :=
  bind (with_generated_id d) (fun d' w =>
    let w' := log (OpInsertOne c d') w in
    match Mongo.insert (unique_fields c (db w)) (Mongo.serialize d') (docs c (db w)) with
    | Some l => (inr (prop "_id" d'), set_db (with_docs c l (db w)) w')
    | None => (inl MongoServerError, w')
    end).

(** [db.collection(c).updateOne(q, { $set: u })]; returns
    [result.matchedCount]. *)
Definition db_updateOne (c : coll) (q : Mongo.filter) (u : Mongo.doc) : M nat :=
  fun w =>
    let w' := log (OpUpdateOne c q u) w in
    match Mongo.update (unique_fields c (db w)) q u (docs c (db w)) with
    | Mongo.Unmatched => (inr 0%nat, w')
    | Mongo.Updated l => (inr 1%nat, set_db (with_docs c l (db w)) w')
    | Mongo.Rejected => (inl MongoServerError, w')
    end.

(** [db.collection(c).deleteOne(q)]; returns [result.deletedCount]. *)
Definition db_deleteOne (c : coll) (q : Mongo.filter) : M nat :=
  fun w =>
    let w' := log (OpDeleteOne c q) w in
    match Mongo.delete_first q (docs c (db w)) with
    | None => (inr 0%nat, w')
    | Some l => (inr 1%nat, set_db (with_docs c l (db w)) w')
    end.

(** [db.collection(c).deleteMany(q)]; returns [result.deletedCount]. *)
Definition db_deleteMany (c : coll) (q : Mongo.filter) : M nat :=
  fun w =>
    let l := Mongo.delete_many q (docs c (db w)) in
    (inr (List.length (docs c (db w)) - List.length l)%nat,
     set_db (with_docs c l (db w)) (log (OpDeleteMany c q) w)).

End Monad.

Arguments M D A : clear implicits.

Declare Scope js_scope.
Delimit Scope js_scope with js.
Notation "'let!' x ':=' m 'in' k" := (bind m (fun x => k))
  (at level 10, x name, m at level 100, k at level 200,
   format "'[v' 'let!'  x  ':='  m  'in' '/' k ']'") : js_scope.
#[local] Open Scope js_scope.

(* ===================================================================== *)
(** ** The libraries: jsonwebtoken and bson *)
(* ===================================================================== *)

(** The handlers call both; neither is part of the repository, so each is
    an interface here. *)
Module Jwt.

(** The payload [{ userId, email }] that [generateToken] signs. *)
Record claims : Type := Claims { userId : string; email : string }.

(** What [jwt.verify] returns: the payload with the issue and expiry
    times (seconds since the epoch) that [jwt.sign] added. *)
Record decoded : Type := Decoded { payload : claims; iat : Z; exp : Z }.

(** [sign payload secret expiresIn now] and [verify token secret now];
    [None] stands for a thrown error. [expiresIn] is in seconds, [now]
    in milliseconds; the secret is [process.env.JWT_SECRET], which may
    be unset. *)
Class Lib : Type := {
  sign : claims -> option string -> Z -> Z -> option string;
  verify : string -> option string -> Z -> option decoded
}.

(** What the handlers rely on: a configured secret signs; a token
    verifies under the secret that signed it until the clock, in whole
    seconds, reaches its expiry; without a secret nothing is signed. *)
Class Laws `{jwt : Lib} : Prop := {
  sign_with_secret c s e t :
    s <> "" -> is_Some (sign c (Some s) e t);
  verify_signed c s e t tok t' :
    sign c (Some s) e t = Some tok ->
    t' / 1000 < t / 1000 + e ->
    verify tok (Some s) t' = Some (Decoded c (t / 1000) (t / 1000 + e));
  sign_without_secret c e t : sign c None e t = None
}.

End Jwt.

(** [new ObjectId(v)]: the canonical hexadecimal form of the identifier
    that [v] denotes, or [None] when the constructor throws. *)
Class Bson : Type := { ObjectId : value -> option string }.

(* ===================================================================== *)
(** ** Requests, responses and routes *)
(* ===================================================================== *)

(** [process.env] *)
Record process_env : Type := Env { JWT_SECRET : option string }.

(** The [user] argument of [generateToken]. *)
Record user : Type := User { _id : string; email : string }.

(** The body handed to [res.json]. *)
Inductive json : Type :=
| JError (error : string)          (* { error: "..." } *)
| JMessage (message : string)      (* { message: "..." } *)
| JNull
| JDoc (d : obj)
| JDocs (ds : list obj).

Record response : Type := Response { status : Z; sent : json }.

(** The parts of [req] the handlers read: the [authorization] header,
    [req.params.id], [req.query], [req.body], and [req.user] once the
    middleware has set it. *)
Record request : Type := Request {
  authorization : option string;
  param_id : string;
  query : obj;
  body : obj;
  req_user : option Jwt.decoded
}.

Definition with_user (u : Jwt.decoded) (req : request) : request :=
  Request (authorization req) (param_id req) (query req) (body req) (Some u).

(** A header or token is a string or [undefined]. *)
Definition str_value (o : option string) : value :=
  match o with Some s => VStr s | None => VUndefined end.

(** [res.json(x)] for a possibly-null document. *)
Definition json_of (o : option obj) : json :=
  match o with Some d => JDoc d | None => JNull end.

(** ["30d"] in seconds. *)
Definition thirty_days : Z := 30 * 24 * 60 * 60.

(** The routes of the application. *)
Inductive route : Type :=
| GET_categories | GET_categories_id | POST_categories
| PUT_categories_id | DELETE_categories_id
| GET_subcategories | GET_subcategories_id | POST_subcategories
| PUT_subcategories_id | DELETE_subcategories_id.

(** The routes registered with [app.post], [app.put] or [app.delete]. *)
Definition mutating (r : route) : bool :=
  match r with
  | GET_categories | GET_categories_id
  | GET_subcategories | GET_subcategories_id => false
  | _ => true
  end.

(** How the start of the process ends: [process.exit(code)], or the server
    listening with the database handle set. *)
Inductive startup_result (D : Type) : Type :=
| Exited (code : Z)
| Listening (d : D).
Arguments Exited {D}.
Arguments Listening {D}.

(* ===================================================================== *)
(** ** Variant A *)
(* ===================================================================== *)

Module VariantA.

(** The database [nesswearDB] as this variant uses it. *)
Record database : Type := Database {
  categories : list Mongo.doc;
  subcategories : list Mongo.doc
}.

(** This variant creates no index: [_id] is the only unique field. *)
#[global] Instance database_store : Store database := {|
  docs c d := match c with
              | Categories => categories d
              | Subcategories => subcategories d
              end;
  with_docs c l d := match c with
                     | Categories => Database l (subcategories d)
                     | Subcategories => Database (categories d) l
                     end;
  unique_fields _ _ := []
|}.

Abbreviation M := (M database).

Section Handlers.
Context `{jwt : Jwt.Lib}.
Variable env : process_env.

(** [jwt.sign] reads the clock when it signs; what it throws, on a
    missing secret, it throws before the clock is read. In the first
    second of the epoch the library reads the clock a second time for
    the expiry; that second is left out here. *)
Definition generateToken (u : user) : M string :=
  fun w =>
    match Jwt.sign (Jwt.Claims (_id u) (email u)) (JWT_SECRET env) thirty_days
                   (clock w (ticks w)) with
    | Some token => (inr token, tick w)
    | None => (inl JsonWebTokenError, w)
    end.

Definition verifyToken (token : string) : M (option Jwt.decoded) :=
  try_catch
    (let! now := Date_now in
     match Jwt.verify token (JWT_SECRET env) now with
     | Some decoded => ret (Some decoded)
     | None => throw JsonWebTokenError
     end)
    (fun _ => ret None).

(** [authHeader && authHeader.split(' ')[1]] *)
Definition bearer (authHeader : option string) : option string :=
  if truthy (str_value authHeader)
  then nth_error (split " " (default "" authHeader)) 1
  else authHeader.

Definition authenticateToken (next : request -> M response) (req : request)
  : M response :=
  let token := bearer (authorization req) in
  if negb (truthy (str_value token))
  then ret (Response 401 (JError "Access token required"))
  else
    let! decoded := verifyToken (default "" token) in
    match decoded with
    | None => ret (Response 403 (JError "Invalid or expired token"))
    | Some d => next (with_user d req)
    end.

(** [GET /categories] *)
Definition get_categories (req : request) : M response :=
  try_catch
    (let! categories := db_find Categories [] in
     ret (Response 200 (JDocs categories)))
    (fun _ => ret (Response 500 (JError "Failed to fetch categories"))).

(** [GET /categories/:id] *)
Definition get_categories_id (req : request) : M response :=
  try_catch
    (let id := param_id req in
     let! category := db_findOne Categories [("_id", VStr id)] in
     match category with
     | None => ret (Response 404 (JError "Category not found"))
     | Some c => ret (Response 200 (JDoc c))
     end)
    (fun _ => ret (Response 500 (JError "Failed to fetch category"))).

(** [POST /categories] *)
Definition post_categories (req : request) : M response :=
  try_catch
    (let name := prop "name" (body req) in
     let description := prop "description" (body req) in
     let image := prop "image" (body req) in
     let isActive := prop_default "isActive" (VBool true) (body req) in
     if negb (truthy name)
     then ret (Response 400 (JError "Category name is required"))
     else
       let! t_id := Date_now in
       let! t_created := Date_now in
       let! t_updated := Date_now in
       let category := object [
         ("_id", VStr (toString t_id));
         ("name", name);
         ("description", description);
         ("image", image);
         ("isActive", isActive);
         ("createdAt", VDate t_created);
         ("updatedAt", VDate t_updated)] in
       let! insertedId := db_insertOne Categories category in
       if truthy insertedId
       then ret (Response 201 (JDoc category))
       else ret (Response 500 (JError "Failed to create category")))
    (fun _ => ret (Response 500 (JError "Failed to create category"))).

(** [PUT /categories/:id] *)
Definition put_categories_id (req : request) : M response :=
  try_catch
    (let id := param_id req in
     let name := prop "name" (body req) in
     let description := prop "description" (body req) in
     let image := prop "image" (body req) in
     let isActive := prop "isActive" (body req) in
     let! now := Date_now in
     let updateData := object [("updatedAt", VDate now)] in
     let updateData := assign_if_defined "name" name updateData in
     let updateData := assign_if_defined "description" description updateData in
     let updateData := assign_if_defined "image" image updateData in
     let updateData := assign_if_defined "isActive" isActive updateData in
     let! matchedCount := db_updateOne Categories [("_id", VStr id)] updateData in
     if (matchedCount =? 0)%nat
     then ret (Response 404 (JError "Category not found"))
     else
       let! updatedCategory := db_findOne Categories [("_id", VStr id)] in
       ret (Response 200 (json_of updatedCategory)))
    (fun _ => ret (Response 500 (JError "Failed to update category"))).

(** [DELETE /categories/:id] *)
Definition delete_categories_id (req : request) : M response :=
  try_catch
    (let id := param_id req in
     let! deletedCount := db_deleteOne Categories [("_id", VStr id)] in
     if (deletedCount =? 0)%nat
     then ret (Response 404 (JError "Category not found"))
     else
       let! _ := db_deleteMany Subcategories [("categoryId", VStr id)] in
       ret (Response 200 (JMessage "Category deleted successfully")))
    (fun _ => ret (Response 500 (JError "Failed to delete category"))).

(** [GET /subcategories] *)
Definition get_subcategories (req : request) : M response :=
  try_catch
    (let categoryId := prop "categoryId" (query req) in
     let query := if truthy categoryId then [("categoryId", categoryId)] else [] in
     let! subcategories := db_find Subcategories query in
     ret (Response 200 (JDocs subcategories)))
    (fun _ => ret (Response 500 (JError "Failed to fetch subcategories"))).

(** [GET /subcategories/:id] *)
Definition get_subcategories_id (req : request) : M response :=
  try_catch
    (let id := param_id req in
     let! subcategory := db_findOne Subcategories [("_id", VStr id)] in
     match subcategory with
     | None => ret (Response 404 (JError "Subcategory not found"))
     | Some s => ret (Response 200 (JDoc s))
     end)
    (fun _ => ret (Response 500 (JError "Failed to fetch subcategory"))).

(** [POST /subcategories] *)
Definition post_subcategories (req : request) : M response :=
  try_catch
    (let name := prop "name" (body req) in
     let description := prop "description" (body req) in
     let categoryId := prop "categoryId" (body req) in
     let image := prop "image" (body req) in
     let isActive := prop_default "isActive" (VBool true) (body req) in
     if negb (truthy name)
     then ret (Response 400 (JError "Subcategory name is required"))
     else if negb (truthy categoryId)
     then ret (Response 400 (JError "Category ID is required"))
     else
       let! category := db_findOne Categories [("_id", categoryId)] in
       match category with
       | None => ret (Response 400 (JError "Parent category not found"))
       | Some _ =>
           let! t_id := Date_now in
           let! t_created := Date_now in
           let! t_updated := Date_now in
           let subcategory := object [
             ("_id", VStr (toString t_id));
             ("name", name);
             ("description", description);
             ("categoryId", categoryId);
             ("image", image);
             ("isActive", isActive);
             ("createdAt", VDate t_created);
             ("updatedAt", VDate t_updated)] in
           let! insertedId := db_insertOne Subcategories subcategory in
           if truthy insertedId
           then ret (Response 201 (JDoc subcategory))
           else ret (Response 500 (JError "Failed to create subcategory"))
       end)
    (fun _ => ret (Response 500 (JError "Failed to create subcategory"))).

(** The tail of [PUT /subcategories/:id], from [updateOne] on. *)
Definition put_subcategories_write (id : string) (updateData : obj) : M response :=
  let! matchedCount := db_updateOne Subcategories [("_id", VStr id)] updateData in
  if (matchedCount =? 0)%nat
  then ret (Response 404 (JError "Subcategory not found"))
  else
    let! updatedSubcategory := db_findOne Subcategories [("_id", VStr id)] in
    ret (Response 200 (json_of updatedSubcategory)).

(** [PUT /subcategories/:id] *)
Definition put_subcategories_id (req : request) : M response :=
  try_catch
    (let id := param_id req in
     let name := prop "name" (body req) in
     let description := prop "description" (body req) in
     let categoryId := prop "categoryId" (body req) in
     let image := prop "image" (body req) in
     let isActive := prop "isActive" (body req) in
     let! now := Date_now in
     let updateData := object [("updatedAt", VDate now)] in
     let updateData := assign_if_defined "name" name updateData in
     let updateData := assign_if_defined "description" description updateData in
     let updateData := assign_if_defined "image" image updateData in
     let updateData := assign_if_defined "isActive" isActive updateData in
     if decide (categoryId = VUndefined)
     then put_subcategories_write id updateData
     else
       let! category := db_findOne Categories [("_id", categoryId)] in
       match category with
       | None => ret (Response 400 (JError "Parent category not found"))
       | Some _ =>
           put_subcategories_write id (<["categoryId" := categoryId]> updateData)
       end)
    (fun _ => ret (Response 500 (JError "Failed to update subcategory"))).

(** [DELETE /subcategories/:id] *)
Definition delete_subcategories_id (req : request) : M response :=
  try_catch
    (let id := param_id req in
     let! deletedCount := db_deleteOne Subcategories [("_id", VStr id)] in
     if (deletedCount =? 0)%nat
     then ret (Response 404 (JError "Subcategory not found"))
     else ret (Response 200 (JMessage "Subcategory deleted successfully")))
    (fun _ => ret (Response 500 (JError "Failed to delete subcategory"))).

(** The route table: [app.get(path, handler)] for the reads,
    [app.post/put/delete(path, authenticateToken, handler)] for the
    writes. *)
Definition app (r : route) : request -> M response :=
  match r with
  | GET_categories => get_categories
  | GET_categories_id => get_categories_id
  | POST_categories => authenticateToken post_categories
  | PUT_categories_id => authenticateToken put_categories_id
  | DELETE_categories_id => authenticateToken delete_categories_id
  | GET_subcategories => get_subcategories
  | GET_subcategories_id => get_subcategories_id
  | POST_subcategories => authenticateToken post_subcategories
  | PUT_subcategories_id => authenticateToken put_subcategories_id
  | DELETE_subcategories_id => authenticateToken delete_subcategories_id
  end.

End Handlers.

(** The start of the process: [app.listen] runs [connectDB], which exits
    with code 1 when the connection fails. [connection] is the database
    that [client.connect()] reaches, if any. The signing secret is not
    looked at. *)
Definition startup (env : process_env) (connection : option database)
  : startup_result database :=
  match connection with
  | Some d => Listening d
  | None => Exited 1
  end.

End VariantA.

(* ===================================================================== *)
(** ** Variant B *)
(* ===================================================================== *)

Module VariantB.

(** The database [nesswearDB] as this variant uses it: each collection
    may carry the unique index on [name] that [connectDB] asks for. *)
Record database : Type := Database {
  categories : list Mongo.doc;
  subcategories : list Mongo.doc;
  categories_name_unique : bool;
  subcategories_name_unique : bool
}.

#[global] Instance database_store : Store database := {|
  docs c d := match c with
              | Categories => categories d
              | Subcategories => subcategories d
              end;
  with_docs c l d :=
    match c with
    | Categories =>
        Database l (subcategories d)
                 (categories_name_unique d) (subcategories_name_unique d)
    | Subcategories =>
        Database (categories d) l
                 (categories_name_unique d) (subcategories_name_unique d)
    end;
  unique_fields c d :=
    match c with
    | Categories => if categories_name_unique d then ["name"] else []
    | Subcategories => if subcategories_name_unique d then ["name"] else []
    end
|}.

Abbreviation M := (M database).

(** [createIndex({ name: 1 }, { unique: true })]: a no-op when the index
    is there, built when the stored names are pairwise distinct, refused
    ([None]) otherwise. *)
Definition createIndex_name (c : coll) (d : database) : option database :=
  if bool_decide (unique_fields c d = ["name"]) then Some d
  else if bool_decide (NoDup (Mongo.index_key "name" <$> docs c d))
  then Some match c with
            | Categories =>
                Database (categories d) (subcategories d)
                         true (subcategories_name_unique d)
            | Subcategories =>
                Database (categories d) (subcategories d)
                         (categories_name_unique d) true
            end
  else None.

(** The body of [connectDB] after a successful [client.connect()]: each
    [createIndex(...).catch(() => {})] leaves the database as it is when
    the index is refused. *)
Definition connectDB (d : database) : database :=
  let d := default d (createIndex_name Categories d) in
  default d (createIndex_name Subcategories d).

(** The start of the process: exit with code 1 when [JWT_SECRET] is
    falsy, then [connectDB] (exit with code 1 when the connection
    fails), then [app.listen]. *)
Definition startup (env : process_env) (connection : option database)
  : startup_result database :=
  if negb (truthy (str_value (JWT_SECRET env))) then Exited 1
  else match connection with
       | Some d => Listening (connectDB d)
       | None => Exited 1
       end.

Section Handlers.
Context `{jwt : Jwt.Lib} `{bson : Bson}.
Variable env : process_env.

Definition new_ObjectId (v : value) : M value :=
  match ObjectId v with
  | Some hex => ret (VOid hex)
  | None => throw BSONError
  end.

(** [jwt.sign] reads the clock when it signs; what it throws, on a
    missing secret, it throws before the clock is read. In the first
    second of the epoch the library reads the clock a second time for
    the expiry; that second is left out here. *)
Definition generateToken (u : user) : M string :=
  fun w =>
    match Jwt.sign (Jwt.Claims (_id u) (email u)) (JWT_SECRET env) thirty_days
                   (clock w (ticks w)) with
    | Some token => (inr token, tick w)
    | None => (inl JsonWebTokenError, w)
    end.

Definition verifyToken (token : string) : M (option Jwt.decoded) :=
  try_catch
    (let! now := Date_now in
     match Jwt.verify token (JWT_SECRET env) now with
     | Some decoded => ret (Some decoded)
     | None => throw JsonWebTokenError
     end)
    (fun _ => ret None).

(** [authHeader.startsWith("Bearer ") ? authHeader.split(" ")[1] : null]
    with [authHeader = req.headers.authorization || ""]. *)
Definition bearer (authorization : option string) : option string :=
  let authHeader :=
    if truthy (str_value authorization) then default "" authorization else "" in
  if startsWith "Bearer " authHeader
  then nth_error (split " " authHeader) 1
  else None.

Definition authenticateToken (next : request -> M response) (req : request)
  : M response :=
  let token := bearer (authorization req) in
  if negb (truthy (str_value token))
  then ret (Response 401 (JError "Access token required"))
  else
    let! decoded := verifyToken (default "" token) in
    match decoded with
    | None => ret (Response 403 (JError "Invalid or expired token"))
    | Some d => next (with_user d req)
    end.

(** [GET /categories] *)
Definition get_categories (req : request) : M response :=
  try_catch
    (let! categories := db_find Categories [] in
     ret (Response 200 (JDocs categories)))
    (fun _ => ret (Response 500 (JError "Failed to fetch categories"))).

(** [GET /categories/:id] *)
Definition get_categories_id (req : request) : M response :=
  try_catch
    (let id := param_id req in
     let! oid := new_ObjectId (VStr id) in
     let! category := db_findOne Categories [("_id", oid)] in
     match category with
     | None => ret (Response 404 (JError "Category not found"))
     | Some c => ret (Response 200 (JDoc c))
     end)
    (fun _ => ret (Response 500 (JError "Failed to fetch category"))).

(** [POST /categories] *)
Definition post_categories (req : request) : M response :=
  try_catch
    (let name := prop "name" (body req) in
     let description := prop "description" (body req) in
     let image := prop "image" (body req) in
     let isActive := prop_default "isActive" (VBool true) (body req) in
     if negb (truthy name)
     then ret (Response 400 (JError "Category name required"))
     else
       let! t_created := Date_now in
       let! t_updated := Date_now in
       let category := object [
         ("name", name);
         ("description", description);
         ("image", image);
         ("isActive", isActive);
         ("createdAt", VDate t_created);
         ("updatedAt", VDate t_updated)] in
       let! insertedId := db_insertOne Categories category in
       ret (Response 201 (JDoc (<["_id" := insertedId]> category))))
    (fun _ => ret (Response 500 (JError "Failed to create category"))).

(** [PUT /categories/:id] *)
Definition put_categories_id (req : request) : M response :=
  try_catch
    (let id := param_id req in
     let name := prop "name" (body req) in
     let description := prop "description" (body req) in
     let image := prop "image" (body req) in
     let isActive := prop "isActive" (body req) in
     let! now := Date_now in
     let updateData := object [("updatedAt", VDate now)] in
     let updateData := assign_if_defined "name" name updateData in
     let updateData := assign_if_defined "description" description updateData in
     let updateData := assign_if_defined "image" image updateData in
     let updateData := assign_if_defined "isActive" isActive updateData in
     let! oid := new_ObjectId (VStr id) in
     let! matchedCount := db_updateOne Categories [("_id", oid)] updateData in
     if (matchedCount =? 0)%nat
     then ret (Response 404 (JError "Category not found"))
     else
       let! oid' := new_ObjectId (VStr id) in
       let! updatedCategory := db_findOne Categories [("_id", oid')] in
       ret (Response 200 (json_of updatedCategory)))
    (fun _ => ret (Response 500 (JError "Failed to update category"))).

(** [DELETE /categories/:id] *)
Definition delete_categories_id (req : request) : M response :=
  try_catch
    (let id := param_id req in
     let! oid := new_ObjectId (VStr id) in
     let! deletedCount := db_deleteOne Categories [("_id", oid)] in
     if (deletedCount =? 0)%nat
     then ret (Response 404 (JError "Category not found"))
     else
       let! _ := db_deleteMany Subcategories [("categoryId", VStr id)] in
       ret (Response 200 (JMessage "Category deleted successfully")))
    (fun _ => ret (Response 500 (JError "Failed to delete category"))).

(** [GET /subcategories] *)
Definition get_subcategories (req : request) : M response :=
  try_catch
    (let categoryId := prop "categoryId" (query req) in
     let query := if truthy categoryId then [("categoryId", categoryId)] else [] in
     let! subcategories := db_find Subcategories query in
     ret (Response 200 (JDocs subcategories)))
    (fun _ => ret (Response 500 (JError "Failed to fetch subcategories"))).

(** [GET /subcategories/:id] *)
Definition get_subcategories_id (req : request) : M response :=
  try_catch
    (let id := param_id req in
     let! oid := new_ObjectId (VStr id) in
     let! subcategory := db_findOne Subcategories [("_id", oid)] in
     match subcategory with
     | None => ret (Response 404 (JError "Subcategory not found"))
     | Some s => ret (Response 200 (JDoc s))
     end)
    (fun _ => ret (Response 500 (JError "Failed to fetch subcategory"))).

(** [POST /subcategories] *)
Definition post_subcategories (req : request) : M response :=
  try_catch
    (let name := prop "name" (body req) in
     let description := prop "description" (body req) in
     let categoryId := prop "categoryId" (body req) in
     let image := prop "image" (body req) in
     let isActive := prop_default "isActive" (VBool true) (body req) in
     if negb (truthy name)
     then ret (Response 400 (JError "Subcategory name required"))
     else if negb (truthy categoryId)
     then ret (Response 400 (JError "Category ID required"))
     else
       let! oid := new_ObjectId categoryId in
       let! category := db_findOne Categories [("_id", oid)] in
       match category with
       | None => ret (Response 400 (JError "Parent category not found"))
       | Some _ =>
           let! t_created := Date_now in
           let! t_updated := Date_now in
           let subcategory := object [
             ("name", name);
             ("description", description);
             ("categoryId", categoryId);
             ("image", image);
             ("isActive", isActive);
             ("createdAt", VDate t_created);
             ("updatedAt", VDate t_updated)] in
           let! insertedId := db_insertOne Subcategories subcategory in
           ret (Response 201 (JDoc (<["_id" := insertedId]> subcategory)))
       end)
    (fun _ => ret (Response 500 (JError "Failed to create subcategory"))).

(** The tail of [PUT /subcategories/:id], from [updateOne] on. *)
Definition put_subcategories_write (id : string) (updateData : obj) : M response :=
  let! oid := new_ObjectId (VStr id) in
  let! matchedCount := db_updateOne Subcategories [("_id", oid)] updateData in
  if (matchedCount =? 0)%nat
  then ret (Response 404 (JError "Subcategory not found"))
  else
    let! oid' := new_ObjectId (VStr id) in
    let! updatedSubcategory := db_findOne Subcategories [("_id", oid')] in
    ret (Response 200 (json_of updatedSubcategory)).

(** [PUT /subcategories/:id] *)
Definition put_subcategories_id (req : request) : M response :=
  try_catch
    (let id := param_id req in
     let name := prop "name" (body req) in
     let description := prop "description" (body req) in
     let categoryId := prop "categoryId" (body req) in
     let image := prop "image" (body req) in
     let isActive := prop "isActive" (body req) in
     let! now := Date_now in
     let updateData := object [("updatedAt", VDate now)] in
     let updateData := assign_if_defined "name" name updateData in
     let updateData := assign_if_defined "description" description updateData in
     let updateData := assign_if_defined "image" image updateData in
     let updateData := assign_if_defined "isActive" isActive updateData in
     if decide (categoryId = VUndefined)
     then put_subcategories_write id updateData
     else
       let! oid := new_ObjectId categoryId in
       let! category := db_findOne Categories [("_id", oid)] in
       match category with
       | None => ret (Response 400 (JError "Parent category not found"))
       | Some _ =>
           put_subcategories_write id (<["categoryId" := categoryId]> updateData)
       end)
    (fun _ => ret (Response 500 (JError "Failed to update subcategory"))).

(** [DELETE /subcategories/:id] *)
Definition delete_subcategories_id (req : request) : M response :=
  try_catch
    (let id := param_id req in
     let! oid := new_ObjectId (VStr id) in
     let! deletedCount := db_deleteOne Subcategories [("_id", oid)] in
     if (deletedCount =? 0)%nat
     then ret (Response 404 (JError "Subcategory not found"))
     else ret (Response 200 (JMessage "Subcategory deleted successfully")))
    (fun _ => ret (Response 500 (JError "Failed to delete subcategory"))).

Definition app (r : route) : request -> M response :=
  match r with
  | GET_categories => get_categories
  | GET_categories_id => get_categories_id
  | POST_categories => authenticateToken post_categories
  | PUT_categories_id => authenticateToken put_categories_id
  | DELETE_categories_id => authenticateToken delete_categories_id
  | GET_subcategories => get_subcategories
  | GET_subcategories_id => get_subcategories_id
  | POST_subcategories => authenticateToken post_subcategories
  | PUT_subcategories_id => authenticateToken put_subcategories_id
  | DELETE_subcategories_id => authenticateToken delete_subcategories_id
  end.

End Handlers.

End VariantB.

(* ===================================================================== *)
(** ** Reference instances of the libraries *)
(* ===================================================================== *)

(** A small token library that satisfies [Jwt.Laws], and an [ObjectId]
    that accepts the strings of 24 hexadecimal digits. They stand in for
    the real libraries wherever a statement is instantiated. *)
Module Reference.

(** A string framed so that it can be read back from the front of a
    longer one: "c" before each character, "e" at the end. *)
Fixpoint frame (s : string) : string :=
  match s with
  | EmptyString => "e"
  | String c s' => String "c" (String c (frame s'))
  end.

Fixpoint unframe (s : string) : option (string * string) :=
  match s with
  | String k rest =>
      if Ascii.eqb k "e" then Some (EmptyString, rest)
      else match rest with
           | String c rest' =>
               match unframe rest' with
               | Some (x, r) => Some (String c x, r)
               | None => None
               end
           | EmptyString => None
           end
  | EmptyString => None
  end.

Fixpoint digits (p : positive) : string :=
  match p with
  | xH => EmptyString
  | xO p' => String "0" (digits p')
  | xI p' => String "1" (digits p')
  end.

Fixpoint of_digits (s : string) : positive :=
  match s with
  | EmptyString => xH
  | String c s' => if Ascii.eqb c "1" then xI (of_digits s') else xO (of_digits s')
  end.

Definition number (z : Z) : string :=
  match z with
  | Z0 => "z"
  | Zpos p => String "p" (digits p)
  | Zneg p => String "n" (digits p)
  end.

Definition of_number (s : string) : Z :=
  match s with
  | String c s' =>
      if Ascii.eqb c "p" then Zpos (of_digits s')
      else if Ascii.eqb c "n" then Zneg (of_digits s')
      else Z0
  | EmptyString => Z0
  end.

Definition toy_sign (c : Jwt.claims) (secret : option string) (expiresIn now : Z)
  : option string :=
  match secret with
  | Some s =>
      if bool_decide (s = "") then None
      else Some (frame s +:+ frame (Jwt.userId c) +:+ frame (Jwt.email c)
                 +:+ frame (number (now / 1000))
                 +:+ frame (number (now / 1000 + expiresIn)))
  | None => None
  end.

Definition toy_verify (token : string) (secret : option string) (now : Z)
  : option Jwt.decoded :=
  match secret with
  | Some s =>
      if bool_decide (s = "") then None
      else
        '(s', r1) ← unframe token;
        '(u, r2) ← unframe r1;
        '(m, r3) ← unframe r2;
        '(i, r4) ← unframe r3;
        '(x, r5) ← unframe r4;
        if bool_decide (s' = s) && bool_decide (r5 = "")
           && (now / 1000 <? of_number x)%Z
        then Some (Jwt.Decoded (Jwt.Claims u m) (of_number i) (of_number x))
        else None
  | None => None
  end.

Definition toy_jwt : Jwt.Lib := {|
  Jwt.sign := toy_sign;
  Jwt.verify := toy_verify
|}.

Definition is_hex_digit (c : ascii) : bool :=
  let n := nat_of_ascii c in
  ((48 <=? n) && (n <=? 57) || (97 <=? n) && (n <=? 102)
   || (65 <=? n) && (n <=? 70))%nat.

Definition lower_hex (c : ascii) : ascii :=
  let n := nat_of_ascii c in
  if ((65 <=? n) && (n <=? 70))%nat then ascii_of_nat (n + 32) else c.

Fixpoint map_string (f : ascii -> ascii) (s : string) : string :=
  match s with
  | EmptyString => EmptyString
  | String c s' => String (f c) (map_string f s')
  end.

Fixpoint all_string (f : ascii -> bool) (s : string) : bool :=
  match s with
  | EmptyString => true
  | String c s' => f c && all_string f s'
  end.

Definition hex24 (v : value) : option string :=
  match v with
  | VStr s =>
      if (String.length s =? 24)%nat && all_string is_hex_digit s
      then Some (map_string lower_hex s)
      else None
  | _ => None
  end.

Definition hex24_bson : Bson := {| ObjectId := hex24 |}.

End Reference.

(* ===================================================================== *)
(** ** Vocabulary of the statements *)
(* ===================================================================== *)

(** [c] is [l1 ++ d :: l2] and [d] is its first match for [q]. *)
Definition first_match (q : Mongo.filter) (c l1 : list Mongo.doc) (d : Mongo.doc)
    (l2 : list Mongo.doc) : Prop :=
  c = l1 ++ d :: l2 /\ Forall (fun x => Mongo.matches q x = false) l1
  /\ Mongo.matches q d = true.

(** The string contains no space. *)
Fixpoint space_free (s : string) : bool :=
  match s with
  | EmptyString => true
  | String c s' => negb (Ascii.eqb c " ") && space_free s'
  end.

Section Gate.
Context `{jwt : Jwt.Lib} {D : Type}.

(** A route sits behind the token gate: [bearer] is how the variant
    reads the token off the [Authorization] header and [served] is the
    route as the application serves it.
    - a request without the header carries no token, and a header
      [Bearer <token>] carries that token;
    - without a token the answer is 401 and the world is untouched;
    - with a token that [jwt.verify] refuses the answer is 403, and
      neither the database nor the trace of driver calls has changed;
    - an answer other than 401 and 403, or any driver call, means that
      the request carried a token that [jwt.verify] accepted. *)
Definition token_gated (env : process_env)
    (bearer : option string -> option string)
    (served : request -> M D response) : Prop :=
  forall (req : request) (w : world D),
    let token := bearer (authorization req) in
    let now := clock w (ticks w) in
    (authorization req = None -> token = None) /\
    (forall tok, authorization req = Some ("Bearer " +:+ tok) ->
                 tok <> "" -> space_free tok = true -> token = Some tok) /\
    (truthy (str_value token) = false ->
       served req w = (inr (Response 401 (JError "Access token required")), w)) /\
    (forall tok, token = Some tok -> tok <> "" ->
       Jwt.verify tok (JWT_SECRET env) now = None ->
       exists w', served req w
                    = (inr (Response 403 (JError "Invalid or expired token")), w')
                  /\ db w' = db w /\ trace w' = trace w) /\
    (forall resp w', served req w = (inr resp, w') ->
       (status resp <> 401 /\ status resp <> 403) \/ trace w' <> trace w ->
       exists tok d, token = Some tok
                     /\ Jwt.verify tok (JWT_SECRET env) now = Some d).

End Gate.

(** No document of [c] has the identifier [v]. *)
Definition no_document (v : value) (c : list Mongo.doc) : Prop :=
  Forall (fun d => d !! "_id" <> Some v) c.

(** [c] is [l1 ++ d :: l2] and [d] is its first document with the
    identifier [v]. *)
Definition first_document (v : value) (c l1 : list Mongo.doc) (d : Mongo.doc)
    (l2 : list Mongo.doc) : Prop :=
  c = l1 ++ d :: l2 /\ no_document v l1 /\ d !! "_id" = Some v.

(** The subcategories of [c] that do not refer to the category [id]. *)
Definition not_referring (id : string) (c : list Mongo.doc) : list Mongo.doc :=
  List.filter (fun s => negb (bool_decide (s !! "categoryId" = Some (VStr id)))) c.

Section Cascade.
Context {D : Type} `{Store D}.

(** What is asked of a category-delete handler [delete] for the
    request [req] in the world [w], where [v] is the stored form of the
    identifier [req.params.id] and [list] is the handler of
    [GET /subcategories]:
    - when no category has the identifier, the answer is 404, the
      database is as it was and the one driver call made is the
      [deleteOne] on categories;
    - when a category has it, the answer is 200 with the success
      message, the first such category is gone, exactly the
      subcategories referring to the identifier are gone, the driver
      was called with [deleteOne] on categories and then [deleteMany] on
      subcategories, and listing the subcategories by that identifier
      afterwards gives the empty array. *)
Definition deletes_with_cascade (v : value)
    (delete list : request -> M D response)
    (req : request) (w : world D) : Prop :=
  let id := param_id req in
  (no_document v (docs Categories (db w)) ->
     exists w',
       delete req w = (inr (Response 404 (JError "Category not found")), w')
       /\ db w' = db w
       /\ trace w' = trace w ++ [OpDeleteOne Categories [("_id", v)]]) /\
  (forall l1 c l2,
     first_document v (docs Categories (db w)) l1 c l2 ->
     exists w',
       delete req w
         = (inr (Response 200 (JMessage "Category deleted successfully")), w')
       /\ docs Categories (db w') = l1 ++ l2
       /\ docs Subcategories (db w') = not_referring id (docs Subcategories (db w))
       /\ trace w' = trace w ++ [OpDeleteOne Categories [("_id", v)];
                                 OpDeleteMany Subcategories [("categoryId", VStr id)]]
       /\ (id <> "" ->
           forall req', prop "categoryId" (query req') = VStr id ->
             exists w'', list req' w' = (inr (Response 200 (JDocs [])), w''))).

End Cascade.

(** Every document carries an [_id], as the server guarantees of a stored
    collection. *)
Definition identified (c : list Mongo.doc) : Prop :=
  Forall (fun d => is_Some (d !! "_id")) c.

(** The body fields that [PUT /categories/:id] and
    [PUT /subcategories/:id] copy into the update. *)
Definition category_fields : list string :=
  ["name"; "description"; "image"; "isActive"].
Definition subcategory_fields : list string :=
  ["name"; "description"; "image"; "isActive"; "categoryId"].

(** The [updateData] object of the update handlers, for the clock reading
    [now]: the timestamp, then each listed field that the body defines. *)
Definition updateData_of (fields : list string) (now : Z) (body : obj) : obj :=
  foldl (fun u f => assign_if_defined f (prop f body) u)
        (object [("updatedAt", VDate now)]) fields.

(** Field [f] of a document [d] after an update from [body] at [now]: the
    update timestamp is [now], a listed field that the body supplies has
    the supplied value, and every other field is as it was. *)
Definition updated_field (fields : list string) (now : Z) (body : obj)
    (d : Mongo.doc) (f : string) : option value :=
  if decide (f = "updatedAt") then Some (VDate now)
  else if decide (f ∈ fields /\ prop f body <> VUndefined) then Some (prop f body)
  else d !! f.

Section UpdateSpec.
Context {D : Type} `{Store D}.

(** What is asked of an update handler [put] on the collection
    [c]: 404 with the database as it was when no document has the
    identifier; otherwise 200 with the document that is stored under the
    identifier after the update, whose update timestamp is the clock
    reading of this request. *)
Definition answers_update (c : coll) (missing : string)
    (put : request -> M D response) (req : request) (w : world D) : Prop :=
  let id := VStr (param_id req) in
  (no_document id (docs c (db w)) ->
     exists w', put req w = (inr (Response 404 (JError missing)), w')
                /\ db w' = db w) /\
  (forall l1 d l2,
     first_document id (docs c (db w)) l1 d l2 ->
     exists d' w',
       put req w = (inr (Response 200 (JDoc d')), w')
       /\ first_document id (docs c (db w')) l1 d' l2
       /\ d' !! "updatedAt" = Some (VDate (clock w (ticks w)))).

(** The frame of a successful update by [put] on the collection [c]:
    the first document with the identifier is replaced in place by one
    whose fields are given by [updated_field]; the documents around it
    and the other collection are as they were. *)
Definition update_frame (c other : coll) (fields : list string)
    (put : request -> M D response) (req : request) (w : world D) : Prop :=
  forall resp w',
    put req w = (inr resp, w') -> status resp = 200 ->
    exists l1 d l2 d',
      first_document (VStr (param_id req)) (docs c (db w)) l1 d l2
      /\ docs c (db w') = l1 ++ d' :: l2
      /\ docs other (db w') = docs other (db w)
      /\ forall f, d' !! f
                   = updated_field fields (clock w (ticks w)) (body req) d f.

End UpdateSpec.

(** The stored collection is keyed by [_id]: every document has one and no
    two documents share it. *)
Definition keyed (c : list Mongo.doc) : Prop :=
  identified c /\ NoDup ((fun d : Mongo.doc => d !! "_id") <$> c).

(** Both collections of variant A are keyed. *)
Definition keyed_database (d : VariantA.database) : Prop :=
  keyed (VariantA.categories d) /\ keyed (VariantA.subcategories d).

(** The computation leaves the property [I] of the database standing,
    whether it returns or throws. *)
Definition preserves {D A} (I : D -> Prop) (m : M D A) : Prop :=
  forall w, I (db w) -> I (db (m w).2).

(** Where variant B has the unique index on [name], the stored names are
    pairwise distinct. *)
Definition names_unique (d : VariantB.database) : Prop :=
  (VariantB.categories_name_unique d = true ->
     NoDup (Mongo.index_key "name" <$> VariantB.categories d)) /\
  (VariantB.subcategories_name_unique d = true ->
     NoDup (Mongo.index_key "name" <$> VariantB.subcategories d)).

(* ===================================================================== *)
(** ** The debug route and further vocabulary *)
(* ===================================================================== *)

(** [GET /api/test-jwt]: the same code in both variants. The handler has
    no [try] block, so what [generateToken] throws leaves the handler. *)
Module TestJwt.



Section Routes.
Context `{jwt : Jwt.Lib}.
Variable env : process_env.



End Routes.

End TestJwt.

(** [jwt.verify] refuses a token once the clock, in whole seconds, has
    reached its expiry. *)
Class JwtExpiry `{jwt : Jwt.Lib} : Prop := {
  verify_expired c s e t tok t' :
    Jwt.sign c (Some s) e t = Some tok ->
    t / 1000 + e <= t' / 1000 ->
    Jwt.verify tok (Some s) t' = None
}.

(** The handler that a mutating route of variant A runs behind the
    gate. *)
Definition gated_handler_A (r : route) : request -> VariantA.M response :=
  match r with
  | POST_categories => VariantA.post_categories
  | PUT_categories_id => VariantA.put_categories_id
  | DELETE_categories_id => VariantA.delete_categories_id
  | POST_subcategories => VariantA.post_subcategories
  | PUT_subcategories_id => VariantA.put_subcategories_id
  | DELETE_subcategories_id => VariantA.delete_subcategories_id
  | GET_categories => VariantA.get_categories
  | GET_categories_id => VariantA.get_categories_id
  | GET_subcategories => VariantA.get_subcategories
  | GET_subcategories_id => VariantA.get_subcategories_id
  end.

Section GatedB.
Context `{jwt : Jwt.Lib} `{bson : Bson}.

(** The same for variant B. *)
Definition gated_handler_B (r : route) : request -> VariantB.M response :=
  match r with
  | POST_categories => VariantB.post_categories
  | PUT_categories_id => VariantB.put_categories_id
  | DELETE_categories_id => VariantB.delete_categories_id
  | POST_subcategories => VariantB.post_subcategories
  | PUT_subcategories_id => VariantB.put_subcategories_id
  | DELETE_subcategories_id => VariantB.delete_subcategories_id
  | GET_categories => VariantB.get_categories
  | GET_categories_id => VariantB.get_categories_id
  | GET_subcategories => VariantB.get_subcategories
  | GET_subcategories_id => VariantB.get_subcategories_id
  end.

End GatedB.

(** The subcategory [s] refers to a stored category: its [categoryId] is
    the [_id] of a document of [cats]. *)
Definition resolves (cats : list Mongo.doc) (s : Mongo.doc) : Prop :=
  exists c v, c ∈ cats /\ s !! "categoryId" = Some v /\ c !! "_id" = Some v.

(** Referential integrity of a database of variant A: both collections
    are keyed and every subcategory refers to a stored category. *)
Definition consistent (d : VariantA.database) : Prop :=
  keyed_database d /\
  Forall (resolves (VariantA.categories d)) (VariantA.subcategories d).

Section Serial.
Context `{jwt : Jwt.Lib}.
Variable env : process_env.

(** Requests served one at a time: each runs to completion, whether it
    answers or throws, before the next one starts. The handlers are
    [async] and wait for the driver between their calls, so requests
    that arrive together may also interleave; such schedules are not
    runs of [serve]. *)
Fixpoint serve (requests : list (route * request)) (w : world VariantA.database)
  : world VariantA.database :=
  match requests with
  | [] => w
  | (r, req) :: rest => serve rest (VariantA.app env r req w).2
  end.

End Serial.

(** What a request may do to the database of variant A, as a relation
    between the database before and after: nothing; a category appended,
    rewritten under its identifier, or deleted together with the
    subcategories that refer to it; a subcategory appended with a
    reference that resolves, rewritten under its identifier with its
    reference kept or replaced by one that resolves, or deleted. *)
Inductive effect (d d' : VariantA.database) : Prop :=
| Untouched :
    d' = d -> effect d d'
| CategoryAdded (c : Mongo.doc) :
    VariantA.categories d' = VariantA.categories d ++ [c] ->
    VariantA.subcategories d' = VariantA.subcategories d ->
    effect d d'
| CategoryUpdated (l1 : list Mongo.doc) (c c' : Mongo.doc) (l2 : list Mongo.doc) :
    VariantA.categories d = l1 ++ c :: l2 ->
    VariantA.categories d' = l1 ++ c' :: l2 ->
    VariantA.subcategories d' = VariantA.subcategories d ->
    c' !! "_id" = c !! "_id" ->
    effect d d'
| CategoryDeleted (id : string) (l1 : list Mongo.doc) (c : Mongo.doc) (l2 : list Mongo.doc) :
    first_document (VStr id) (VariantA.categories d) l1 c l2 ->
    VariantA.categories d' = l1 ++ l2 ->
    VariantA.subcategories d' = not_referring id (VariantA.subcategories d) ->
    effect d d'
| SubcategoryAdded (s : Mongo.doc) :
    VariantA.categories d' = VariantA.categories d ->
    VariantA.subcategories d' = VariantA.subcategories d ++ [s] ->
    (identified (VariantA.categories d) -> resolves (VariantA.categories d) s) ->
    effect d d'
| SubcategoryUpdated (l1 : list Mongo.doc) (s s' : Mongo.doc) (l2 : list Mongo.doc) :
    VariantA.categories d' = VariantA.categories d ->
    VariantA.subcategories d = l1 ++ s :: l2 ->
    VariantA.subcategories d' = l1 ++ s' :: l2 ->
    (s' !! "categoryId" = s !! "categoryId"
     \/ (identified (VariantA.categories d) -> resolves (VariantA.categories d) s')) ->
    effect d d'
| SubcategoryDeleted (l1 : list Mongo.doc) (s : Mongo.doc) (l2 : list Mongo.doc) :
    VariantA.categories d' = VariantA.categories d ->
    VariantA.subcategories d = l1 ++ s :: l2 ->
    VariantA.subcategories d' = l1 ++ l2 ->
    effect d d'.

(** The objects that the create handlers of variant A build, for the
    three clock readings they take. *)
Definition new_category_A (body : obj) (t_id t_created t_updated : Z) : obj :=
  object [
    ("_id", VStr (toString t_id));
    ("name", prop "name" body);
    ("description", prop "description" body);
    ("image", prop "image" body);
    ("isActive", prop_default "isActive" (VBool true) body);
    ("createdAt", VDate t_created);
    ("updatedAt", VDate t_updated)].

Definition new_subcategory_A (body : obj) (t_id t_created t_updated : Z) : obj :=
  object [
    ("_id", VStr (toString t_id));
    ("name", prop "name" body);
    ("description", prop "description" body);
    ("categoryId", prop "categoryId" body);
    ("image", prop "image" body);
    ("isActive", prop_default "isActive" (VBool true) body);
    ("createdAt", VDate t_created);
    ("updatedAt", VDate t_updated)].

(* ===================================================================== *)
(** ** Facts about values and collections *)
(* ===================================================================== *)

Section ValueFacts.

Lemma truthy_defined v : truthy v = true -> v <> VUndefined /\ v <> VNull.
Proof. destruct v; simpl; intros Hv; split; congruence. Qed.

Lemma truthy_empty_string : truthy (VStr "") = false.
Proof. reflexivity. Qed.

Lemma truthy_string s : s <> "" -> truthy (VStr s) = true.
Proof. intros Hs. simpl. rewrite bool_decide_eq_false_2; done. Qed.

Lemma bson_defined v : v <> VUndefined -> Mongo.bson v = v.
Proof. destruct v; simpl; congruence. Qed.

Lemma bson_not_undefined v : Mongo.bson v <> VUndefined.
Proof. destruct v; simpl; congruence. Qed.

Lemma prop_lookup k (o : obj) v : o !! k = Some v -> prop k o = v.
Proof. unfold prop. intros ->. reflexivity. Qed.

Lemma prop_defined k (o : obj) : prop k o <> VUndefined -> o !! k = Some (prop k o).
Proof. unfold prop. destruct (o !! k); simpl; congruence. Qed.

Lemma lookup_assign_if_defined k v (o : obj) j :
  assign_if_defined k v o !! j =
    if decide (v = VUndefined) then o !! j
    else if decide (k = j) then Some v else o !! j.
Proof.
  unfold assign_if_defined. destruct (decide (v = VUndefined)); [done|].
  apply lookup_insert.
Qed.

End ValueFacts.

Section CollectionFacts.
Import Mongo.

(** An equality condition on a value that is neither null nor undefined
    holds exactly of the documents that store that value. *)
Lemma field_eq_true f v d :
  v <> VUndefined -> v <> VNull ->
  field_eq f v d = true <-> d !! f = Some v.
Proof.
  intros Hu Hn. unfold field_eq. rewrite (bson_defined v Hu).
  destruct (d !! f) as [x|].
  - rewrite bool_decide_eq_true. split; congruence.
  - rewrite bool_decide_eq_true. split; congruence.
Qed.

Lemma matches_one f v d : matches [(f, v)] d = field_eq f v d.
Proof. unfold matches. simpl. apply andb_true_r. Qed.

Lemma find_all c : find [] c = c.
Proof.
  unfold find, matches. simpl.
  induction c as [|d c IH]; simpl; [done | by rewrite IH].
Qed.

Lemma findOne_Some q c d :
  findOne q c = Some d -> exists l1 l2, first_match q c l1 d l2.
Proof.
  unfold findOne. induction c as [|x c IH]; simpl; [done|].
  destruct (matches q x) eqn:Hx.
  - intros [= ->]. exists [], c. repeat split; [constructor | done].
  - intros Hf. destruct (IH Hf) as (l1 & l2 & -> & Hl1 & Hd).
    exists (x :: l1), l2. repeat split; [by constructor | done].
Qed.

Lemma findOne_None q c :
  findOne q c = None <-> Forall (fun x => matches q x = false) c.
Proof.
  unfold findOne. induction c as [|x c IH]; simpl.
  - split; [constructor | done].
  - destruct (matches q x) eqn:Hx.
    + split; [done|]. intros Hall. inversion Hall; congruence.
    + rewrite IH. split; [by constructor | by inversion 1].
Qed.

Lemma first_match_findOne q c l1 d l2 :
  first_match q c l1 d l2 -> findOne q c = Some d.
Proof.
  intros (-> & Hl1 & Hd). unfold findOne.
  induction Hl1 as [|x l1 Hx _ IH]; simpl; [by rewrite Hd | by rewrite Hx].
Qed.

Lemma first_match_delete q c l1 d l2 :
  first_match q c l1 d l2 -> delete_first q c = Some (l1 ++ l2).
Proof.
  intros (-> & Hl1 & Hd).
  induction Hl1 as [|x l1 Hx _ IH]; simpl; [by rewrite Hd|].
  by rewrite Hx, IH.
Qed.

Lemma first_match_update q u c l1 d l2 :
  first_match q c l1 d l2 ->
  update_first q u c = Some (l1 ++ set_fields u d :: l2).
Proof.
  intros (-> & Hl1 & Hd).
  induction Hl1 as [|x l1 Hx _ IH]; simpl; [by rewrite Hd|].
  by rewrite Hx, IH.
Qed.

Lemma delete_first_None q c : findOne q c = None -> delete_first q c = None.
Proof.
  unfold findOne. induction c as [|x c IH]; simpl; [done|].
  destruct (matches q x); [done|]. intros Hf. by rewrite IH.
Qed.

(** Without a secondary unique index an update is never refused. *)
Lemma update_no_index_None q u c :
  findOne q c = None -> update [] q u c = Unmatched.
Proof. unfold update. by intros ->. Qed.

Lemma update_no_index_Some q u c l1 d l2 :
  first_match q c l1 d l2 ->
  update [] q u c = Updated (l1 ++ set_fields u d :: l2).
Proof.
  intros Hm. unfold update.
  rewrite (first_match_findOne _ _ _ _ _ Hm), (first_match_delete _ _ _ _ _ Hm),
    (first_match_update _ u _ _ _ _ Hm).
  assert (existsb (collides [] (set_fields u d)) (l1 ++ l2) = false) as ->; [|done].
  induction (l1 ++ l2); simpl; done.
Qed.

Lemma lookup_set_fields u d f :
  set_fields u d !! f =
    match u !! f with Some v => Some (bson v) | None => d !! f end.
Proof.
  unfold set_fields, serialize.
  destruct (u !! f) as [v|] eqn:Hu.
  - apply lookup_union_Some_l. by rewrite lookup_fmap, Hu.
  - rewrite lookup_union_r; [done|]. by rewrite lookup_fmap, Hu.
Qed.

(** [$set] of fields other than [_id] keeps a document under the same
    identifier. *)
Lemma matches_id_set_fields v u d :
  u !! "_id" = None ->
  matches [("_id", v)] (set_fields u d) = matches [("_id", v)] d.
Proof.
  intros Hu. rewrite !matches_one. unfold field_eq.
  by rewrite lookup_set_fields, Hu.
Qed.

Lemma first_match_after_update v u c l1 d l2 :
  u !! "_id" = None ->
  first_match [("_id", v)] c l1 d l2 ->
  first_match [("_id", v)] (l1 ++ set_fields u d :: l2) l1 (set_fields u d) l2.
Proof.
  intros Hu (-> & Hl1 & Hd). repeat split; [done|].
  by rewrite matches_id_set_fields.
Qed.

Lemma find_delete_many q c : find q (delete_many q c) = [].
Proof.
  unfold find, delete_many.
  induction c as [|d c IH]; simpl; [done|].
  destruct (matches q d) eqn:Hd; simpl; [done|]. by rewrite Hd.
Qed.

Lemma delete_many_spec q c d :
  d ∈ delete_many q c <-> d ∈ c /\ matches q d = false.
Proof.
  unfold delete_many. rewrite !list_elem_of_In, filter_In.
  by rewrite negb_true_iff.
Qed.

End CollectionFacts.

(* ===================================================================== *)
(** ** Running a handler *)
(* ===================================================================== *)

Arguments Mongo.find : simpl never.
Arguments Mongo.findOne : simpl never.
Arguments Mongo.insert : simpl never.
Arguments Mongo.update : simpl never.
Arguments Mongo.delete_first : simpl never.
Arguments Mongo.delete_many : simpl never.
Arguments Mongo.set_fields : simpl never.
Arguments Mongo.serialize : simpl never.
Arguments Mongo.matches : simpl never.
Arguments Mongo.field_eq : simpl never.
Arguments object : simpl never.
Arguments prop : simpl never.
Arguments prop_default : simpl never.
Arguments assign_if_defined : simpl never.
Arguments toString : simpl never.

(** Unfold the monad and the driver calls, leaving the collection
    functions folded. *)
Ltac run :=
  unfold db_find, db_findOne, db_insertOne, db_updateOne, db_deleteOne,
    db_deleteMany, with_generated_id;
  unfold try_catch, bind, ret, throw, Date_now, set_db, log, tick;
  cbn [docs with_docs unique_fields VariantA.database_store
       VariantB.database_store db trace clock ticks oids issued
       VariantA.categories VariantA.subcategories
       VariantB.categories VariantB.subcategories
       VariantB.categories_name_unique VariantB.subcategories_name_unique].

(* ===================================================================== *)
(** ** Required fields on create *)
(* ===================================================================== *)

Section RequiredFields.
Context `{bson : Bson}.

(** C10. The required-field check of the create handlers tests
    falsiness, not presence: when [name] is falsy (absent, null, false,
    0 or the empty string) both create handlers answer 400 with their
    "name is required" message, and when the subcategory's [categoryId]
    is falsy under a truthy [name] the answer is 400 "Category ID is
    required". In each case the world is returned as it was: no driver
    call is traced, nothing is stored and the clock is not read.
    Variant B does the same with its own wording of the messages. *)
Theorem create_rejects_falsy_required_fields
    (req : request) (wa : world VariantA.database) (wb : world VariantB.database) :
  (truthy (prop "name" (body req)) = false ->
     VariantA.post_categories req wa
       = (inr (Response 400 (JError "Category name is required")), wa) /\
     VariantA.post_subcategories req wa
       = (inr (Response 400 (JError "Subcategory name is required")), wa) /\
     VariantB.post_categories req wb
       = (inr (Response 400 (JError "Category name required")), wb) /\
     VariantB.post_subcategories req wb
       = (inr (Response 400 (JError "Subcategory name required")), wb)) /\
  (truthy (prop "name" (body req)) = true ->
   truthy (prop "categoryId" (body req)) = false ->
     VariantA.post_subcategories req wa
       = (inr (Response 400 (JError "Category ID is required")), wa) /\
     VariantB.post_subcategories req wb
       = (inr (Response 400 (JError "Category ID required")), wb)).
Proof.
  split.
  - intros Hname.
    unfold VariantA.post_categories, VariantA.post_subcategories,
      VariantB.post_categories, VariantB.post_subcategories, try_catch.
    rewrite Hname. repeat split; reflexivity.
  - intros Hname Hcat.
    unfold VariantA.post_subcategories, VariantB.post_subcategories, try_catch.
    rewrite Hname, Hcat. split; reflexivity.
Qed.

End RequiredFields.

(** A body whose [name] is present but empty, and one whose [categoryId]
    is present but empty. *)
Lemma create_rejects_falsy_required_fields_witness :
  let wa := World (VariantA.Database [] []) [] (fun _ => 0) 0 (fun _ => "") 0 in
  let wb := World (VariantB.Database [] [] true true) [] (fun _ => 0) 0 (fun _ => "") 0 in
  let empty_name := Request None "" ∅ (object [("name", VStr "")]) None in
  let empty_ref :=
    Request None "" ∅ (object [("name", VStr "Zip"); ("categoryId", VStr "")]) None in
  (VariantA.post_categories empty_name wa
     = (inr (Response 400 (JError "Category name is required")), wa) /\
   VariantA.post_subcategories empty_name wa
     = (inr (Response 400 (JError "Subcategory name is required")), wa)) /\
  VariantA.post_subcategories empty_ref wa
     = (inr (Response 400 (JError "Category ID is required")), wa).
Proof.
  intros wa wb empty_name empty_ref. split.
  - destruct (create_rejects_falsy_required_fields
                (bson := Reference.hex24_bson) empty_name wa wb) as [Hname _].
    destruct (Hname eq_refl) as (Hcat & Hsub & _). by split.
  - destruct (create_rejects_falsy_required_fields
                (bson := Reference.hex24_bson) empty_ref wa wb) as [_ Href].
    apply (Href eq_refl eq_refl).
Defined.

(* ===================================================================== *)
(** ** Listing subcategories *)
(* ===================================================================== *)

Section Listing.
Import Mongo.

Lemma find_by_field f v c :
  v <> VUndefined -> v <> VNull ->
  find [(f, v)] c = List.filter (fun d => bool_decide (d !! f = Some v)) c.
Proof.
  intros Hu Hn. unfold find. apply List.filter_ext. intros d.
  rewrite matches_one. apply eq_true_iff_eq.
  rewrite field_eq_true, bool_decide_eq_true; done.
Qed.

End Listing.

(** C9. In both variants [GET /subcategories] filters only on a truthy
    [categoryId] parameter. A falsy one, the empty string included, sends
    back the whole collection in natural order through [find({})]; a
    truthy one sends back exactly the subcategories whose stored
    [categoryId] equals it. *)
Theorem list_subcategories_filters_only_when_truthy
    (req : request) (wa : world VariantA.database) (wb : world VariantB.database) :
  let categoryId := prop "categoryId" (query req) in
  let select (all : list obj) :=
    if truthy categoryId
    then List.filter (fun d => bool_decide (d !! "categoryId" = Some categoryId)) all
    else all in
  let traced :=
    OpFind Subcategories (if truthy categoryId then [("categoryId", categoryId)] else []) in
  truthy (VStr "") = false /\
  VariantA.get_subcategories req wa
    = (inr (Response 200 (JDocs (select (VariantA.subcategories (db wa))))), log traced wa) /\
  VariantB.get_subcategories req wb
    = (inr (Response 200 (JDocs (select (VariantB.subcategories (db wb))))), log traced wb).
Proof.
  intros categoryId select traced. subst select traced.
  split; [reflexivity|].
  unfold VariantA.get_subcategories, VariantB.get_subcategories,
    try_catch, bind, db_find, ret.
  fold categoryId. simpl.
  destruct (truthy categoryId) eqn:Ht.
  - destruct (truthy_defined _ Ht) as [Hu Hn].
    rewrite !find_by_field by done. done.
  - rewrite !find_all. done.
Qed.

(* ===================================================================== *)
(** ** The token gate *)
(* ===================================================================== *)

Section Headers.

Lemma split_cons sep c s :
  split sep (String c s) =
    if Ascii.eqb c sep then EmptyString :: split sep s
    else match split sep s with
         | x :: xs => String c x :: xs
         | [] => [String c EmptyString]
         end.
Proof. reflexivity. Qed.

Lemma split_space_free s : space_free s = true -> split " " s = [s].
Proof.
  induction s as [|c s IH]; simpl; [done|].
  intros [Hc Hs]%andb_true_iff. apply negb_true_iff in Hc.
  rewrite Hc, (IH Hs). done.
Qed.

Lemma split_bearer tok :
  space_free tok = true -> split " " ("Bearer " +:+ tok) = ["Bearer"; tok].
Proof.
  intros Htok.
  change ("Bearer " +:+ tok)
    with (String "B" (String "e" (String "a" (String "r" (String "e"
           (String "r" (String " " tok))))))).
  rewrite !split_cons. cbn [Ascii.eqb Bool.eqb].
  by rewrite (split_space_free _ Htok).
Qed.

Lemma truthy_token tok : truthy (str_value (Some tok)) = negb (bool_decide (tok = "")).
Proof. reflexivity. Qed.

Lemma bearer_A_header tok :
  tok <> "" -> space_free tok = true ->
  VariantA.bearer (Some ("Bearer " +:+ tok)) = Some tok.
Proof.
  intros _ Htok. unfold VariantA.bearer.
  change (truthy (str_value (Some ("Bearer " +:+ tok)))) with true.
  cbv beta iota. change (default "" (Some ("Bearer " +:+ tok))) with ("Bearer " +:+ tok).
  by rewrite (split_bearer _ Htok).
Qed.

Lemma bearer_B_header tok :
  tok <> "" -> space_free tok = true ->
  VariantB.bearer (Some ("Bearer " +:+ tok)) = Some tok.
Proof.
  intros _ Htok. unfold VariantB.bearer.
  change (truthy (str_value (Some ("Bearer " +:+ tok)))) with true.
  cbv beta iota zeta. change (default "" (Some ("Bearer " +:+ tok))) with ("Bearer " +:+ tok).
  change (startsWith "Bearer " ("Bearer " +:+ tok)) with (String.prefix "" tok).
  destruct tok; simpl String.prefix; cbv iota; by rewrite split_bearer.
Qed.

End Headers.

Section GateFacts.
Context `{jwt : Jwt.Lib} `{bson : Bson}.
Variable env : process_env.

(** The middleware, case by case on the token it extracts. *)
Lemma authenticateToken_A next req w :
  VariantA.authenticateToken env next req w =
    match VariantA.bearer (authorization req) with
    | None => (inr (Response 401 (JError "Access token required")), w)
    | Some tok =>
        if bool_decide (tok = "")
        then (inr (Response 401 (JError "Access token required")), w)
        else match Jwt.verify tok (JWT_SECRET env) (clock w (ticks w)) with
             | None => (inr (Response 403 (JError "Invalid or expired token")), tick w)
             | Some d => next (with_user d req) (tick w)
             end
    end.
Proof.
  unfold VariantA.authenticateToken.
  destruct (VariantA.bearer (authorization req)) as [tok|]; [|reflexivity].
  rewrite truthy_token, negb_involutive.
  destruct (bool_decide (tok = "")); [reflexivity|].
  unfold bind, VariantA.verifyToken, try_catch, bind, Date_now. simpl.
  destruct (Jwt.verify tok (JWT_SECRET env) (clock w (ticks w))); reflexivity.
Qed.

Lemma authenticateToken_B next req w :
  VariantB.authenticateToken env next req w =
    match VariantB.bearer (authorization req) with
    | None => (inr (Response 401 (JError "Access token required")), w)
    | Some tok =>
        if bool_decide (tok = "")
        then (inr (Response 401 (JError "Access token required")), w)
        else match Jwt.verify tok (JWT_SECRET env) (clock w (ticks w)) with
             | None => (inr (Response 403 (JError "Invalid or expired token")), tick w)
             | Some d => next (with_user d req) (tick w)
             end
    end.
Proof.
  unfold VariantB.authenticateToken.
  destruct (VariantB.bearer (authorization req)) as [tok|]; [|reflexivity].
  rewrite truthy_token, negb_involutive.
  destruct (bool_decide (tok = "")); [reflexivity|].
  unfold bind, VariantB.verifyToken, try_catch, bind, Date_now. simpl.
  destruct (Jwt.verify tok (JWT_SECRET env) (clock w (ticks w))); reflexivity.
Qed.

(** Any route of the shape [authenticateToken next] is gated. *)
Lemma gated_by_cases {D} (bearer : option string -> option string)
    (served next : request -> M D response) :
  bearer None = None ->
  (forall tok, tok <> "" -> space_free tok = true ->
               bearer (Some ("Bearer " +:+ tok)) = Some tok) ->
  (forall req w,
      served req w =
        match bearer (authorization req) with
        | None => (inr (Response 401 (JError "Access token required")), w)
        | Some tok =>
            if bool_decide (tok = "")
            then (inr (Response 401 (JError "Access token required")), w)
            else match Jwt.verify tok (JWT_SECRET env) (clock w (ticks w)) with
                 | None => (inr (Response 403 (JError "Invalid or expired token")), tick w)
                 | Some d => next (with_user d req) (tick w)
                 end
        end) ->
  token_gated env bearer served.
Proof.
  intros Hnone Hbearer Hcases req w token now. subst token now.
  rewrite (Hcases req w). repeat split.
  - intros ->. exact Hnone.
  - intros tok -> Hne Hsf. by apply Hbearer.
  - destruct (bearer (authorization req)) as [tok|]; [|done].
    rewrite truthy_token. intros ->%negb_false_iff. done.
  - intros tok -> Hne Hbad.
    rewrite bool_decide_eq_false_2 by done. rewrite Hbad.
    exists (tick w). done.
  - intros resp w' Hrun Hseen.
    destruct (bearer (authorization req)) as [tok|].
    + destruct (bool_decide (tok = "")).
      * injection Hrun as <- <-. simpl in Hseen. destruct Hseen as [[? ?]|?]; done.
      * destruct (Jwt.verify tok (JWT_SECRET env) (clock w (ticks w))) as [d|] eqn:Hd.
        -- by exists tok, d.
        -- injection Hrun as <- <-. simpl in Hseen.
           destruct Hseen as [[? ?]|?]; done.
    + injection Hrun as <- <-. simpl in Hseen. destruct Hseen as [[? ?]|?]; done.
Qed.

(** C5. Every route registered with POST, PUT or DELETE, on categories
    or on subcategories, sits behind the token gate in both variants:
    no token gives 401 with the world untouched, a token that
    verification refuses gives 403 with database and trace untouched,
    and only a request whose token [jwt.verify] accepts gets any other
    answer or reaches the driver. *)
Theorem mutating_routes_are_token_gated (r : route) :
  mutating r = true ->
  token_gated env VariantA.bearer (VariantA.app env r) /\
  token_gated env VariantB.bearer (VariantB.app env r).
Proof.
  intros Hr. destruct r; try discriminate Hr; simpl; split;
    (eapply gated_by_cases;
     [ reflexivity
     | first [exact bearer_A_header | exact bearer_B_header]
     | first [apply authenticateToken_A | apply authenticateToken_B] ]).
Qed.

End GateFacts.

(** A create request without an [Authorization] header, on both variants
    with the reference libraries. *)
Lemma mutating_routes_are_token_gated_witness :
  let env := Env (Some "s3cret") in
  let req := Request None "" ∅ (object [("name", VStr "Hoodies")]) None in
  let wa := World (VariantA.Database [] []) [] (fun _ => 0) 0 (fun _ => "") 0 in
  let wb := World (VariantB.Database [] [] true true) [] (fun _ => 0) 0 (fun _ => "") 0 in
  VariantA.app (jwt := Reference.toy_jwt) env POST_categories req wa
    = (inr (Response 401 (JError "Access token required")), wa) /\
  VariantB.app (jwt := Reference.toy_jwt) (bson := Reference.hex24_bson)
      env POST_categories req wb
    = (inr (Response 401 (JError "Access token required")), wb).
Proof.
  intros env req wa wb.
  destruct (mutating_routes_are_token_gated
              (jwt := Reference.toy_jwt) (bson := Reference.hex24_bson)
              env POST_categories eq_refl) as [Ha Hb].
  split.
  - destruct (Ha req wa) as (_ & _ & H401 & _). apply H401. reflexivity.
  - destruct (Hb req wb) as (_ & _ & H401 & _). apply H401. reflexivity.
Defined.

(* ===================================================================== *)
(** ** Issuing and validating tokens *)
(* ===================================================================== *)

Section ReferenceFacts.
Import Reference.

Lemma unframe_frame s rest : unframe (frame s +:+ rest) = Some (s, rest).
Proof.
  induction s as [|c s IH]; [reflexivity|].
  change (unframe (String "c" (String c (frame s +:+ rest)))
          = Some (String c s, rest)).
  cbn [unframe Ascii.eqb Bool.eqb]. by rewrite IH.
Qed.

Lemma unframe_frame_end s : unframe (frame s) = Some (s, EmptyString).
Proof.
  induction s as [|c s IH]; [reflexivity|].
  cbn [frame unframe Ascii.eqb Bool.eqb]. by rewrite IH.
Qed.

Lemma of_digits_digits p : of_digits (digits p) = p.
Proof. induction p as [p IH|p IH|]; simpl; by rewrite ?IH. Qed.

Lemma of_number_number z : of_number (number z) = z.
Proof. destruct z; simpl; by rewrite ?of_digits_digits. Qed.

(** The reference token library satisfies the laws. *)
Lemma toy_jwt_laws : @Jwt.Laws toy_jwt.
Proof.
  split.
  - intros c s e t Hs. simpl. unfold toy_sign.
    rewrite bool_decide_eq_false_2 by done. eauto.
  - intros c s e t tok t' Hsign Hnow. simpl in *. unfold toy_sign in Hsign.
    unfold toy_verify. destruct (bool_decide (s = "")) eqn:Hs; [done|].
    injection Hsign as <-.
    rewrite unframe_frame. cbn [mbind option_bind].
    rewrite unframe_frame. cbn [mbind option_bind].
    rewrite unframe_frame. cbn [mbind option_bind].
    rewrite unframe_frame. cbn [mbind option_bind].
    rewrite unframe_frame_end. cbn [mbind option_bind].
    rewrite !of_number_number.
    rewrite !bool_decide_eq_true_2 by done.
    apply Z.ltb_lt in Hnow. rewrite Hnow.
    by destruct c.
  - reflexivity.
Qed.

End ReferenceFacts.

Section Tokens.
Context `{jwt : Jwt.Lib}.
Variable env : process_env.

(** [verifyToken] returns; it returns null exactly when [jwt.verify]
    throws. *)
Lemma verifyToken_returns token (w : world VariantA.database) :
  VariantA.verifyToken env token w
    = (inr (Jwt.verify token (JWT_SECRET env) (clock w (ticks w))), tick w).
Proof.
  unfold VariantA.verifyToken, try_catch, bind, Date_now.
  destruct (Jwt.verify token (JWT_SECRET env) (clock w (ticks w))); reflexivity.
Qed.

Context `{laws : !Jwt.Laws}.

(** C8. With a signing secret configured, [generateToken] issues a
    token for every identity, and [verifyToken] on that token, at any
    clock reading short of thirty days (in whole seconds) after the
    issue, returns the decoded claims with that identity's id and email.
    For any token and any state, [verifyToken] returns without throwing,
    and the result is null whenever [jwt.verify] fails. *)
Theorem issued_token_validates (u : user) (secret : string) :
  JWT_SECRET env = Some secret -> secret <> "" ->
  (forall w : world VariantA.database,
      exists token,
        VariantA.generateToken env u w = (inr token, tick w) /\
        forall w' : world VariantA.database,
          clock w' (ticks w') / 1000 < clock w (ticks w) / 1000 + 30 * 24 * 60 * 60 ->
          exists d,
            VariantA.verifyToken env token w' = (inr (Some d), tick w') /\
            Jwt.userId (Jwt.payload d) = _id u /\
            Jwt.email (Jwt.payload d) = email u) /\
  (forall token (w : world VariantA.database),
      exists r, VariantA.verifyToken env token w = (inr r, tick w) /\
                (Jwt.verify token (JWT_SECRET env) (clock w (ticks w)) = None ->
                 r = None)).
Proof.
  intros Hsecret Hne. split.
  - intros w.
    destruct (Jwt.sign_with_secret (Jwt.Claims (_id u) (email u)) secret
                thirty_days (clock w (ticks w)) Hne) as [token Htoken].
    exists token. split.
    + unfold VariantA.generateToken.
      rewrite Hsecret. by rewrite Htoken.
    + intros w' Hnow. rewrite verifyToken_returns, Hsecret.
      erewrite Jwt.verify_signed; [|exact Htoken|exact Hnow].
      eexists. split; [reflexivity|]. split; reflexivity.
  - intros token w. rewrite verifyToken_returns. eexists. split; [reflexivity|done].
Qed.

End Tokens.

(** The demo identity of [/api/test-jwt], a token issued at the epoch and
    validated ten days later, with the reference library. *)
Lemma issued_token_validates_witness :
  let env := Env (Some "s3cret") in
  let u := User "test123" "test@nesswear.com" in
  let w := World (VariantA.Database [] []) [] (fun _ => 0) 0 (fun _ => "") 0 in
  let w' := World (VariantA.Database [] []) [] (fun _ => 864000000) 0 (fun _ => "") 0 in
  exists token d,
    VariantA.generateToken (jwt := Reference.toy_jwt) env u w = (inr token, tick w) /\
    VariantA.verifyToken (jwt := Reference.toy_jwt) env token w' = (inr (Some d), tick w') /\
    Jwt.userId (Jwt.payload d) = "test123" /\
    Jwt.email (Jwt.payload d) = "test@nesswear.com".
Proof.
  intros env u w w'.
  destruct (issued_token_validates (laws := toy_jwt_laws) env u "s3cret" eq_refl)
    as [Hissue _];
    [discriminate|].
  destruct (Hissue w) as (token & Hgen & Hval).
  destruct (Hval w') as (d & Hver & Hid & Hmail); [reflexivity|].
  exists token, d. repeat split; assumption.
Defined.

(* ===================================================================== *)
(** ** Start of the process *)
(* ===================================================================== *)

(** C6, variant A. The start-up of variant A does not look at the signing
    secret: with [JWT_SECRET] unset and the database reachable the server
    ends up listening, where variant B exits with code 1. *)
Theorem variantA_serves_without_signing_secret
    (da : VariantA.database) (db_b : VariantB.database) :
  VariantA.startup (Env None) (Some da) = Listening da /\
  VariantB.startup (Env None) (Some db_b) = Exited 1.
Proof. split; reflexivity. Qed.

(** Variant B exits with code 1 on an unset or empty secret, whether or
    not the database is reachable. *)
Lemma variantB_exits_without_signing_secret env connection :
  truthy (str_value (JWT_SECRET env)) = false ->
  VariantB.startup env connection = Exited 1.
Proof. intros Hs. unfold VariantB.startup. by rewrite Hs. Qed.

Section Degraded.
Context `{jwt : Jwt.Lib} `{laws : !Jwt.Laws}.

(** What variant A then serves: no token can be issued. *)
Lemma variantA_without_secret_is_degraded u (w : world VariantA.database) :
  VariantA.generateToken (Env None) u w = (inl JsonWebTokenError, w).
Proof.
  unfold VariantA.generateToken.
  simpl JWT_SECRET. by rewrite Jwt.sign_without_secret.
Qed.

End Degraded.

(* ===================================================================== *)
(** ** Deleting a category *)
(* ===================================================================== *)

Section Identifiers.
Import Mongo.

Lemma matches_id v d :
  v <> VUndefined -> v <> VNull ->
  matches [("_id", v)] d = true <-> d !! "_id" = Some v.
Proof. intros Hu Hn. rewrite matches_one. by apply field_eq_true. Qed.

Lemma no_document_findOne v c :
  v <> VUndefined -> v <> VNull ->
  no_document v c -> findOne [("_id", v)] c = None.
Proof.
  intros Hu Hn Hno. apply findOne_None.
  eapply Forall_impl; [exact Hno|]. intros d Hd. simpl in Hd.
  destruct (matches [("_id", v)] d) eqn:Hm; [|done].
  by apply matches_id in Hm.
Qed.

Lemma first_document_match v c l1 d l2 :
  v <> VUndefined -> v <> VNull ->
  first_document v c l1 d l2 -> first_match [("_id", v)] c l1 d l2.
Proof.
  intros Hu Hn (-> & Hl1 & Hd). repeat split.
  - eapply Forall_impl; [exact Hl1|]. intros x Hx. simpl in Hx.
    destruct (matches [("_id", v)] x) eqn:Hm; [|done].
    by apply matches_id in Hm.
  - by apply matches_id.
Qed.

Lemma first_match_document v c l1 d l2 :
  v <> VUndefined -> v <> VNull ->
  first_match [("_id", v)] c l1 d l2 -> first_document v c l1 d l2.
Proof.
  intros Hu Hn (-> & Hl1 & Hd). repeat split.
  - eapply Forall_impl; [exact Hl1|]. intros x Hx Hid. simpl in Hx.
    apply (matches_id v x Hu Hn) in Hid. congruence.
  - by apply matches_id.
Qed.

Lemma delete_many_not_referring id c :
  delete_many [("categoryId", VStr id)] c = not_referring id c.
Proof.
  unfold delete_many, not_referring. apply List.filter_ext. intros d.
  f_equal. rewrite matches_one. apply eq_true_iff_eq.
  rewrite field_eq_true, bool_decide_eq_true; done.
Qed.

End Identifiers.

Section DeleteCategory.
Import Mongo.

Lemma delete_categories_id_A_unmatched req (w : world VariantA.database) :
  findOne [("_id", VStr (param_id req))] (VariantA.categories (db w)) = None ->
  VariantA.delete_categories_id req w
    = (inr (Response 404 (JError "Category not found")),
       log (OpDeleteOne Categories [("_id", VStr (param_id req))]) w).
Proof.
  intros Hnone.
  unfold VariantA.delete_categories_id. run.
  rewrite (delete_first_None _ _ Hnone). reflexivity.
Qed.

Lemma delete_categories_id_A_matched req (w : world VariantA.database) l1 c l2 :
  first_match [("_id", VStr (param_id req))] (VariantA.categories (db w)) l1 c l2 ->
  VariantA.delete_categories_id req w
    = (inr (Response 200 (JMessage "Category deleted successfully")),
       World (VariantA.Database
                (l1 ++ l2)
                (delete_many [("categoryId", VStr (param_id req))]
                   (VariantA.subcategories (db w))))
             (trace w ++ [OpDeleteOne Categories [("_id", VStr (param_id req))];
                          OpDeleteMany Subcategories [("categoryId", VStr (param_id req))]])
             (clock w) (ticks w) (oids w) (issued w)).
Proof.
  intros Hm.
  unfold VariantA.delete_categories_id. run.
  rewrite (first_match_delete _ _ _ _ _ Hm).
  cbn. rewrite <- app_assoc. reflexivity.
Qed.

Lemma get_subcategories_A_after_cascade req' id cats subs t k ti o i :
  id <> "" -> prop "categoryId" (query req') = VStr id ->
  exists w'',
    VariantA.get_subcategories req'
      (World (VariantA.Database cats (delete_many [("categoryId", VStr id)] subs))
             t k ti o i)
    = (inr (Response 200 (JDocs [])), w'').
Proof.
  intros Hid Hq. unfold VariantA.get_subcategories. run.
  rewrite Hq, (truthy_string _ Hid), find_delete_many. eauto.
Qed.

Lemma delete_category_A (req : request) (w : world VariantA.database) :
  deletes_with_cascade (VStr (param_id req))
    VariantA.delete_categories_id VariantA.get_subcategories req w.
Proof.
  split.
  - intros Hno. eexists. split; [|split].
    + apply delete_categories_id_A_unmatched.
      by apply no_document_findOne.
    + reflexivity.
    + reflexivity.
  - intros l1 c l2 Hfirst.
    apply first_document_match in Hfirst; [|done..].
    eexists. split; [|split; [|split; [|split]]].
    + exact (delete_categories_id_A_matched _ _ _ _ _ Hfirst).
    + reflexivity.
    + apply delete_many_not_referring.
    + reflexivity.
    + intros Hid req' Hq. by apply get_subcategories_A_after_cascade.
Qed.

Context `{bson : Bson}.

Lemma delete_categories_id_B_malformed req (w : world VariantB.database) :
  ObjectId (VStr (param_id req)) = None ->
  VariantB.delete_categories_id req w
    = (inr (Response 500 (JError "Failed to delete category")), w).
Proof.
  intros Hbad. unfold VariantB.delete_categories_id, VariantB.new_ObjectId. run.
  rewrite Hbad. reflexivity.
Qed.

Lemma delete_categories_id_B_unmatched req (w : world VariantB.database) hex :
  ObjectId (VStr (param_id req)) = Some hex ->
  findOne [("_id", VOid hex)] (VariantB.categories (db w)) = None ->
  VariantB.delete_categories_id req w
    = (inr (Response 404 (JError "Category not found")),
       log (OpDeleteOne Categories [("_id", VOid hex)]) w).
Proof.
  intros Hok Hnone.
  unfold VariantB.delete_categories_id, VariantB.new_ObjectId. run.
  rewrite Hok. cbv beta iota.
  rewrite (delete_first_None _ _ Hnone). reflexivity.
Qed.

Lemma delete_categories_id_B_matched req (w : world VariantB.database) hex l1 c l2 :
  ObjectId (VStr (param_id req)) = Some hex ->
  first_match [("_id", VOid hex)] (VariantB.categories (db w)) l1 c l2 ->
  VariantB.delete_categories_id req w
    = (inr (Response 200 (JMessage "Category deleted successfully")),
       World (VariantB.Database
                (l1 ++ l2)
                (delete_many [("categoryId", VStr (param_id req))]
                   (VariantB.subcategories (db w)))
                (VariantB.categories_name_unique (db w))
                (VariantB.subcategories_name_unique (db w)))
             (trace w ++ [OpDeleteOne Categories [("_id", VOid hex)];
                          OpDeleteMany Subcategories [("categoryId", VStr (param_id req))]])
             (clock w) (ticks w) (oids w) (issued w)).
Proof.
  intros Hok Hm.
  unfold VariantB.delete_categories_id, VariantB.new_ObjectId. run.
  rewrite Hok. cbv beta iota.
  rewrite (first_match_delete _ _ _ _ _ Hm).
  cbn. rewrite <- app_assoc. reflexivity.
Qed.

Lemma get_subcategories_B_after_cascade req' id cats subs u1 u2 t k ti o i :
  id <> "" -> prop "categoryId" (query req') = VStr id ->
  exists w'',
    VariantB.get_subcategories req'
      (World (VariantB.Database cats (delete_many [("categoryId", VStr id)] subs) u1 u2)
             t k ti o i)
    = (inr (Response 200 (JDocs [])), w'').
Proof.
  intros Hid Hq. unfold VariantB.get_subcategories. run.
  rewrite Hq, (truthy_string _ Hid), find_delete_many. eauto.
Qed.

(** C2, as the code has it. A category-delete request answers 404 and
    deletes nothing when no category has the identifier; otherwise it
    removes the category, then every subcategory whose [categoryId]
    equals the identifier, answers 200 with the success message, and a
    following list of subcategories filtered by that identifier is
    empty. This holds in variant A for every identifier, and in variant
    B for every identifier that [ObjectId] accepts; an identifier that
    [ObjectId] rejects gets 500 from variant B, with the world
    untouched. *)
Theorem delete_category_cascades (req : request)
    (wa : world VariantA.database) (wb : world VariantB.database) :
  deletes_with_cascade (VStr (param_id req))
    VariantA.delete_categories_id VariantA.get_subcategories req wa /\
  match ObjectId (VStr (param_id req)) with
  | Some hex =>
      deletes_with_cascade (VOid hex)
        VariantB.delete_categories_id VariantB.get_subcategories req wb
  | None =>
      VariantB.delete_categories_id req wb
        = (inr (Response 500 (JError "Failed to delete category")), wb)
  end.
Proof.
  split; [apply delete_category_A|].
  destruct (ObjectId (VStr (param_id req))) as [hex|] eqn:Hoid.
  - split.
    + intros Hno. eexists. split; [|split].
      * apply (delete_categories_id_B_unmatched _ _ hex Hoid).
        by apply no_document_findOne.
      * reflexivity.
      * reflexivity.
    + intros l1 c l2 Hfirst.
      apply first_document_match in Hfirst; [|done..].
      eexists. split; [|split; [|split; [|split]]].
      * exact (delete_categories_id_B_matched _ _ hex _ _ _ Hoid Hfirst).
      * reflexivity.
      * apply delete_many_not_referring.
      * reflexivity.
      * intros Hid req' Hq. by apply get_subcategories_B_after_cascade.
  - by apply delete_categories_id_B_malformed.
Qed.

End DeleteCategory.

(** Variant A on a category with one subcategory of its own and one of
    another category; variant B, with the reference [ObjectId], on an
    identifier of 24 hexadecimal digits that no category has. *)
Lemma delete_category_cascades_witness :
  let hoodies := object [("_id", VStr "1"); ("name", VStr "Hoodies")] in
  let zip := object [("_id", VStr "2"); ("name", VStr "Zip"); ("categoryId", VStr "1")] in
  let polo := object [("_id", VStr "3"); ("name", VStr "Polo"); ("categoryId", VStr "9")] in
  let wa := World (VariantA.Database [hoodies] [zip; polo]) []
                  (fun _ => 0) 0 (fun _ => "") 0 in
  let wb := World (VariantB.Database [] [zip; polo] true true) []
                  (fun _ => 0) 0 (fun _ => "") 0 in
  let listing := Request None "" (object [("categoryId", VStr "1")]) ∅ None in
  (exists w' w'',
     VariantA.delete_categories_id (Request None "1" ∅ ∅ None) wa
       = (inr (Response 200 (JMessage "Category deleted successfully")), w')
     /\ VariantA.categories (db w') = []
     /\ VariantA.subcategories (db w') = [polo]
     /\ VariantA.get_subcategories listing w' = (inr (Response 200 (JDocs [])), w'')) /\
  (exists w',
     VariantB.delete_categories_id (bson := Reference.hex24_bson)
       (Request None "64b7f0c2a1b2c3d4e5f60718" ∅ ∅ None) wb
       = (inr (Response 404 (JError "Category not found")), w')
     /\ db w' = db wb).
Proof.
  intros hoodies zip polo wa wb listing. split.
  - destruct (delete_category_cascades (bson := Reference.hex24_bson)
                (Request None "1" ∅ ∅ None) wa wb) as [[_ Hdel] _].
    destruct (Hdel [] hoodies []) as (w' & Hrun & Hcats & Hsubs & _ & Hlist).
    { repeat split. constructor. }
    destruct (Hlist ltac:(discriminate) listing eq_refl) as [w'' Hrun'].
    exists w', w''. repeat split; [exact Hrun|exact Hcats|exact Hsubs|exact Hrun'].
  - pose proof (delete_category_cascades (bson := Reference.hex24_bson)
                  (Request None "64b7f0c2a1b2c3d4e5f60718" ∅ ∅ None) wa wb) as [_ Hb].
    change (ObjectId (VStr (param_id (Request None "64b7f0c2a1b2c3d4e5f60718" ∅ ∅ None))))
      with (Some "64b7f0c2a1b2c3d4e5f60718") in Hb.
    destruct Hb as [Hmiss _].
    destruct Hmiss as (w' & Hrun & Hdb & _); [constructor|].
    exists w'. split; [exact Hrun|exact Hdb].
Defined.

(** C2 does not hold of variant B as it is worded: with an identifier
    that [ObjectId] rejects, here ["abc"], no category matches and yet
    the answer is 500, not 404. *)
Lemma delete_category_malformed_id_counterexample :
  let zip := object [("_id", VOid "64b7f0c2a1b2c3d4e5f60718"); ("name", VStr "Zip");
                     ("categoryId", VStr "64b7f0c2a1b2c3d4e5f60719")] in
  let wb := World (VariantB.Database [] [zip] true true) []
                  (fun _ => 0) 0 (fun _ => "") 0 in
  let req := Request None "abc" ∅ ∅ None in
  VariantB.categories (db wb) = [] /\
  VariantB.delete_categories_id (bson := Reference.hex24_bson) req wb
    = (inr (Response 500 (JError "Failed to delete category")), wb) /\
  status (Response 500 (JError "Failed to delete category")) <> 404.
Proof. repeat split. discriminate. Qed.

(* ===================================================================== *)
(** ** Updating a category or a subcategory *)
(* ===================================================================== *)

Section UpdateData.
Import Mongo.

Lemma lookup_object_one k v j :
  object [(k, v)] !! j = if decide (k = j) then Some v else None.
Proof.
  unfold object. cbn [list_to_map foldr uncurry fst snd].
  rewrite lookup_insert. by rewrite lookup_empty.
Qed.

Lemma lookup_assigned fields body (base : obj) f :
  foldl (fun u g => assign_if_defined g (prop g body) u) base fields !! f =
    if decide (f ∈ fields /\ prop f body <> VUndefined)
    then Some (prop f body) else base !! f.
Proof.
  revert base. induction fields as [|g fields IH]; intros base.
  - cbn [foldl]. rewrite decide_False; [done|].
    intros [Hin _]. by apply elem_of_nil in Hin.
  - cbn [foldl]. rewrite IH, lookup_assign_if_defined.
    destruct (decide (f ∈ fields /\ prop f body <> VUndefined)) as [[Hin Hdef]|Hno].
    + rewrite decide_True; [done|]. split; [by right|done].
    + destruct (decide (prop g body = VUndefined)) as [Hg|Hg].
      * rewrite decide_False; [done|]. intros [Hin Hdef].
        apply elem_of_cons in Hin as [->|Hin]; [done|]. by apply Hno.
      * destruct (decide (g = f)) as [->|Hne].
        -- rewrite decide_True; [done|]. split; [by left|done].
        -- rewrite decide_False; [done|]. intros [Hin Hdef].
           apply elem_of_cons in Hin as [->|Hin]; [done|]. by apply Hno.
Qed.

Lemma lookup_updateData fields now body f :
  "updatedAt" ∉ fields ->
  updateData_of fields now body !! f =
    if decide (f = "updatedAt") then Some (VDate now)
    else if decide (f ∈ fields /\ prop f body <> VUndefined)
         then Some (prop f body) else None.
Proof.
  intros Hfresh. unfold updateData_of.
  rewrite lookup_assigned, lookup_object_one.
  destruct (decide (f = "updatedAt")) as [->|Hne].
  - rewrite decide_False by (by intros [? _]). by rewrite decide_True.
  - destruct (decide (f ∈ fields /\ prop f body <> VUndefined)); [done|].
    by rewrite decide_False.
Qed.

Lemma updateData_no_id fields now body :
  "updatedAt" ∉ fields -> "_id" ∉ fields ->
  updateData_of fields now body !! "_id" = None.
Proof.
  intros Hfresh Hid. rewrite lookup_updateData by done.
  rewrite decide_False by done. by rewrite decide_False by (by intros [? _]).
Qed.

(** [$set] of the update object yields exactly [updated_field]. *)
Lemma lookup_updated fields now body d f :
  "updatedAt" ∉ fields ->
  set_fields (updateData_of fields now body) d !! f
    = updated_field fields now body d f.
Proof.
  intros Hfresh. rewrite lookup_set_fields, lookup_updateData by done.
  unfold updated_field.
  destruct (decide (f = "updatedAt")); [done|].
  destruct (decide (f ∈ fields /\ prop f body <> VUndefined)) as [[_ Hdef]|]; [|done].
  by rewrite bson_defined.
Qed.

Lemma category_fields_fresh :
  ("updatedAt" ∉ category_fields) /\ ("_id" ∉ category_fields).
Proof. split; apply (bool_decide_unpack _); vm_compute; exact I. Qed.

Lemma subcategory_fields_fresh :
  ("updatedAt" ∉ subcategory_fields) /\ ("_id" ∉ subcategory_fields).
Proof. split; apply (bool_decide_unpack _); vm_compute; exact I. Qed.

(** With the category reference left out of the body, the update object
    of a subcategory is that of a category. *)
Lemma updateData_without_reference now body :
  prop "categoryId" body = VUndefined ->
  updateData_of subcategory_fields now body = updateData_of category_fields now body.
Proof.
  intros Hcid. unfold updateData_of, subcategory_fields, category_fields.
  cbn [foldl]. unfold assign_if_defined at 1. by rewrite Hcid, decide_True.
Qed.

Lemma updateData_with_reference now body :
  prop "categoryId" body <> VUndefined ->
  updateData_of subcategory_fields now body
    = <["categoryId" := prop "categoryId" body]> (updateData_of category_fields now body).
Proof.
  intros Hcid. unfold updateData_of, subcategory_fields, category_fields.
  cbn [foldl]. unfold assign_if_defined at 1. by rewrite decide_False.
Qed.

End UpdateData.

Section UpdateRuns.
Import Mongo.

Lemma try_catch_returns {D A} (m : M D A) h w a w' :
  m w = (inr a, w') -> try_catch m h w = (inr a, w').
Proof. unfold try_catch. by intros ->. Qed.

Lemma put_categories_id_A_unmatched req (w : world VariantA.database) :
  let q := [("_id", VStr (param_id req))] in
  let u := updateData_of category_fields (clock w (ticks w)) (body req) in
  findOne q (VariantA.categories (db w)) = None ->
  VariantA.put_categories_id req w
    = (inr (Response 404 (JError "Category not found")),
       log (OpUpdateOne Categories q u) (tick w)).
Proof.
  intros q u Hfind. subst q.
  unfold VariantA.put_categories_id. run.
  change (assign_if_defined "isActive" _ _) with u.
  rewrite (update_no_index_None _ u _ Hfind). reflexivity.
Qed.

Lemma put_categories_id_A_matched req (w : world VariantA.database) l1 d l2 :
  let q := [("_id", VStr (param_id req))] in
  let u := updateData_of category_fields (clock w (ticks w)) (body req) in
  first_match q (VariantA.categories (db w)) l1 d l2 ->
  VariantA.put_categories_id req w
    = (inr (Response 200 (JDoc (set_fields u d))),
       World (VariantA.Database (l1 ++ set_fields u d :: l2)
                                (VariantA.subcategories (db w)))
             (trace w ++ [OpUpdateOne Categories q u; OpFindOne Categories q])
             (clock w) (S (ticks w)) (oids w) (issued w)).
Proof.
  intros q u Hm. subst q.
  unfold VariantA.put_categories_id. run.
  change (assign_if_defined "isActive" _ _) with u.
  rewrite (update_no_index_Some _ u _ _ _ _ Hm).
  cbn [Nat.eqb docs with_docs VariantA.database_store VariantA.categories
       VariantA.subcategories db trace clock ticks oids issued].
  assert (u !! "_id" = None) as Hid
    by (apply updateData_no_id; apply category_fields_fresh).
  rewrite (first_match_findOne _ _ _ _ _ (first_match_after_update _ _ _ _ _ _ Hid Hm)).
  cbn. rewrite <- app_assoc. reflexivity.
Qed.

Lemma put_subcategories_write_A_unmatched id u (w : world VariantA.database) :
  let q := [("_id", VStr id)] in
  findOne q (VariantA.subcategories (db w)) = None ->
  VariantA.put_subcategories_write id u w
    = (inr (Response 404 (JError "Subcategory not found")),
       log (OpUpdateOne Subcategories q u) w).
Proof.
  intros q Hfind. subst q.
  unfold VariantA.put_subcategories_write. run.
  rewrite (update_no_index_None _ u _ Hfind). reflexivity.
Qed.

Lemma put_subcategories_write_A_matched id u (w : world VariantA.database) l1 d l2 :
  u !! "_id" = None ->
  let q := [("_id", VStr id)] in
  first_match q (VariantA.subcategories (db w)) l1 d l2 ->
  VariantA.put_subcategories_write id u w
    = (inr (Response 200 (JDoc (set_fields u d))),
       World (VariantA.Database (VariantA.categories (db w))
                                (l1 ++ set_fields u d :: l2))
             (trace w ++ [OpUpdateOne Subcategories q u; OpFindOne Subcategories q])
             (clock w) (ticks w) (oids w) (issued w)).
Proof.
  intros Hid q Hm. subst q.
  unfold VariantA.put_subcategories_write. run.
  rewrite (update_no_index_Some _ u _ _ _ _ Hm).
  cbn [Nat.eqb docs with_docs VariantA.database_store VariantA.categories
       VariantA.subcategories db trace clock ticks oids issued].
  rewrite (first_match_findOne _ _ _ _ _ (first_match_after_update _ _ _ _ _ _ Hid Hm)).
  cbn. rewrite <- app_assoc. reflexivity.
Qed.

(** [PUT /subcategories/:id] up to the write. *)
Lemma put_subcategories_id_A_cases req (w : world VariantA.database) :
  let cid := prop "categoryId" (body req) in
  let u := updateData_of subcategory_fields (clock w (ticks w)) (body req) in
  let h := fun _ : exn => ret (Response 500 (JError "Failed to update subcategory")) in
  (cid = VUndefined /\
   VariantA.put_subcategories_id req w
     = try_catch (VariantA.put_subcategories_write (param_id req) u) h (tick w)) \/
  (cid <> VUndefined /\
   findOne [("_id", cid)] (VariantA.categories (db w)) = None /\
   VariantA.put_subcategories_id req w
     = (inr (Response 400 (JError "Parent category not found")),
        log (OpFindOne Categories [("_id", cid)]) (tick w))) \/
  (cid <> VUndefined /\
   (exists c, findOne [("_id", cid)] (VariantA.categories (db w)) = Some c) /\
   VariantA.put_subcategories_id req w
     = try_catch (VariantA.put_subcategories_write (param_id req) u) h
         (log (OpFindOne Categories [("_id", cid)]) (tick w))).
Proof.
  intros cid u h.
  destruct (decide (cid = VUndefined)) as [Hcid|Hcid].
  - left. split; [exact Hcid|].
    unfold VariantA.put_subcategories_id.
    unfold try_catch at 1, bind at 1, Date_now.
    fold cid. rewrite decide_True by exact Hcid.
    subst u. rewrite updateData_without_reference by exact Hcid.
    reflexivity.
  - right.
    destruct (findOne [("_id", cid)] (VariantA.categories (db w))) as [c|] eqn:Hfind.
    + right. split; [exact Hcid|]. split; [by exists c|].
      unfold VariantA.put_subcategories_id.
      unfold try_catch at 1, bind at 1, Date_now.
      fold cid. rewrite decide_False by exact Hcid.
      unfold bind at 1, db_findOne.
      cbn [docs VariantA.database_store db tick].
      rewrite Hfind.
      subst u. rewrite updateData_with_reference by exact Hcid.
      reflexivity.
    + left. split; [exact Hcid|]. split; [reflexivity|].
      unfold VariantA.put_subcategories_id.
      unfold try_catch at 1, bind at 1, Date_now.
      fold cid. rewrite decide_False by exact Hcid.
      unfold bind at 1, db_findOne.
      cbn [docs VariantA.database_store db tick].
      rewrite Hfind. reflexivity.
Qed.

End UpdateRuns.

Section ParentLookup.
Import Mongo.

Lemma matches_stored_id cid d :
  cid <> VUndefined -> d !! "_id" = Some cid -> matches [("_id", cid)] d = true.
Proof.
  intros Hu Hd. rewrite matches_one. unfold field_eq.
  rewrite Hd, (bson_defined _ Hu). by apply bool_decide_eq_true.
Qed.

(** A stored category with the supplied identifier is found. *)
Lemma document_found cid c l :
  cid <> VUndefined -> c ∈ l -> c !! "_id" = Some cid ->
  exists c', findOne [("_id", cid)] l = Some c'.
Proof.
  intros Hu Hin Hc.
  destruct (findOne [("_id", cid)] l) as [c'|] eqn:Hfind; [by exists c'|].
  apply findOne_None in Hfind.
  rewrite Forall_forall in Hfind. specialize (Hfind c Hin).
  by rewrite (matches_stored_id _ _ Hu Hc) in Hfind.
Qed.

(** In a collection of identified documents, a lookup by an identifier
    that no document has finds nothing. *)
Lemma document_missing cid l :
  cid <> VUndefined -> identified l -> no_document cid l ->
  findOne [("_id", cid)] l = None.
Proof.
  intros Hu Hids Hno. apply findOne_None.
  unfold identified, no_document in *. rewrite Forall_forall in *. intros d Hd.
  destruct (Hids d Hd) as [x Hx]. specialize (Hno d Hd).
  rewrite matches_one. unfold field_eq. rewrite Hx, (bson_defined _ Hu).
  apply bool_decide_eq_false. congruence.
Qed.

Lemma first_match_unique q c l1 d l2 l1' d' l2' :
  first_match q c l1 d l2 -> first_match q c l1' d' l2' ->
  l1 = l1' /\ d = d' /\ l2 = l2'.
Proof.
  intros (-> & Hl1 & Hd) (Heq & Hl1' & Hd').
  revert l1' Heq Hl1'. induction Hl1 as [|x l1 Hx _ IH]; intros l1' Heq Hl1'.
  - destruct Hl1' as [|y l1' Hy _]; simpl in Heq.
    + by injection Heq as -> ->.
    + injection Heq as -> _. congruence.
  - destruct Hl1' as [|y l1' Hy Hl1']; simpl in Heq.
    + injection Heq as -> _. congruence.
    + injection Heq as -> Heq. destruct (IH _ Heq Hl1') as (-> & -> & ->). done.
Qed.

End ParentLookup.

Section UpdateTheorems.
Import Mongo.

(** The document that replaces the first match, and what is known of
    it. *)
Lemma updated_document fields now body id c l1 d l2 :
  ("updatedAt" ∉ fields) -> ("_id" ∉ fields) ->
  first_match [("_id", VStr id)] c l1 d l2 ->
  let d' := set_fields (updateData_of fields now body) d in
  first_document (VStr id) (l1 ++ d' :: l2) l1 d' l2 /\
  d' !! "updatedAt" = Some (VDate now) /\
  (forall f, d' !! f = updated_field fields now body d f).
Proof.
  intros Hfresh Hid Hm d'. split; [|split].
  - apply first_match_document; [done..|].
    exact (first_match_after_update _ _ _ _ _ _
             (updateData_no_id _ now body Hfresh Hid) Hm).
  - unfold d'. rewrite lookup_updated by done. unfold updated_field.
    by rewrite decide_True.
  - intros f. by apply lookup_updated.
Qed.

Lemma put_categories_answers req (w : world VariantA.database) :
  answers_update Categories "Category not found" VariantA.put_categories_id req w.
Proof.
  split.
  - intros Hno. eexists. split.
    + apply put_categories_id_A_unmatched. by apply no_document_findOne.
    + reflexivity.
  - intros l1 d l2 Hfirst.
    apply first_document_match in Hfirst; [|done..].
    destruct (updated_document category_fields (clock w (ticks w)) (body req)
                _ _ _ _ _ (proj1 category_fields_fresh) (proj2 category_fields_fresh)
                Hfirst) as (Hdoc & Hstamp & _).
    eexists _, _. split; [exact (put_categories_id_A_matched _ _ _ _ _ Hfirst)|].
    split; [exact Hdoc|exact Hstamp].
Qed.

(** The write of a subcategory update, from any world [w1] that has the
    database of [w]. *)
Lemma put_subcategories_write_answers req (w w1 : world VariantA.database) :
  db w1 = db w ->
  let u := updateData_of subcategory_fields (clock w (ticks w)) (body req) in
  let h := fun _ : exn => ret (Response 500 (JError "Failed to update subcategory")) in
  (no_document (VStr (param_id req)) (VariantA.subcategories (db w)) ->
     exists w',
       try_catch (VariantA.put_subcategories_write (param_id req) u) h w1
         = (inr (Response 404 (JError "Subcategory not found")), w')
       /\ db w' = db w) /\
  (forall l1 d l2,
     first_document (VStr (param_id req)) (VariantA.subcategories (db w)) l1 d l2 ->
     exists d' w',
       try_catch (VariantA.put_subcategories_write (param_id req) u) h w1
         = (inr (Response 200 (JDoc d')), w')
       /\ VariantA.subcategories (db w') = l1 ++ d' :: l2
       /\ VariantA.categories (db w') = VariantA.categories (db w)
       /\ first_document (VStr (param_id req)) (VariantA.subcategories (db w')) l1 d' l2
       /\ d' !! "updatedAt" = Some (VDate (clock w (ticks w)))
       /\ (forall f, d' !! f
                     = updated_field subcategory_fields (clock w (ticks w)) (body req) d f)).
Proof.
  intros Hdb u h. split.
  - intros Hno. eexists. split.
    + apply try_catch_returns, put_subcategories_write_A_unmatched.
      rewrite Hdb. by apply no_document_findOne.
    + simpl. exact Hdb.
  - intros l1 d l2 Hfirst.
    apply first_document_match in Hfirst; [|done..].
    destruct (updated_document subcategory_fields (clock w (ticks w)) (body req)
                _ _ _ _ _ (proj1 subcategory_fields_fresh)
                (proj2 subcategory_fields_fresh) Hfirst) as (Hdoc & Hstamp & Hfields).
    assert (u !! "_id" = None) as Hid
      by (apply updateData_no_id; apply subcategory_fields_fresh).
    rewrite <- Hdb in Hfirst.
    eexists _, _. split.
    + apply try_catch_returns.
      exact (put_subcategories_write_A_matched _ _ _ _ _ _ Hid Hfirst).
    + cbn [db VariantA.subcategories VariantA.categories].
      rewrite Hdb. repeat split; try done; apply Hdoc.
Qed.

End UpdateTheorems.

Section UpdateResults.
Import Mongo.

(** A subcategory update that names a category which does not exist is
    answered 400, with the database as it was. *)
Lemma put_subcategories_missing_parent (req : request) (w : world VariantA.database) :
  let cid := prop "categoryId" (body req) in
  cid <> VUndefined ->
  identified (VariantA.categories (db w)) ->
  no_document cid (VariantA.categories (db w)) ->
  exists w',
    VariantA.put_subcategories_id req w
      = (inr (Response 400 (JError "Parent category not found")), w')
    /\ db w' = db w.
Proof.
  intros cid Hcid Hids Hno.
  pose proof (document_missing _ _ Hcid Hids Hno) as Hnone.
  destruct (put_subcategories_id_A_cases req w)
    as [[Hu Hrun]|[(_ & Hfind & Hrun)|(_ & [c Hfind] & Hrun)]].
  - by destruct Hcid.
  - eexists. split; [exact Hrun|reflexivity].
  - unfold cid in *. rewrite Hnone in Hfind. discriminate Hfind.
Qed.

(** C3, as the code has it. An update answers 404, with the database as
    it was, when no document has the identifier, and 200 with the
    refreshed document otherwise: always for a category, and for a
    subcategory when the body leaves the category reference out or
    names an existing category. A subcategory update whose body names a
    category that does not exist is answered 400 "Parent category not
    found" before the identifier is looked at, whether or not a
    subcategory has it. The category reference of the body is a scalar
    value (a string, a number, a boolean or null): a reference that is
    a JSON object or array, which the handler would pass to [findOne] as
    it is and the server would not compare as an identifier, is not
    covered. *)
Theorem update_answers_404_or_refreshed
    (req : request) (w : world VariantA.database) :
  let cid := prop "categoryId" (body req) in
  answers_update Categories "Category not found" VariantA.put_categories_id req w /\
  (cid = VUndefined
   \/ (exists c, c ∈ VariantA.categories (db w) /\ c !! "_id" = Some cid) ->
   answers_update Subcategories "Subcategory not found"
     VariantA.put_subcategories_id req w) /\
  (cid <> VUndefined ->
   identified (VariantA.categories (db w)) ->
   no_document cid (VariantA.categories (db w)) ->
   exists w',
     VariantA.put_subcategories_id req w
       = (inr (Response 400 (JError "Parent category not found")), w')
     /\ db w' = db w).
Proof.
  intros cid. split; [apply put_categories_answers|]. split.
  - intros Hparent.
    destruct (put_subcategories_id_A_cases req w)
      as [[Hcid Hrun]|[(Hcid & Hfind & Hrun)|(Hcid & Hfind & Hrun)]].
    + destruct (put_subcategories_write_answers req w (tick w) eq_refl) as [H404 H200].
      split.
      * intros Hno. destruct (H404 Hno) as (w' & Hw & Hdb).
        exists w'. by rewrite Hrun.
      * intros l1 d l2 Hfirst.
        destruct (H200 l1 d l2 Hfirst) as (d' & w' & Hw & _ & _ & Hdoc & Hstamp & _).
        exists d', w'. by rewrite Hrun.
    + exfalso. destruct Hparent as [Hu|(c & Hin & Hc)]; [by apply Hcid|].
      destruct (document_found _ _ _ Hcid Hin Hc) as [c' Hc'].
      unfold cid in *. rewrite Hc' in Hfind. discriminate Hfind.
    + destruct (put_subcategories_write_answers req w
                  (log (OpFindOne Categories [("_id", cid)]) (tick w)) eq_refl)
        as [H404 H200].
      split.
      * intros Hno. destruct (H404 Hno) as (w' & Hw & Hdb).
        exists w'. by rewrite Hrun.
      * intros l1 d l2 Hfirst.
        destruct (H200 l1 d l2 Hfirst) as (d' & w' & Hw & _ & _ & Hdoc & Hstamp & _).
        exists d', w'. by rewrite Hrun.
  - intros Hcid Hids Hno. by apply put_subcategories_missing_parent.
Qed.

Lemma findOne_no_document id c :
  findOne [("_id", VStr id)] c = None -> no_document (VStr id) c.
Proof.
  intros Hfind. apply findOne_None in Hfind.
  eapply Forall_impl; [exact Hfind|]. intros d Hd Hid. simpl in Hd.
  apply (matches_id (VStr id)) in Hid; [congruence|done..].
Qed.

Lemma put_subcategories_write_frame req (w w1 : world VariantA.database) resp w' :
  db w1 = db w ->
  let u := updateData_of subcategory_fields (clock w (ticks w)) (body req) in
  let h := fun _ : exn => ret (Response 500 (JError "Failed to update subcategory")) in
  try_catch (VariantA.put_subcategories_write (param_id req) u) h w1 = (inr resp, w') ->
  status resp = 200 ->
  exists l1 d l2 d',
    first_document (VStr (param_id req)) (VariantA.subcategories (db w)) l1 d l2
    /\ VariantA.subcategories (db w') = l1 ++ d' :: l2
    /\ VariantA.categories (db w') = VariantA.categories (db w)
    /\ forall f, d' !! f
                 = updated_field subcategory_fields (clock w (ticks w)) (body req) d f.
Proof.
  intros Hdb u h Hrun H200.
  destruct (put_subcategories_write_answers req w w1 Hdb) as [H404 Hok].
  destruct (findOne [("_id", VStr (param_id req))] (VariantA.subcategories (db w)))
    as [d|] eqn:Hfind.
  - destruct (findOne_Some _ _ _ Hfind) as (l1 & l2 & Hm).
    apply first_match_document in Hm; [|done..].
    destruct (Hok l1 d l2 Hm) as (d' & w2 & Hw & Hsubs & Hcats & _ & _ & Hfields).
    fold u h in Hw. rewrite Hw in Hrun. injection Hrun as <- <-.
    by exists l1, d, l2, d'.
  - destruct (H404 (findOne_no_document _ _ Hfind)) as (w2 & Hw & _).
    fold u h in Hw. rewrite Hw in Hrun. injection Hrun as <- <-. discriminate H200.
Qed.

(** C7. A successful update (answer 200) of a category or a subcategory
    replaces the first document with the identifier by one in which the
    update timestamp is the clock reading of the request, each mutable
    field that the body supplies has the supplied value, and every
    other field is as it was; the documents before and after it, and
    the other collection, are unchanged. The timestamp is written
    whatever the body holds, the empty body included. *)
Theorem update_changes_only_supplied_fields
    (req : request) (w : world VariantA.database) :
  update_frame Categories Subcategories category_fields
    VariantA.put_categories_id req w /\
  update_frame Subcategories Categories subcategory_fields
    VariantA.put_subcategories_id req w.
Proof.
  split.
  - intros resp w' Hrun H200.
    destruct (findOne [("_id", VStr (param_id req))] (VariantA.categories (db w)))
      as [d|] eqn:Hfind.
    + destruct (findOne_Some _ _ _ Hfind) as (l1 & l2 & Hm).
      rewrite (put_categories_id_A_matched _ _ _ _ _ Hm) in Hrun.
      injection Hrun as <- <-.
      destruct (updated_document category_fields (clock w (ticks w)) (body req)
                  _ _ _ _ _ (proj1 category_fields_fresh)
                  (proj2 category_fields_fresh) Hm) as (_ & _ & Hfields).
      exists l1, d, l2, (set_fields
        (updateData_of category_fields (clock w (ticks w)) (body req)) d).
      split; [by apply first_match_document|]. by repeat split.
    + rewrite (put_categories_id_A_unmatched _ _ Hfind) in Hrun.
      injection Hrun as <- <-. discriminate H200.
  - intros resp w' Hrun H200.
    destruct (put_subcategories_id_A_cases req w)
      as [[Hcid Hw]|[(Hcid & Hfind & Hw)|(Hcid & Hfind & Hw)]];
      rewrite Hw in Hrun.
    + exact (put_subcategories_write_frame req w (tick w) resp w' eq_refl Hrun H200).
    + injection Hrun as <- <-. discriminate H200.
    + exact (put_subcategories_write_frame req w
               (log (OpFindOne Categories [("_id", prop "categoryId" (body req))])
                    (tick w))
               resp w' eq_refl Hrun H200).
Qed.

End UpdateResults.

(** A rename of a category and a move of a subcategory to an existing
    category, each answered 200 with the refreshed document. *)
Lemma update_answers_404_or_refreshed_witness :
  let hoodies := object [("_id", VStr "1"); ("name", VStr "Hoodies")] in
  let zip := object [("_id", VStr "2"); ("name", VStr "Zip"); ("categoryId", VStr "9")] in
  let w := World (VariantA.Database [hoodies] [zip]) [] (fun _ => 5) 0 (fun _ => "") 0 in
  let rename := Request None "1" ∅ (object [("name", VStr "Hoods")]) None in
  let move := Request None "2" ∅ (object [("categoryId", VStr "1")]) None in
  (exists d' w',
     VariantA.put_categories_id rename w = (inr (Response 200 (JDoc d')), w')
     /\ first_document (VStr "1") (VariantA.categories (db w')) [] d' []
     /\ d' !! "updatedAt" = Some (VDate 5)) /\
  (exists d' w',
     VariantA.put_subcategories_id move w = (inr (Response 200 (JDoc d')), w')
     /\ first_document (VStr "2") (VariantA.subcategories (db w')) [] d' []
     /\ d' !! "updatedAt" = Some (VDate 5)).
Proof.
  intros hoodies zip w rename move. split.
  - destruct (update_answers_404_or_refreshed rename w) as ((_ & Hput) & _).
    apply (Hput [] hoodies []). repeat split. constructor.
  - destruct (update_answers_404_or_refreshed move w) as (_ & Hput & _).
    destruct Hput as [_ Hput].
    + right. exists hoodies. split; [apply list_elem_of_here|reflexivity].
    + apply (Hput [] zip []). repeat split. constructor.
Defined.

(** C3 does not hold as it is worded for a subcategory update that names
    a category which does not exist: the answer is 400 both when a
    subcategory has the identifier (where 200 is expected) and when none
    has it (where 404 is expected). *)
Lemma update_with_unknown_parent_counterexample :
  let zip := object [("_id", VStr "2"); ("name", VStr "Zip"); ("categoryId", VStr "1")] in
  let w := World (VariantA.Database [] [zip]) [] (fun _ => 5) 0 (fun _ => "") 0 in
  let rejected :=
    (inr (Response 400 (JError "Parent category not found")),
     log (OpFindOne Categories [("_id", VStr "404")]) (tick w)) in
  let hit := Request None "2" ∅ (object [("categoryId", VStr "404")]) None in
  let miss := Request None "7" ∅ (object [("categoryId", VStr "404")]) None in
  first_document (VStr "2") (VariantA.subcategories (db w)) [] zip [] /\
  VariantA.put_subcategories_id hit w = rejected /\
  no_document (VStr "7") (VariantA.subcategories (db w)) /\
  VariantA.put_subcategories_id miss w = rejected.
Proof.
  intros zip w rejected hit miss. split; [|split; [|split]].
  - repeat split. constructor.
  - reflexivity.
  - repeat constructor. discriminate.
  - reflexivity.
Qed.

(** A rename of a category: only [name] and [updatedAt] are written. *)
Lemma update_changes_only_supplied_fields_witness :
  let hoodies := object [("_id", VStr "1"); ("name", VStr "Hoodies");
                         ("image", VStr "h.png")] in
  let polo := object [("_id", VStr "3"); ("name", VStr "Polo")] in
  let w := World (VariantA.Database [polo; hoodies] []) [] (fun _ => 5) 0 (fun _ => "") 0 in
  let rename := Request None "1" ∅ (object [("name", VStr "Hoods")]) None in
  exists resp w',
    VariantA.put_categories_id rename w = (inr resp, w') /\ status resp = 200 /\
    exists l1 d l2 d',
      first_document (VStr "1") (VariantA.categories (db w)) l1 d l2
      /\ VariantA.categories (db w') = l1 ++ d' :: l2
      /\ VariantA.subcategories (db w') = VariantA.subcategories (db w)
      /\ forall f, d' !! f = updated_field category_fields 5 (body rename) d f.
Proof.
  intros hoodies polo w rename.
  assert (first_match [("_id", VStr "1")] (VariantA.categories (db w)) [polo] hoodies [])
    as Hm by (repeat split; repeat constructor).
  pose proof (put_categories_id_A_matched rename w _ _ _ Hm) as Hrun.
  eexists _, _. split; [exact Hrun|]. split; [reflexivity|].
  exact (proj1 (update_changes_only_supplied_fields rename w) _ _ Hrun eq_refl).
Defined.

(* ===================================================================== *)
(** ** Creating a category or a subcategory *)
(* ===================================================================== *)

Section Identifiers.

Lemma pretty_N_go_length x s :
  (String.length s <= String.length (pretty_N_go x s))%nat.
Proof.
  revert s. induction (N.lt_wf_0 x) as [x _ IH]; intros s.
  destruct (decide (x = 0)%N) as [->|Hx]; [by rewrite pretty_N_go_0|].
  rewrite pretty_N_go_step by lia.
  etrans; [|apply IH; apply N.div_lt; lia]. simpl. lia.
Qed.

Lemma pretty_N_nonempty (x : N) : pretty x <> "".
Proof.
  unfold pretty, pretty_N. destruct (decide (x = 0)%N) as [->|Hx]; [done|].
  rewrite pretty_N_go_step by lia. intros Hempty.
  pose proof (pretty_N_go_length (x `div` 10)
                (String (pretty_N_char (x `mod` 10)) "")) as Hlen.
  rewrite Hempty in Hlen. simpl in Hlen. lia.
Qed.

(** An identifier made from the clock is a non-empty string. *)
Lemma toString_nonempty (n : Z) : toString n <> "".
Proof.
  unfold toString, pretty, pretty_Z. destruct n as [|p|p]; [done| |done].
  apply pretty_N_nonempty.
Qed.

Lemma truthy_generated_id n : truthy (VStr (toString n)) = true.
Proof. apply truthy_string, toString_nonempty. Qed.

End Identifiers.

Section Insert.
Import Mongo.

Lemma lookup_object_cons k v kvs j :
  object ((k, v) :: kvs) !! j = if decide (k = j) then Some v else object kvs !! j.
Proof.
  unfold object. cbn [list_to_map foldr uncurry fst snd]. apply lookup_insert.
Qed.

Lemma lookup_serialize d f : serialize d !! f = bson <$> d !! f.
Proof. unfold serialize. apply lookup_fmap. Qed.

(** Without a secondary index, a document whose identifier no stored
    document has is appended. *)
Lemma insert_fresh v d c :
  d !! "_id" = Some v -> v <> VNull -> no_document v c ->
  insert [] d c = Some (c ++ [d]).
Proof.
  intros Hd Hv Hno. unfold insert.
  assert (existsb (collides ["_id"] d) c = false) as ->; [|done].
  induction Hno as [|x c Hx _ IH]; [done|].
  cbn [existsb]. rewrite IH, orb_false_r.
  unfold collides. cbn [existsb]. rewrite orb_false_r.
  apply bool_decide_eq_false. unfold index_key. rewrite Hd. simpl.
  destruct (x !! "_id") as [y|]; simpl; congruence.
Qed.

(** A stored document with the same identifier refuses the insert. *)
Lemma insert_taken uniq v d c x :
  d !! "_id" = Some v -> x ∈ c -> x !! "_id" = Some v ->
  insert uniq d c = None.
Proof.
  intros Hd Hin Hx. unfold insert.
  assert (existsb (collides ("_id" :: uniq) d) c = true) as ->; [|done].
  apply existsb_exists. exists x. split; [by apply list_elem_of_In|].
  unfold collides. cbn [existsb]. apply orb_true_iff. left.
  apply bool_decide_eq_true. unfold index_key. by rewrite Hd, Hx.
Qed.

End Insert.

(** Look a literal key up in an object literal. *)
Ltac lookup_literal :=
  repeat (rewrite lookup_object_cons;
          first [ rewrite decide_True by reflexivity
                | rewrite decide_False by discriminate ]).

Section CreateRuns.
Import Mongo.

(** The object that [POST /subcategories] builds. *)
Lemma post_subcategories_A_missing_parent req (w : world VariantA.database) :
  let cid := prop "categoryId" (body req) in
  truthy (prop "name" (body req)) = true -> truthy cid = true ->
  findOne [("_id", cid)] (VariantA.categories (db w)) = None ->
  VariantA.post_subcategories req w
    = (inr (Response 400 (JError "Parent category not found")),
       log (OpFindOne Categories [("_id", cid)]) w).
Proof.
  intros cid Hname Hcid Hfind. subst cid.
  unfold VariantA.post_subcategories. rewrite Hname, Hcid. run.
  cbn [negb]. cbv beta iota. rewrite Hfind. reflexivity.
Qed.

Lemma post_subcategories_A_created req (w : world VariantA.database) c :
  let cid := prop "categoryId" (body req) in
  let t := clock w (ticks w) in
  truthy (prop "name" (body req)) = true -> truthy cid = true ->
  findOne [("_id", cid)] (VariantA.categories (db w)) = Some c ->
  no_document (VStr (toString t)) (VariantA.subcategories (db w)) ->
  exists sub w',
    VariantA.post_subcategories req w = (inr (Response 201 (JDoc sub)), w')
    /\ sub !! "categoryId" = Some cid
    /\ sub !! "_id" = Some (VStr (toString t))
    /\ sub !! "name" = Some (prop "name" (body req))
    /\ VariantA.subcategories (db w')
         = VariantA.subcategories (db w) ++ [serialize sub]
    /\ VariantA.categories (db w') = VariantA.categories (db w)
    /\ serialize sub !! "categoryId" = Some cid.
Proof.
  intros cid t Hname Hcid Hfind Hfresh. subst cid t.
  unfold VariantA.post_subcategories. rewrite Hname, Hcid. run.
  cbn [negb]. cbv beta iota. rewrite Hfind. cbv beta iota.
  match goal with |- context [object ?kvs !! "_id"] => set (sub := object kvs) end.
  assert (sub !! "_id" = Some (VStr (toString (clock w (ticks w))))) as Hid
    by (unfold sub; lookup_literal; reflexivity).
  assert (sub !! "categoryId" = Some (prop "categoryId" (body req))) as Href
    by (unfold sub; lookup_literal; reflexivity).
  assert (sub !! "name" = Some (prop "name" (body req))) as Hn
    by (unfold sub; lookup_literal; reflexivity).
  rewrite Hid.
  cbn [docs with_docs unique_fields VariantA.database_store db trace clock
       ticks oids issued VariantA.categories VariantA.subcategories].
  rewrite (insert_fresh (VStr (toString (clock w (ticks w)))) (serialize sub));
    [|by rewrite lookup_serialize, Hid|done|exact Hfresh].
  rewrite (prop_lookup _ _ _ Hid), truthy_generated_id.
  eexists _, _. split; [reflexivity|].
  cbn [db VariantA.categories VariantA.subcategories].
  repeat split; try done.
  rewrite lookup_serialize, Href. simpl. f_equal. apply bson_defined.
  by apply truthy_defined.
Qed.

End CreateRuns.

Section ParentCheck.
Import Mongo.

(** C1, as the code has it. The parent category is looked up by
    [POST /subcategories] once [name] and [categoryId] have passed the
    required-field check, and by [PUT /subcategories/:id] whenever the
    body supplies [categoryId]. When no category has the supplied
    identifier the answer is 400 "Parent category not found" and the
    database is as it was. When a category has it, the write goes
    ahead: the create, given that the identifier it makes from the
    clock is not taken, answers 201 and both the returned and the
    stored document carry the supplied reference; the update answers
    404 with the database as it was when no subcategory has the
    identifier of the request, and otherwise 200 with a returned and
    stored document that carries the supplied reference. The supplied
    reference is a scalar value (a string, a number, a boolean or
    null): a reference that is a JSON object or array, which the
    handlers would pass to [findOne] as it is and the server would not
    compare as an identifier, is not covered. *)
Theorem parent_category_is_checked (req : request) (w : world VariantA.database) :
  let cid := prop "categoryId" (body req) in
  let cats := VariantA.categories (db w) in
  let subs := VariantA.subcategories (db w) in
  let id := VStr (param_id req) in
  (truthy (prop "name" (body req)) = true -> truthy cid = true ->
     (no_document cid cats ->
        exists w',
          VariantA.post_subcategories req w
            = (inr (Response 400 (JError "Parent category not found")), w')
          /\ db w' = db w) /\
     (forall c, c ∈ cats -> c !! "_id" = Some cid ->
        no_document (VStr (toString (clock w (ticks w)))) subs ->
        exists sub stored w',
          VariantA.post_subcategories req w = (inr (Response 201 (JDoc sub)), w')
          /\ sub !! "categoryId" = Some cid
          /\ VariantA.subcategories (db w') = subs ++ [stored]
          /\ stored !! "categoryId" = Some cid
          /\ VariantA.categories (db w') = cats)) /\
  (cid <> VUndefined ->
     (identified cats -> no_document cid cats ->
        exists w',
          VariantA.put_subcategories_id req w
            = (inr (Response 400 (JError "Parent category not found")), w')
          /\ db w' = db w) /\
     (forall c, c ∈ cats -> c !! "_id" = Some cid ->
        (no_document id subs ->
           exists w',
             VariantA.put_subcategories_id req w
               = (inr (Response 404 (JError "Subcategory not found")), w')
             /\ db w' = db w) /\
        (forall l1 s l2, first_document id subs l1 s l2 ->
           exists s' w',
             VariantA.put_subcategories_id req w = (inr (Response 200 (JDoc s')), w')
             /\ s' !! "categoryId" = Some cid
             /\ VariantA.subcategories (db w') = l1 ++ s' :: l2
             /\ VariantA.categories (db w') = cats))).
Proof.
  intros cid cats subs id. split.
  - intros Hname Hcid. destruct (truthy_defined _ Hcid) as [Hu Hn]. split.
    + intros Hno. eexists. split.
      * apply post_subcategories_A_missing_parent; [done..|].
        by apply no_document_findOne.
      * reflexivity.
    + intros c Hin Hc Hfresh.
      destruct (document_found _ _ _ Hu Hin Hc) as [c' Hfind].
      destruct (post_subcategories_A_created req w c' Hname Hcid Hfind Hfresh)
        as (sub & w' & Hrun & Href & _ & _ & Hsubs & Hcats & Hstored).
      exists sub, (serialize sub), w'. done.
  - intros Hcid. split.
    + intros Hids Hno.
      by apply put_subcategories_missing_parent.
    + intros c Hin Hc.
      destruct (document_found _ _ _ Hcid Hin Hc) as [c' Hfind].
      destruct (put_subcategories_id_A_cases req w)
        as [[Hu _]|[(_ & Hnone & _)|(_ & _ & Hrun)]].
      * by destruct Hcid.
      * unfold cid, cats in Hfind. rewrite Hfind in Hnone. discriminate Hnone.
      * destruct (put_subcategories_write_answers req w
                    (log (OpFindOne Categories [("_id", cid)]) (tick w)) eq_refl)
          as [H404 H200].
        split.
        -- intros Hno. destruct (H404 Hno) as (w' & Hw & Hdb).
           exists w'. by rewrite Hrun.
        -- intros l1 s l2 Hfirst.
           destruct (H200 l1 s l2 Hfirst)
             as (s' & w' & Hw & Hsubs & Hcats' & _ & _ & Hfields).
           exists s', w'. rewrite Hrun. split; [exact Hw|]. split; [|done].
           rewrite Hfields. unfold updated_field.
           rewrite decide_False by discriminate.
           rewrite decide_True; [done|]. split; [|exact Hcid].
           apply (bool_decide_unpack _). vm_compute. exact I.
Qed.

End ParentCheck.

(** A subcategory created under an existing category, and one moved to
    it. *)
Lemma parent_category_is_checked_witness :
  let hoodies := object [("_id", VStr "1"); ("name", VStr "Hoodies")] in
  let polo := object [("_id", VStr "3"); ("name", VStr "Polo"); ("categoryId", VStr "9")] in
  let w := World (VariantA.Database [hoodies] [polo]) [] (fun _ => 5) 0 (fun _ => "") 0 in
  let create :=
    Request None "" ∅ (object [("name", VStr "Zip"); ("categoryId", VStr "1")]) None in
  let move := Request None "3" ∅ (object [("categoryId", VStr "1")]) None in
  (exists sub stored w',
     VariantA.post_subcategories create w = (inr (Response 201 (JDoc sub)), w')
     /\ sub !! "categoryId" = Some (VStr "1")
     /\ VariantA.subcategories (db w') = [polo; stored]
     /\ stored !! "categoryId" = Some (VStr "1")
     /\ VariantA.categories (db w') = [hoodies]) /\
  (exists s' w',
     VariantA.put_subcategories_id move w = (inr (Response 200 (JDoc s')), w')
     /\ s' !! "categoryId" = Some (VStr "1")
     /\ VariantA.subcategories (db w') = [s']
     /\ VariantA.categories (db w') = [hoodies]).
Proof.
  intros hoodies polo w create move. split.
  - destruct (parent_category_is_checked create w) as [Hcreate _].
    destruct (Hcreate eq_refl eq_refl) as [_ Hok].
    apply (Hok hoodies); [apply list_elem_of_here|reflexivity|].
    repeat constructor. discriminate.
  - destruct (parent_category_is_checked move w) as [_ Hupdate].
    destruct (Hupdate ltac:(discriminate)) as [_ Hok].
    destruct (Hok hoodies (list_elem_of_here _ _) eq_refl) as [_ Hmove].
    apply (Hmove [] polo []). repeat split. constructor.
Defined.

(** C1 does not hold as it is worded on either write path when the
    category exists: a create request without [name] is answered 400
    "Subcategory name is required" and stores nothing, and an update whose
    identifier no subcategory has is answered 404 and stores nothing. *)
Lemma parent_category_is_checked_counterexample :
  let hoodies := object [("_id", VStr "1"); ("name", VStr "Hoodies")] in
  let w := World (VariantA.Database [hoodies] []) [] (fun _ => 5) 0 (fun _ => "") 0 in
  let create := Request None "" ∅ (object [("categoryId", VStr "1")]) None in
  let move := Request None "3" ∅ (object [("categoryId", VStr "1")]) None in
  hoodies !! "_id" = Some (prop "categoryId" (body create)) /\
  VariantA.post_subcategories create w
    = (inr (Response 400 (JError "Subcategory name is required")), w) /\
  exists w',
    VariantA.put_subcategories_id move w
      = (inr (Response 404 (JError "Subcategory not found")), w')
    /\ db w' = db w.
Proof.
  intros hoodies w create move. split; [reflexivity|]. split; [reflexivity|].
  eexists. split; reflexivity.
Qed.

(* ===================================================================== *)
(** ** The collections stay keyed by identifier *)
(* ===================================================================== *)

Section KeyedCollections.
Import Mongo.

Lemma delete_first_cons q d c :
  delete_first q (d :: c)
    = if matches q d then Some c else cons d <$> delete_first q c.
Proof. reflexivity. Qed.

Lemma update_first_cons q u d c :
  update_first q u (d :: c)
    = if matches q d then Some (set_fields u d :: c)
      else cons d <$> update_first q u c.
Proof. reflexivity. Qed.

(** Deleting leaves a sublist, also of any list of keys. *)
Lemma delete_first_sublist {K} (k : doc -> K) q c c' :
  delete_first q c = Some c' -> (k <$> c') `sublist_of` (k <$> c).
Proof.
  revert c'. induction c as [|d c IH]; intros c'; [done|].
  rewrite delete_first_cons. destruct (matches q d).
  - intros [= <-]. rewrite fmap_cons. by apply sublist_cons.
  - destruct (delete_first q c) as [c1|]; [|done].
    cbn [fmap option_fmap option_map]. intros [= <-].
    rewrite !fmap_cons. apply sublist_skip. by apply IH.
Qed.

Lemma delete_many_sublist {K} (k : doc -> K) q c :
  (k <$> delete_many q c) `sublist_of` (k <$> c).
Proof.
  unfold delete_many. induction c as [|d c IH]; [done|].
  cbn [List.filter]. destruct (negb (matches q d)); rewrite !fmap_cons.
  - by apply sublist_skip.
  - by apply sublist_cons.
Qed.

Lemma identified_sublist c c' :
  ((fun d : doc => d !! "_id") <$> c') `sublist_of` ((fun d : doc => d !! "_id") <$> c) ->
  identified c -> identified c'.
Proof.
  intros Hsub Hids. unfold identified in *. rewrite Forall_forall in *.
  intros d Hd.
  assert (d !! "_id" ∈ (fun d : doc => d !! "_id") <$> c) as Hin.
  { eapply elem_of_sublist; [|exact Hsub].
    apply list_elem_of_fmap. by exists d. }
  apply list_elem_of_fmap in Hin as (x & -> & Hx). by apply Hids.
Qed.

Lemma keyed_delete_first q c c' :
  keyed c -> delete_first q c = Some c' -> keyed c'.
Proof.
  intros [Hids Hnd] Hdel.
  pose proof (delete_first_sublist (fun d : doc => d !! "_id") _ _ _ Hdel) as Hsub.
  split; [by eapply identified_sublist|by eapply sublist_NoDup].
Qed.

Lemma keyed_delete_many q c : keyed c -> keyed (delete_many q c).
Proof.
  intros [Hids Hnd].
  pose proof (delete_many_sublist (fun d : doc => d !! "_id") q c) as Hsub.
  split; [by eapply identified_sublist|by eapply sublist_NoDup].
Qed.

Lemma keyed_update_first q u c c' :
  u !! "_id" = None -> keyed c -> update_first q u c = Some c' -> keyed c'.
Proof.
  intros Hu [Hids Hnd] Hupd.
  assert (forall d, set_fields u d !! "_id" = d !! "_id") as Hsame
    by (intros d; by rewrite lookup_set_fields, Hu).
  assert ((fun d : doc => d !! "_id") <$> c' = (fun d : doc => d !! "_id") <$> c)
    as Hkeys.
  { clear Hids Hnd. revert c' Hupd.
    induction c as [|d c IH]; intros c'; [done|].
    rewrite update_first_cons. destruct (matches q d).
    - intros [= <-]. rewrite !fmap_cons. by rewrite Hsame.
    - destruct (update_first q u c) as [c1|]; [|done].
      cbn [fmap option_fmap option_map]. intros [= <-].
      rewrite !fmap_cons. by rewrite (IH c1 eq_refl). }
  split; [|by rewrite Hkeys].
  unfold identified in *. rewrite Forall_forall in *. intros d Hd.
  assert (d !! "_id" ∈ (fun d : doc => d !! "_id") <$> c) as Hin
    by (rewrite <- Hkeys; apply list_elem_of_fmap; by exists d).
  apply list_elem_of_fmap in Hin as (x & -> & Hx). by apply Hids.
Qed.

Lemma keyed_insert uniq d c c' :
  is_Some (d !! "_id") -> keyed c -> insert uniq d c = Some c' -> keyed c'.
Proof.
  intros [k Hk] [Hids Hnd]. unfold insert.
  destruct (existsb (collides ("_id" :: uniq) d) c) eqn:Hcol; [done|].
  intros [= <-]. split.
  - apply Forall_app. split; [done|]. constructor; [by exists k|constructor].
  - rewrite fmap_app. apply NoDup_app. split; [done|]. split.
    + intros o Hin Hnew. cbn in Hnew. apply list_elem_of_singleton in Hnew as ->.
      apply list_elem_of_fmap in Hin as (x & Hx & Hin).
      assert (collides ("_id" :: uniq) d x = true) as Hclash.
      { unfold collides. cbn [existsb]. apply orb_true_iff. left.
        apply bool_decide_eq_true. unfold index_key. by rewrite <- Hx. }
      assert (existsb (collides ("_id" :: uniq) d) c = true) as Hyes
        by (apply existsb_exists; exists x; split; [by apply list_elem_of_In|done]).
      congruence.
    + cbn. apply NoDup_singleton.
Qed.

End KeyedCollections.

Section Preserves.
Context {D : Type} `{Store D} (I : D -> Prop).

Lemma preserves_ret {A} (a : A) : preserves I (ret a).
Proof. by intros w Hw. Qed.

Lemma preserves_throw {A} e : preserves I (throw (A := A) e).
Proof. by intros w Hw. Qed.

Lemma preserves_bind {A B} (m : M D A) (k : A -> M D B) :
  preserves I m -> (forall a, preserves I (k a)) -> preserves I (bind m k).
Proof.
  intros Hm Hk w Hw. unfold bind. specialize (Hm w Hw).
  destruct (m w) as [[e|a] w1]; [done|]. by apply Hk.
Qed.

Lemma preserves_try_catch {A} (m : M D A) h :
  preserves I m -> (forall e, preserves I (h e)) -> preserves I (try_catch m h).
Proof.
  intros Hm Hh w Hw. unfold try_catch. specialize (Hm w Hw).
  destruct (m w) as [[e|a] w1]; [by apply Hh|done].
Qed.

Lemma preserves_Date_now : preserves I Date_now.
Proof. by intros w Hw. Qed.

Lemma preserves_find c q : preserves I (db_find c q).
Proof. by intros w Hw. Qed.

Lemma preserves_findOne c q : preserves I (db_findOne c q).
Proof. by intros w Hw. Qed.

(** The driver calls that write, given that the collection functions
    keep [I]. *)
Lemma preserves_write_deleteOne c q :
  (forall d l, I d -> Mongo.delete_first q (docs c d) = Some l -> I (with_docs c l d)) ->
  preserves I (db_deleteOne c q).
Proof.
  intros Hkeep w Hw. unfold db_deleteOne.
  destruct (Mongo.delete_first q (docs c (db w))) as [l|] eqn:Hdel; [|done].
  by apply Hkeep.
Qed.

Lemma preserves_write_deleteMany c q :
  (forall d, I d -> I (with_docs c (Mongo.delete_many q (docs c d)) d)) ->
  preserves I (db_deleteMany c q).
Proof. intros Hkeep w Hw. unfold db_deleteMany. by apply Hkeep. Qed.

Lemma preserves_write_updateOne c q u :
  (forall d l, I d ->
     Mongo.update (unique_fields c d) q u (docs c d) = Mongo.Updated l ->
     I (with_docs c l d)) ->
  preserves I (db_updateOne c q u).
Proof.
  intros Hkeep w Hw. unfold db_updateOne.
  destruct (Mongo.update (unique_fields c (db w)) q u (docs c (db w)))
    as [|l|] eqn:Hupd; [done| |done].
  by apply Hkeep.
Qed.

Lemma preserves_write_insertOne c d0 :
  (forall d d' l, I d -> is_Some (d' !! "_id") ->
     Mongo.insert (unique_fields c d) (Mongo.serialize d') (docs c d) = Some l ->
     I (with_docs c l d)) ->
  preserves I (db_insertOne c d0).
Proof.
  intros Hkeep w Hw. unfold db_insertOne, bind, with_generated_id.
  assert (exists d' w1, (match d0 !! "_id" with
                         | Some _ => (inr d0, w)
                         | None => (inr (<["_id" := VOid (oids w (issued w))]> d0),
                                    World (db w) (trace w) (clock w) (ticks w)
                                          (oids w) (S (issued w)))
                         end) = (inr d', w1 : world D)
                        /\ db w1 = db w /\ is_Some (d' !! "_id"))
    as (d' & w1 & -> & Hdb & Hid).
  { destruct (d0 !! "_id") as [k|] eqn:Hk.
    - exists d0, w. by repeat split.
    - eexists _, _. repeat split. by rewrite lookup_insert_eq. }
  rewrite Hdb.
  destruct (Mongo.insert (unique_fields c (db w)) (Mongo.serialize d') (docs c (db w)))
    as [l|] eqn:Hins; cbn; [|by rewrite Hdb].
  by eapply Hkeep.
Qed.

End Preserves.

Section PreservesKeys.
Import Mongo.

Lemma keys_deleteOne c q : preserves keyed_database (db_deleteOne c q).
Proof.
  apply preserves_write_deleteOne. intros d l [Hc Hs] Hdel.
  destruct c; cbn in *; split; cbn; eauto using keyed_delete_first.
Qed.

Lemma keys_deleteMany c q : preserves keyed_database (db_deleteMany c q).
Proof.
  apply preserves_write_deleteMany. intros d [Hc Hs].
  destruct c; cbn in *; split; cbn; eauto using keyed_delete_many.
Qed.

Lemma update_Updated uniq q u c l :
  update uniq q u c = Updated l -> update_first q u c = Some l.
Proof.
  unfold update. destruct (findOne q c); [|done].
  destruct (delete_first q c); [|done].
  destruct (update_first q u c); [|done].
  destruct (existsb _ _); [done|]. by intros [= ->].
Qed.

Lemma keys_updateOne c q u :
  u !! "_id" = None -> preserves keyed_database (db_updateOne c q u).
Proof.
  intros Hu. apply preserves_write_updateOne. intros d l [Hc Hs] Hupd.
  apply update_Updated in Hupd.
  destruct c; cbn in *; split; cbn; eauto using keyed_update_first.
Qed.

Lemma keys_insertOne c d0 : preserves keyed_database (db_insertOne c d0).
Proof.
  apply preserves_write_insertOne. intros d d' l [Hc Hs] Hid Hins.
  assert (is_Some (serialize d' !! "_id")) as Hid'
    by (rewrite lookup_serialize; destruct Hid as [k ->]; by eexists).
  destruct c; cbn in *; split; cbn; eauto using keyed_insert.
Qed.

Lemma assigned_no_id k v (o : obj) :
  k <> "_id" -> o !! "_id" = None -> assign_if_defined k v o !! "_id" = None.
Proof.
  intros Hk Ho. rewrite lookup_assign_if_defined.
  destruct (decide (v = VUndefined)); [done|]. by rewrite decide_False.
Qed.

End PreservesKeys.

(** Walk through a handler, one construct at a time. *)
Ltac preserve write :=
  repeat (cbv zeta;
          first
            [ apply preserves_ret
            | apply preserves_throw
            | apply preserves_Date_now
            | apply preserves_find
            | apply preserves_findOne
            | write
            | apply preserves_try_catch; [|intros ?]
            | apply preserves_bind; [|intros ?]
            | match goal with
              | |- preserves _ (if ?b then _ else _) => destruct b
              | |- preserves _ (match ?x with _ => _ end) => destruct x
              end ]).

Ltac no_id_assigned :=
  repeat first [ apply assigned_no_id; [discriminate|]
               | rewrite lookup_insert_ne by discriminate
               | reflexivity ].

Ltac keyed_write :=
  first [ apply keys_insertOne
        | apply keys_deleteOne
        | apply keys_deleteMany
        | apply keys_updateOne; no_id_assigned ].

Section Invariant.
Context `{jwt : Jwt.Lib}.
Variable env : process_env.

Lemma preserves_authenticateToken next req :
  (forall req', preserves keyed_database (next req')) ->
  preserves keyed_database (VariantA.authenticateToken env next req).
Proof.
  intros Hnext w Hw. rewrite authenticateToken_A.
  destruct (VariantA.bearer (authorization req)) as [tok|]; [|done].
  destruct (bool_decide (tok = "")); [done|].
  destruct (Jwt.verify tok (JWT_SECRET env) (clock w (ticks w))); [|done].
  by apply Hnext.
Qed.

(** Every route of variant A leaves both collections keyed by [_id]: the
    assumption that stored documents are identified, made where a
    missing parent is reported, holds of every database that the
    application has written. *)
Lemma variantA_keeps_collections_keyed (r : route) (req : request) :
  preserves keyed_database (VariantA.app env r req).
Proof.
  destruct r; cbn [VariantA.app];
    try (apply preserves_authenticateToken; intros req');
    unfold VariantA.get_categories, VariantA.get_categories_id,
      VariantA.post_categories, VariantA.put_categories_id,
      VariantA.delete_categories_id, VariantA.get_subcategories,
      VariantA.get_subcategories_id, VariantA.post_subcategories,
      VariantA.put_subcategories_id, VariantA.delete_subcategories_id,
      VariantA.put_subcategories_write;
    preserve keyed_write.
Qed.

End Invariant.

(* ===================================================================== *)
(** ** Uniqueness of category names *)
(* ===================================================================== *)

(** C4, variant A. A create request whose name is the name of a stored
    category is answered 201 and a second category of that name is
    stored: variant A neither checks the name nor creates an index. *)
Theorem variantA_accepts_duplicate_name :
  let hoodies := object [("_id", VStr "1700000000000"); ("name", VStr "Hoodies")] in
  let w := World (VariantA.Database [hoodies] []) []
                 (fun _ => 1700000000001) 0 (fun _ => "") 0 in
  let req := Request None "" ∅ (object [("name", VStr "Hoodies")]) None in
  exists created w',
    VariantA.post_categories req w = (inr (Response 201 (JDoc created)), w')
    /\ prop "name" <$> VariantA.categories (db w') = [VStr "Hoodies"; VStr "Hoodies"]
    /\ prop "_id" <$> VariantA.categories (db w')
         = [VStr "1700000000000"; VStr "1700000000001"].
Proof.
  intros hoodies w req.
  destruct (VariantA.post_categories req w) as [[e|resp] w'] eqn:Hrun;
    vm_compute in Hrun; [discriminate Hrun|].
  injection Hrun as <- <-.
  eexists _, _. split; [reflexivity|]. split; vm_compute; reflexivity.
Qed.

Section UniqueIndex.
Import Mongo.

(** Under a unique index on [name], a document whose name a stored
    document has is refused. *)
Lemma insert_duplicate_name v d c x :
  d !! "name" = Some v -> x ∈ c -> x !! "name" = Some v ->
  insert ["name"] d c = None.
Proof.
  intros Hd Hin Hx. unfold insert.
  assert (existsb (collides ["_id"; "name"] d) c = true) as ->; [|done].
  apply existsb_exists. exists x. split; [by apply list_elem_of_In|].
  unfold collides. cbn [existsb]. apply orb_true_iff. right.
  apply orb_true_iff. left.
  apply bool_decide_eq_true. unfold index_key. by rewrite Hd, Hx.
Qed.

(** X15. Variant B with the index in place: a create request whose name is
    the name of a stored category is answered 500 and the database is as
    it was. *)
Lemma variantB_rejects_duplicate_name (req : request) (w : world VariantB.database) x :
  VariantB.categories_name_unique (db w) = true ->
  truthy (prop "name" (body req)) = true ->
  x ∈ VariantB.categories (db w) ->
  x !! "name" = Some (prop "name" (body req)) ->
  exists w',
    VariantB.post_categories req w
      = (inr (Response 500 (JError "Failed to create category")), w')
    /\ db w' = db w.
Proof.
  intros Hindex Hname Hin Hx.
  unfold VariantB.post_categories. rewrite Hname. run.
  cbn [negb]. cbv beta iota.
  match goal with |- context [object ?kvs !! "_id"] => set (cat := object kvs) end.
  assert (cat !! "_id" = None) as Hid
    by (unfold cat; lookup_literal; reflexivity).
  assert (cat !! "name" = Some (prop "name" (body req))) as Hn
    by (unfold cat; lookup_literal; reflexivity).
  rewrite Hid.
  cbn [docs with_docs unique_fields VariantB.database_store db trace clock
       ticks oids issued VariantB.categories VariantB.subcategories
       VariantB.categories_name_unique].
  rewrite Hindex.
  rewrite (insert_duplicate_name (prop "name" (body req)) _ _ x); [| |exact Hin|exact Hx].
  - eexists. split; reflexivity.
  - rewrite lookup_serialize, lookup_insert_ne by discriminate.
    rewrite Hn. simpl. f_equal. apply bson_defined. by apply truthy_defined.
Qed.

(** X17. At start-up variant B asks for the index, and gets it when the
    stored names are pairwise distinct. *)
Lemma variantB_startup_creates_index env d :
  truthy (str_value (JWT_SECRET env)) = true ->
  NoDup (index_key "name" <$> VariantB.categories d) ->
  exists d',
    VariantB.startup env (Some d) = Listening d'
    /\ VariantB.categories_name_unique d' = true
    /\ VariantB.categories d' = VariantB.categories d.
Proof.
  intros Hsecret Hnames. unfold VariantB.startup. rewrite Hsecret.
  eexists. split; [reflexivity|].
  unfold VariantB.connectDB.
  assert (exists d1, VariantB.createIndex_name Categories d = Some d1
                     /\ VariantB.categories_name_unique d1 = true
                     /\ VariantB.categories d1 = VariantB.categories d)
    as (d1 & -> & Hflag & Hcats).
  { unfold VariantB.createIndex_name. cbn [unique_fields docs VariantB.database_store].
    destruct (VariantB.categories_name_unique d) eqn:Hflag.
    - rewrite bool_decide_eq_true_2 by done. by exists d.
    - rewrite bool_decide_eq_false_2 by discriminate.
      rewrite bool_decide_eq_true_2 by exact Hnames. eexists. by repeat split. }
  cbn [default].
  unfold VariantB.createIndex_name. cbn [unique_fields docs VariantB.database_store].
  repeat case_bool_decide; cbn [default VariantB.categories_name_unique
                                  VariantB.categories]; done.
Qed.

End UniqueIndex.

Section UniqueNames.
Import Mongo.

Lemma insert_keeps_unique f uniq d c l :
  f ∈ uniq ->
  NoDup (index_key f <$> c) -> insert uniq d c = Some l ->
  NoDup (index_key f <$> l).
Proof.
  intros Hf Hnd. unfold insert.
  destruct (existsb (collides ("_id" :: uniq) d) c) eqn:Hcol; [done|].
  intros [= <-]. rewrite fmap_app. apply NoDup_app. split; [done|]. split.
  - intros k Hin Hnew. cbn in Hnew. apply list_elem_of_singleton in Hnew as ->.
    apply list_elem_of_fmap in Hin as (x & Hx & Hin).
    assert (existsb (collides ("_id" :: uniq) d) c = true) as Hyes; [|congruence].
    apply existsb_exists. exists x. split; [by apply list_elem_of_In|].
    unfold collides. apply existsb_exists. exists f.
    split; [apply list_elem_of_In; by right|by apply bool_decide_eq_true].
  - cbn. apply NoDup_singleton.
Qed.

Lemma update_keeps_unique f uniq q u c l :
  f ∈ uniq ->
  NoDup (index_key f <$> c) -> update uniq q u c = Updated l ->
  NoDup (index_key f <$> l).
Proof.
  intros Hf Hnd. unfold update.
  destruct (findOne q c) as [d0|] eqn:Hfind; [|done].
  destruct (findOne_Some _ _ _ Hfind) as (l1 & l2 & Hm).
  rewrite (first_match_delete _ _ _ _ _ Hm), (first_match_update _ u _ _ _ _ Hm).
  destruct (existsb (collides uniq (set_fields u d0)) (l1 ++ l2)) eqn:Hcol; [done|].
  intros [= <-]. destruct Hm as (-> & _ & _).
  rewrite fmap_app, fmap_cons in *.
  apply NoDup_app in Hnd as (Hl1 & Hdisj & Hl2).
  apply NoDup_cons in Hl2 as [_ Hl2].
  assert (forall x, x ∈ l1 ++ l2 ->
                    index_key f (set_fields u d0) <> index_key f x) as Hnew.
  { intros x Hx Heq.
    assert (existsb (collides uniq (set_fields u d0)) (l1 ++ l2) = true) as Hyes;
      [|congruence].
    apply existsb_exists. exists x. split; [by apply list_elem_of_In|].
    unfold collides. apply existsb_exists. exists f.
    split; [by apply list_elem_of_In|by apply bool_decide_eq_true]. }
  apply NoDup_app. split; [done|]. split.
  - intros k Hk Hin. apply elem_of_cons in Hin as [->|Hin].
    + apply list_elem_of_fmap in Hk as (x & Hx & Hk).
      apply (Hnew x); [apply elem_of_app; by left|done].
    + apply (Hdisj k Hk). by right.
  - apply NoDup_cons. split; [|done].
    intros Hin. apply list_elem_of_fmap in Hin as (x & Hx & Hin).
    apply (Hnew x); [apply elem_of_app; by right|done].
Qed.

Lemma unique_deleteOne c q : preserves names_unique (db_deleteOne c q).
Proof.
  apply preserves_write_deleteOne. intros d l [Hc Hs] Hdel.
  pose proof (delete_first_sublist (index_key "name") _ _ _ Hdel) as Hsub.
  destruct c; cbn in *; split; cbn; intros Hflag;
    eauto using sublist_NoDup.
Qed.

Lemma unique_deleteMany c q : preserves names_unique (db_deleteMany c q).
Proof.
  apply preserves_write_deleteMany. intros d [Hc Hs].
  pose proof (delete_many_sublist (index_key "name") q (docs c d)) as Hsub.
  destruct c; cbn in *; split; cbn; intros Hflag;
    eauto using sublist_NoDup.
Qed.

Lemma unique_updateOne c q u : preserves names_unique (db_updateOne c q u).
Proof.
  apply preserves_write_updateOne. intros d l [Hc Hs] Hupd.
  destruct c; cbn in *; split; cbn; intros Hflag; eauto;
    rewrite Hflag in Hupd;
    eapply update_keeps_unique; eauto; apply list_elem_of_here.
Qed.

Lemma unique_insertOne c d0 : preserves names_unique (db_insertOne c d0).
Proof.
  apply preserves_write_insertOne. intros d d' l [Hc Hs] _ Hins.
  destruct c; cbn in *; split; cbn; intros Hflag; eauto;
    rewrite Hflag in Hins;
    eapply insert_keeps_unique; eauto; apply list_elem_of_here.
Qed.

(** [connectDB] turns an index on only where the names are distinct. *)
Lemma connectDB_names_unique d :
  names_unique d -> names_unique (VariantB.connectDB d).
Proof.
  assert (forall c d, names_unique d ->
            names_unique (default d (VariantB.createIndex_name c d))) as Hstep.
  { intros c d0 [Hc Hs]. unfold VariantB.createIndex_name.
    case_bool_decide; [by split|].
    case_bool_decide; [|by split].
    destruct c; cbn in *; split; cbn; eauto. }
  intros Hd. unfold VariantB.connectDB. by apply Hstep, Hstep.
Qed.

End UniqueNames.

Ltac unique_write :=
  first [ apply unique_insertOne
        | apply unique_deleteOne
        | apply unique_deleteMany
        | apply unique_updateOne ].

Section UniqueInvariant.
Context `{jwt : Jwt.Lib} `{bson : Bson}.
Variable env : process_env.

Lemma unique_authenticateToken next req :
  (forall req', preserves names_unique (next req')) ->
  preserves names_unique (VariantB.authenticateToken env next req).
Proof.
  intros Hnext w Hw. rewrite authenticateToken_B.
  destruct (VariantB.bearer (authorization req)) as [tok|]; [|done].
  destruct (bool_decide (tok = "")); [done|].
  destruct (Jwt.verify tok (JWT_SECRET env) (clock w (ticks w))); [|done].
  by apply Hnext.
Qed.

(** X16. Variant B keeps the names distinct wherever the index exists:
    if, for each collection that carries the unique index on [name], the
    stored names are pairwise distinct, the same holds after any request
    on any route, whatever it answers. *)
Lemma variantB_keeps_names_unique (r : route) (req : request) :
  preserves names_unique (VariantB.app env r req).
Proof.
  destruct r; cbn [VariantB.app];
    try (apply unique_authenticateToken; intros req');
    unfold VariantB.get_categories, VariantB.get_categories_id,
      VariantB.post_categories, VariantB.put_categories_id,
      VariantB.delete_categories_id, VariantB.get_subcategories,
      VariantB.get_subcategories_id, VariantB.post_subcategories,
      VariantB.put_subcategories_id, VariantB.delete_subcategories_id,
      VariantB.put_subcategories_write, VariantB.new_ObjectId;
    preserve unique_write.
Qed.

Lemma variantB_startup_names_unique d d' :
  names_unique d -> VariantB.startup env (Some d) = Listening d' ->
  names_unique d'.
Proof.
  intros Hd. unfold VariantB.startup.
  destruct (negb (truthy (str_value (JWT_SECRET env)))); [done|].
  intros [= <-]. by apply connectDB_names_unique.
Qed.

End UniqueInvariant.

(* ===================================================================== *)
(** ** Variant B and identifiers that ObjectId rejects *)
(* ===================================================================== *)

Section MalformedIdentifiers.
Context `{bson : Bson}.

(** X19. In variant B every lookup by identifier goes through [ObjectId]
    inside the handler's [try] block, so an identifier that [ObjectId]
    rejects is answered 500 by the handler's [catch], before the driver
    is called. Here for the parent reference: a subcategory create that
    has passed the required-field checks answers 500 with the world
    untouched, and a subcategory update that supplies the reference
    answers 500 with only the clock read. *)
Lemma variantB_malformed_parent_is_500 (req : request) (w : world VariantB.database) :
  let cid := prop "categoryId" (body req) in
  ObjectId cid = None ->
  (truthy (prop "name" (body req)) = true -> truthy cid = true ->
     VariantB.post_subcategories req w
       = (inr (Response 500 (JError "Failed to create subcategory")), w)) /\
  (cid <> VUndefined ->
     VariantB.put_subcategories_id req w
       = (inr (Response 500 (JError "Failed to update subcategory")), tick w)).
Proof.
  intros cid Hbad. split.
  - intros Hname Hcid. unfold VariantB.post_subcategories, VariantB.new_ObjectId.
    fold cid. rewrite Hname, Hcid. run. cbn [negb]. cbv beta iota.
    rewrite Hbad. reflexivity.
  - intros Hcid. unfold VariantB.put_subcategories_id, VariantB.new_ObjectId.
    fold cid. run. rewrite decide_False by exact Hcid.
    rewrite Hbad. reflexivity.
Qed.

(** X18. A path identifier that [ObjectId] rejects: the two reads by
    identifier, the category update and the two deletes of variant B
    answer 500 from the handler's [catch], with no driver call and the
    database as it was; the update has read the clock once. *)
Lemma variantB_malformed_id_is_500 (req : request) (w : world VariantB.database) :
  ObjectId (VStr (param_id req)) = None ->
  VariantB.get_categories_id req w
    = (inr (Response 500 (JError "Failed to fetch category")), w) /\
  VariantB.put_categories_id req w
    = (inr (Response 500 (JError "Failed to update category")), tick w) /\
  VariantB.delete_categories_id req w
    = (inr (Response 500 (JError "Failed to delete category")), w) /\
  VariantB.get_subcategories_id req w
    = (inr (Response 500 (JError "Failed to fetch subcategory")), w) /\
  VariantB.delete_subcategories_id req w
    = (inr (Response 500 (JError "Failed to delete subcategory")), w).
Proof.
  intros Hbad.
  unfold VariantB.get_categories_id, VariantB.put_categories_id,
    VariantB.delete_categories_id, VariantB.get_subcategories_id,
    VariantB.delete_subcategories_id, VariantB.new_ObjectId.
  run. rewrite Hbad. repeat split; reflexivity.
Qed.

End MalformedIdentifiers.

(* ===================================================================== *)
(** ** Creating, once more: every outcome *)
(* ===================================================================== *)

Section CreateOutcomes.
Import Mongo.

Lemma insert_Some uniq d c l : insert uniq d c = Some l -> l = c ++ [d].
Proof. unfold insert. destruct (existsb _ c); [done|]. by intros [= <-]. Qed.

(** [POST /categories] past the name check: the answer follows the
    insert. *)
Lemma post_categories_A_runs req (w : world VariantA.database) :
  let cat := new_category_A (body req) (clock w (ticks w))
               (clock w (S (ticks w))) (clock w (S (S (ticks w)))) in
  let after d :=
    World d (trace w ++ [OpInsertOne Categories cat]) (clock w)
          (S (S (S (ticks w)))) (oids w) (issued w) in
  truthy (prop "name" (body req)) = true ->
  VariantA.post_categories req w =
    match insert [] (serialize cat) (VariantA.categories (db w)) with
    | Some l =>
        (inr (Response 201 (JDoc cat)),
         after (VariantA.Database l (VariantA.subcategories (db w))))
    | None =>
        (inr (Response 500 (JError "Failed to create category")), after (db w))
    end.
Proof.
  intros cat after Hname.
  unfold VariantA.post_categories. rewrite Hname. run.
  cbn [negb]. cbv beta iota.
  change (object _) with cat.
  assert (cat !! "_id" = Some (VStr (toString (clock w (ticks w))))) as Hid
    by (unfold cat, new_category_A; lookup_literal; reflexivity).
  rewrite Hid.
  cbn [docs with_docs unique_fields VariantA.database_store db trace clock
       ticks oids issued VariantA.categories VariantA.subcategories].
  destruct (insert [] (serialize cat) (VariantA.categories (db w))) as [l|];
    [|reflexivity].
  by rewrite (prop_lookup _ _ _ Hid), truthy_generated_id.
Qed.

(** [POST /subcategories] past the required-field checks and the parent
    lookup. *)
Lemma post_subcategories_A_runs req (w : world VariantA.database) c :
  let cid := prop "categoryId" (body req) in
  let sub := new_subcategory_A (body req) (clock w (ticks w))
               (clock w (S (ticks w))) (clock w (S (S (ticks w)))) in
  let after d :=
    World d (trace w ++ [OpFindOne Categories [("_id", cid)];
                         OpInsertOne Subcategories sub]) (clock w)
          (S (S (S (ticks w)))) (oids w) (issued w) in
  truthy (prop "name" (body req)) = true -> truthy cid = true ->
  findOne [("_id", cid)] (VariantA.categories (db w)) = Some c ->
  VariantA.post_subcategories req w =
    match insert [] (serialize sub) (VariantA.subcategories (db w)) with
    | Some l =>
        (inr (Response 201 (JDoc sub)),
         after (VariantA.Database (VariantA.categories (db w)) l))
    | None =>
        (inr (Response 500 (JError "Failed to create subcategory")), after (db w))
    end.
Proof.
  intros cid sub after Hname Hcid Hfind. subst cid.
  unfold VariantA.post_subcategories. rewrite Hname, Hcid. run.
  cbn [negb]. cbv beta iota. rewrite Hfind. cbv beta iota.
  change (object _) with sub.
  assert (sub !! "_id" = Some (VStr (toString (clock w (ticks w))))) as Hid
    by (unfold sub, new_subcategory_A; lookup_literal; reflexivity).
  rewrite Hid.
  cbn [docs with_docs unique_fields VariantA.database_store db trace clock
       ticks oids issued VariantA.categories VariantA.subcategories].
  destruct (insert [] (serialize sub) (VariantA.subcategories (db w))) as [l|];
    unfold after; rewrite <- app_assoc; [|reflexivity].
  by rewrite (prop_lookup _ _ _ Hid), truthy_generated_id.
Qed.

End CreateOutcomes.

Section CreateRoundTrip.
Import Mongo.

Lemma lookup_serialize_defined d f v :
  d !! f = Some v -> v <> VUndefined -> serialize d !! f = Some v.
Proof. intros Hd Hv. by rewrite lookup_serialize, Hd; simpl; rewrite bson_defined. Qed.

Lemma taken_refuses_insert uniq v d c x :
  d !! "_id" = Some v -> v <> VUndefined -> x ∈ c -> x !! "_id" = Some v ->
  insert uniq (serialize d) c = None.
Proof.
  intros Hd Hv Hin Hx.
  apply (insert_taken uniq v _ _ x); [by apply lookup_serialize_defined|done..].
Qed.

(** X1. A category created under a fresh identifier can be read back: the
    stored document has every defined field of the returned one, it is
    what [GET /categories/:id] answers for the new identifier, and it is
    the last document that [GET /categories] lists. The fields are those
    the handler sets: the identifier is the decimal form of the clock,
    [isActive] is true unless the body defines it, and the two
    timestamps are the next two clock readings. *)
Theorem created_category_is_read_back (req : request) (w : world VariantA.database) :
  let t := clock w (ticks w) in
  let cats := VariantA.categories (db w) in
  truthy (prop "name" (body req)) = true ->
  no_document (VStr (toString t)) cats ->
  exists cat stored w',
    VariantA.post_categories req w = (inr (Response 201 (JDoc cat)), w')
    /\ VariantA.categories (db w') = cats ++ [stored]
    /\ VariantA.subcategories (db w') = VariantA.subcategories (db w)
    /\ (forall f v, cat !! f = Some v -> v <> VUndefined -> stored !! f = Some v)
    /\ cat !! "_id" = Some (VStr (toString t))
    /\ cat !! "name" = Some (prop "name" (body req))
    /\ cat !! "isActive"
         = Some (match prop "isActive" (body req) with
                 | VUndefined => VBool true
                 | v => v
                 end)
    /\ cat !! "createdAt" = Some (VDate (clock w (S (ticks w))))
    /\ cat !! "updatedAt" = Some (VDate (clock w (S (S (ticks w)))))
    /\ (forall req', param_id req' = toString t ->
          exists w'', VariantA.get_categories_id req' w'
                        = (inr (Response 200 (JDoc stored)), w''))
    /\ (forall req',
          exists w'', VariantA.get_categories req' w'
                        = (inr (Response 200 (JDocs (cats ++ [stored]))), w'')).
Proof.
  intros t cats Hname Hfresh.
  pose proof (post_categories_A_runs req w Hname) as Hrun. cbv zeta in Hrun.
  set (cat := new_category_A (body req) (clock w (ticks w))
                (clock w (S (ticks w))) (clock w (S (S (ticks w))))) in *.
  assert (cat !! "_id" = Some (VStr (toString t))) as Hid
    by (unfold cat, new_category_A; lookup_literal; reflexivity).
  rewrite (insert_fresh (VStr (toString t)) (serialize cat)) in Hrun;
    [|by apply lookup_serialize_defined|done|exact Hfresh].
  eexists cat, (serialize cat), _. split; [exact Hrun|].
  cbn [db VariantA.categories VariantA.subcategories].
  split; [reflexivity|]. split; [reflexivity|].
  split; [intros f v; apply lookup_serialize_defined|].
  split; [exact Hid|].
  split; [unfold cat, new_category_A; lookup_literal; reflexivity|].
  split; [unfold cat, new_category_A; lookup_literal; reflexivity|].
  split; [unfold cat, new_category_A; lookup_literal; reflexivity|].
  split; [unfold cat, new_category_A; lookup_literal; reflexivity|].
  split.
  - intros req' Hreq'. unfold VariantA.get_categories_id. run. rewrite Hreq'.
    rewrite (first_match_findOne _ _ (VariantA.categories (db w)) (serialize cat) []).
    + eexists. reflexivity.
    + apply first_document_match; [done..|].
      split; [reflexivity|]. split; [exact Hfresh|].
      by apply lookup_serialize_defined.
  - intros req'. unfold VariantA.get_categories. run.
    rewrite find_all. eexists. reflexivity.
Qed.

(** X2. The identifier of a create is the clock reading in milliseconds:
    when a stored document already has it, the insert is refused, the
    answer is 500 and the database is as it was. This is what a second
    create within the same millisecond gets. *)
Theorem create_with_taken_identifier_is_500 (req : request)
    (w : world VariantA.database) (x : doc) :
  let t := clock w (ticks w) in
  let cid := prop "categoryId" (body req) in
  truthy (prop "name" (body req)) = true ->
  x !! "_id" = Some (VStr (toString t)) ->
  (x ∈ VariantA.categories (db w) ->
     exists w',
       VariantA.post_categories req w
         = (inr (Response 500 (JError "Failed to create category")), w')
       /\ db w' = db w) /\
  (x ∈ VariantA.subcategories (db w) ->
   truthy cid = true ->
   is_Some (findOne [("_id", cid)] (VariantA.categories (db w))) ->
     exists w',
       VariantA.post_subcategories req w
         = (inr (Response 500 (JError "Failed to create subcategory")), w')
       /\ db w' = db w).
Proof.
  intros t cid Hname Hx. split.
  - intros Hin.
    pose proof (post_categories_A_runs req w Hname) as Hrun. cbv zeta in Hrun.
    rewrite (taken_refuses_insert [] (VStr (toString t)) _ _ x) in Hrun;
      [| unfold new_category_A; lookup_literal; reflexivity |done..].
    eexists. split; [exact Hrun|reflexivity].
  - intros Hin Hcid [c Hc].
    pose proof (post_subcategories_A_runs req w c Hname Hcid Hc) as Hrun.
    cbv zeta in Hrun.
    rewrite (taken_refuses_insert [] (VStr (toString t)) _ _ x) in Hrun;
      [| unfold new_subcategory_A; lookup_literal; reflexivity |done..].
    eexists. split; [exact Hrun|reflexivity].
Qed.

End CreateRoundTrip.

(** A category created in an empty database at clock 1700000000000, and
    read back. *)
Lemma created_category_is_read_back_witness :
  let w := World (VariantA.Database [] []) [] (fun _ => 1700000000000) 0 (fun _ => "") 0 in
  let req := Request None "" ∅ (object [("name", VStr "Hoodies")]) None in
  exists cat stored w' w'',
    VariantA.post_categories req w = (inr (Response 201 (JDoc cat)), w')
    /\ cat !! "isActive" = Some (VBool true)
    /\ VariantA.get_categories_id (Request None "1700000000000" ∅ ∅ None) w'
         = (inr (Response 200 (JDoc stored)), w'')
    /\ stored !! "name" = Some (VStr "Hoodies").
Proof.
  intros w req.
  destruct (created_category_is_read_back req w eq_refl)
    as (cat & stored & w' & Hrun & _ & _ & Hsame & _ & Hname & Hact & _ & _ & Hget & _).
  { constructor. }
  destruct (Hget (Request None "1700000000000" ∅ ∅ None) eq_refl) as [w'' Hw''].
  exists cat, stored, w', w''. split; [exact Hrun|]. split; [exact Hact|].
  split; [exact Hw''|]. apply Hsame; [exact Hname|discriminate].
Defined.

(** Two creates that read the same millisecond: the first is stored, the
    second is refused. *)
Lemma create_with_taken_identifier_is_500_witness :
  let first := object [("_id", VStr "1700000000000"); ("name", VStr "Hoodies")] in
  let w := World (VariantA.Database [first] []) [] (fun _ => 1700000000000) 0
                 (fun _ => "") 0 in
  let req := Request None "" ∅ (object [("name", VStr "Polo")]) None in
  exists w',
    VariantA.post_categories req w
      = (inr (Response 500 (JError "Failed to create category")), w')
    /\ db w' = db w.
Proof.
  intros first w req.
  apply (proj1 (create_with_taken_identifier_is_500 req w first eq_refl eq_refl)).
  apply list_elem_of_here.
Defined.

(* ===================================================================== *)
(** ** Reading and deleting by identifier *)
(* ===================================================================== *)

Section ReadsAndDeletes.
Import Mongo.

(** X3. The read routes of variant A. Each makes one driver call and leaves
    the database as it was. The two lists answer 200 (the category list
    with the whole collection in natural order); a read by identifier
    answers 404 when no document has the identifier and otherwise 200
    with the first document that has it. *)
Theorem read_routes_answer (req : request) (w : world VariantA.database) :
  let id := VStr (param_id req) in
  let cats := VariantA.categories (db w) in
  let subs := VariantA.subcategories (db w) in
  VariantA.get_categories req w
    = (inr (Response 200 (JDocs cats)), log (OpFind Categories []) w) /\
  (exists found q,
     VariantA.get_subcategories req w
       = (inr (Response 200 (JDocs found)), log (OpFind Subcategories q) w)
     /\ forall s, s ∈ found -> s ∈ subs) /\
  (no_document id cats ->
     VariantA.get_categories_id req w
       = (inr (Response 404 (JError "Category not found")),
          log (OpFindOne Categories [("_id", id)]) w)) /\
  (forall l1 c l2, first_document id cats l1 c l2 ->
     VariantA.get_categories_id req w
       = (inr (Response 200 (JDoc c)), log (OpFindOne Categories [("_id", id)]) w)) /\
  (no_document id subs ->
     VariantA.get_subcategories_id req w
       = (inr (Response 404 (JError "Subcategory not found")),
          log (OpFindOne Subcategories [("_id", id)]) w)) /\
  (forall l1 s l2, first_document id subs l1 s l2 ->
     VariantA.get_subcategories_id req w
       = (inr (Response 200 (JDoc s)), log (OpFindOne Subcategories [("_id", id)]) w)).
Proof.
  intros id cats subs. subst id cats subs. repeat split.
  - unfold VariantA.get_categories. run. by rewrite find_all.
  - eexists _, _. split.
    + unfold VariantA.get_subcategories. run. reflexivity.
    + intros s Hs. unfold find in Hs.
      apply list_elem_of_In, filter_In in Hs as [Hs _]. by apply list_elem_of_In.
  - intros Hno. unfold VariantA.get_categories_id. run.
    by rewrite (no_document_findOne (VStr (param_id req)) _ ltac:(done) ltac:(done) Hno).
  - intros l1 c l2 Hfirst. apply first_document_match in Hfirst; [|done..].
    unfold VariantA.get_categories_id. run.
    by rewrite (first_match_findOne _ _ _ _ _ Hfirst).
  - intros Hno. unfold VariantA.get_subcategories_id. run.
    by rewrite (no_document_findOne (VStr (param_id req)) _ ltac:(done) ltac:(done) Hno).
  - intros l1 s l2 Hfirst. apply first_document_match in Hfirst; [|done..].
    unfold VariantA.get_subcategories_id. run.
    by rewrite (first_match_findOne _ _ _ _ _ Hfirst).
Qed.

Lemma delete_subcategories_id_A_unmatched req (w : world VariantA.database) :
  findOne [("_id", VStr (param_id req))] (VariantA.subcategories (db w)) = None ->
  VariantA.delete_subcategories_id req w
    = (inr (Response 404 (JError "Subcategory not found")),
       log (OpDeleteOne Subcategories [("_id", VStr (param_id req))]) w).
Proof.
  intros Hnone. unfold VariantA.delete_subcategories_id. run.
  rewrite (delete_first_None _ _ Hnone). reflexivity.
Qed.

Lemma delete_subcategories_id_A_matched req (w : world VariantA.database) l1 s l2 :
  first_match [("_id", VStr (param_id req))] (VariantA.subcategories (db w)) l1 s l2 ->
  VariantA.delete_subcategories_id req w
    = (inr (Response 200 (JMessage "Subcategory deleted successfully")),
       World (VariantA.Database (VariantA.categories (db w)) (l1 ++ l2))
             (trace w ++ [OpDeleteOne Subcategories [("_id", VStr (param_id req))]])
             (clock w) (ticks w) (oids w) (issued w)).
Proof.
  intros Hm. unfold VariantA.delete_subcategories_id. run.
  rewrite (first_match_delete _ _ _ _ _ Hm). reflexivity.
Qed.

(** In a keyed collection the document with an identifier is the only
    one: with it removed, no document has the identifier. *)
Lemma keyed_remove_first v c l1 d l2 :
  keyed c -> first_document v c l1 d l2 -> no_document v (l1 ++ l2).
Proof.
  intros [_ Hnd] (-> & Hl1 & Hd).
  apply Forall_app. split; [exact Hl1|].
  rewrite fmap_app, fmap_cons in Hnd.
  apply NoDup_app in Hnd as (_ & _ & Hnd). apply NoDup_cons in Hnd as [Hnew _].
  apply Forall_forall. intros x Hx Hid. apply Hnew.
  apply list_elem_of_fmap. exists x. split; [congruence|exact Hx].
Qed.

(** X4. [DELETE /subcategories/:id]: 404 with the database as it was when
    no subcategory has the identifier; otherwise 200, the first
    subcategory with the identifier is removed by one [deleteOne], and
    the other subcategories and all categories stay. In a keyed
    collection the identifier is then gone: repeating the delete, or
    reading the identifier, answers 404. *)
Theorem delete_subcategory_removes_one (req : request) (w : world VariantA.database) :
  let id := VStr (param_id req) in
  let subs := VariantA.subcategories (db w) in
  (no_document id subs ->
     exists w',
       VariantA.delete_subcategories_id req w
         = (inr (Response 404 (JError "Subcategory not found")), w')
       /\ db w' = db w) /\
  (forall l1 s l2, first_document id subs l1 s l2 ->
     exists w',
       VariantA.delete_subcategories_id req w
         = (inr (Response 200 (JMessage "Subcategory deleted successfully")), w')
       /\ VariantA.subcategories (db w') = l1 ++ l2
       /\ VariantA.categories (db w') = VariantA.categories (db w)
       /\ trace w' = trace w ++ [OpDeleteOne Subcategories [("_id", id)]]
       /\ (keyed subs ->
           exists w2 w3,
             VariantA.delete_subcategories_id req w'
               = (inr (Response 404 (JError "Subcategory not found")), w2)
             /\ VariantA.get_subcategories_id req w'
                  = (inr (Response 404 (JError "Subcategory not found")), w3))).
Proof.
  intros id subs. subst id subs. split.
  - intros Hno. eexists. split.
    + apply delete_subcategories_id_A_unmatched. by apply no_document_findOne.
    + reflexivity.
  - intros l1 s l2 Hfirst.
    pose proof (first_document_match (VStr (param_id req)) _ _ _ _
                  ltac:(done) ltac:(done) Hfirst) as Hm.
    eexists. split; [exact (delete_subcategories_id_A_matched _ _ _ _ _ Hm)|].
    cbn [db trace VariantA.subcategories VariantA.categories].
    repeat split.
    intros Hkeyed.
    pose proof (keyed_remove_first _ _ _ _ _ Hkeyed Hfirst) as Hgone.
    eexists _, _. split.
    + apply delete_subcategories_id_A_unmatched. by apply no_document_findOne.
    + unfold VariantA.get_subcategories_id. run.
      by rewrite (no_document_findOne (VStr (param_id req)) _ ltac:(done) ltac:(done) Hgone).
Qed.

(** X5. [DELETE /categories/:id] on a keyed collection: once it has
    answered 200, repeating it, or reading the identifier, answers
    404. *)
Theorem deleted_category_is_gone (req : request) (w : world VariantA.database)
    (resp : response) (w' : world VariantA.database) :
  keyed (VariantA.categories (db w)) ->
  VariantA.delete_categories_id req w = (inr resp, w') ->
  status resp = 200 ->
  exists w2 w3,
    VariantA.delete_categories_id req w'
      = (inr (Response 404 (JError "Category not found")), w2)
    /\ VariantA.get_categories_id req w'
         = (inr (Response 404 (JError "Category not found")), w3).
Proof.
  intros Hkeyed Hrun H200.
  destruct (findOne [("_id", VStr (param_id req))] (VariantA.categories (db w)))
    as [c|] eqn:Hfind.
  - destruct (findOne_Some _ _ _ Hfind) as (l1 & l2 & Hm).
    rewrite (delete_categories_id_A_matched _ _ _ _ _ Hm) in Hrun.
    injection Hrun as <- <-.
    pose proof (keyed_remove_first _ _ _ _ _ Hkeyed
                  (first_match_document (VStr (param_id req)) _ _ _ _
                     ltac:(done) ltac:(done) Hm)) as Hgone.
    eexists _, _. split.
    + apply delete_categories_id_A_unmatched. by apply no_document_findOne.
    + unfold VariantA.get_categories_id. run.
      by rewrite (no_document_findOne (VStr (param_id req)) _ ltac:(done) ltac:(done) Hgone).
  - rewrite (delete_categories_id_A_unmatched _ _ Hfind) in Hrun.
    injection Hrun as <- <-. discriminate H200.
Qed.

End ReadsAndDeletes.

(* ===================================================================== *)
(** ** What a request does to the database, and referential integrity *)
(* ===================================================================== *)

Section Effects.
Import Mongo.

Lemma first_match_elem q c l1 d l2 : first_match q c l1 d l2 -> d ∈ c.
Proof. intros (-> & _ & _). apply elem_of_app. right. by left. Qed.

(** A category found for a reference is one that the reference resolves
    to, in a collection of identified documents. *)
Lemma found_resolves cid cats c s :
  cid <> VUndefined ->
  findOne [("_id", cid)] cats = Some c ->
  s !! "categoryId" = Some cid ->
  identified cats -> resolves cats s.
Proof.
  intros Hcid Hfind Hs Hids.
  destruct (findOne_Some _ _ _ Hfind) as (l1 & l2 & Hm).
  pose proof (first_match_elem _ _ _ _ _ Hm) as Hin.
  destruct Hm as (_ & _ & Hmatch).
  unfold identified in Hids. rewrite Forall_forall in Hids.
  destruct (Hids c Hin) as [x Hx].
  rewrite matches_one in Hmatch. unfold field_eq in Hmatch.
  rewrite Hx, (bson_defined _ Hcid) in Hmatch.
  apply bool_decide_eq_true in Hmatch as ->.
  by exists c, cid.
Qed.

Lemma post_categories_effect req (w : world VariantA.database) :
  effect (db w) (db (VariantA.post_categories req w).2).
Proof.
  destruct (truthy (prop "name" (body req))) eqn:Hname.
  - rewrite (post_categories_A_runs req w Hname). cbv zeta.
    destruct (insert [] _ (VariantA.categories (db w))) as [l|] eqn:Hins.
    + apply insert_Some in Hins as ->. by eapply CategoryAdded.
    + by apply Untouched.
  - unfold VariantA.post_categories, try_catch. rewrite Hname. by apply Untouched.
Qed.

Lemma put_categories_effect req (w : world VariantA.database) :
  effect (db w) (db (VariantA.put_categories_id req w).2).
Proof.
  destruct (findOne [("_id", VStr (param_id req))] (VariantA.categories (db w)))
    as [c|] eqn:Hfind.
  - destruct (findOne_Some _ _ _ Hfind) as (l1 & l2 & Hm).
    rewrite (put_categories_id_A_matched _ _ _ _ _ Hm).
    eapply CategoryUpdated; [apply Hm|reflexivity|reflexivity|].
    rewrite lookup_set_fields, updateData_no_id; [done|apply category_fields_fresh..].
  - rewrite (put_categories_id_A_unmatched _ _ Hfind). by apply Untouched.
Qed.

Lemma delete_categories_effect req (w : world VariantA.database) :
  effect (db w) (db (VariantA.delete_categories_id req w).2).
Proof.
  destruct (findOne [("_id", VStr (param_id req))] (VariantA.categories (db w)))
    as [c|] eqn:Hfind.
  - destruct (findOne_Some _ _ _ Hfind) as (l1 & l2 & Hm).
    rewrite (delete_categories_id_A_matched _ _ _ _ _ Hm).
    eapply (CategoryDeleted _ _ (param_id req)).
    + apply (first_match_document (VStr (param_id req))); [done..|exact Hm].
    + reflexivity.
    + apply delete_many_not_referring.
  - rewrite (delete_categories_id_A_unmatched _ _ Hfind). by apply Untouched.
Qed.

Lemma post_subcategories_effect req (w : world VariantA.database) :
  effect (db w) (db (VariantA.post_subcategories req w).2).
Proof.
  destruct (truthy (prop "name" (body req))) eqn:Hname;
    [|unfold VariantA.post_subcategories, try_catch; rewrite Hname;
      by apply Untouched].
  destruct (truthy (prop "categoryId" (body req))) eqn:Hcid;
    [|unfold VariantA.post_subcategories, try_catch; rewrite Hname, Hcid;
      by apply Untouched].
  destruct (findOne [("_id", prop "categoryId" (body req))]
              (VariantA.categories (db w))) as [c|] eqn:Hfind.
  - rewrite (post_subcategories_A_runs req w c Hname Hcid Hfind). cbv zeta.
    destruct (insert [] _ (VariantA.subcategories (db w))) as [l|] eqn:Hins;
      [|by apply Untouched].
    apply insert_Some in Hins as ->.
    eapply SubcategoryAdded; [reflexivity|reflexivity|].
    destruct (truthy_defined _ Hcid) as [Hu _].
    intros Hids.
    apply (found_resolves (prop "categoryId" (body req)) _ c);
      [exact Hu|exact Hfind| |exact Hids].
    apply lookup_serialize_defined; [|exact Hu].
    unfold new_subcategory_A. lookup_literal. reflexivity.
  - rewrite (post_subcategories_A_missing_parent req w Hname Hcid Hfind).
    by apply Untouched.
Qed.

Lemma put_subcategories_write_effect req (w w1 : world VariantA.database) :
  db w1 = db w ->
  let cid := prop "categoryId" (body req) in
  let u := updateData_of subcategory_fields (clock w (ticks w)) (body req) in
  let h := fun _ : exn => ret (Response 500 (JError "Failed to update subcategory")) in
  (cid = VUndefined
   \/ exists c, findOne [("_id", cid)] (VariantA.categories (db w)) = Some c) ->
  effect (db w)
    (db (try_catch (VariantA.put_subcategories_write (param_id req) u) h w1).2).
Proof.
  intros Hdb cid u h Hparent.
  assert (u !! "_id" = None) as Hid
    by (apply updateData_no_id; apply subcategory_fields_fresh).
  destruct (findOne [("_id", VStr (param_id req))] (VariantA.subcategories (db w1)))
    as [s|] eqn:Hfind.
  - destruct (findOne_Some _ _ _ Hfind) as (l1 & l2 & Hm).
    rewrite (try_catch_returns _ _ _ _ _
               (put_subcategories_write_A_matched _ u _ _ _ _ Hid Hm)).
    cbn [snd db]. rewrite Hdb in *.
    eapply SubcategoryUpdated; [reflexivity|apply Hm|reflexivity|].
    unfold u. rewrite lookup_updated by apply subcategory_fields_fresh.
    unfold updated_field. rewrite decide_False by discriminate.
    destruct Hparent as [Hu|[c Hc]].
    + left. rewrite decide_False; [done|]. intros [_ Hdef]. by apply Hdef.
    + destruct (decide (cid = VUndefined)) as [Hu|Hdef].
      * left. rewrite decide_False; [done|]. intros [_ Hdef]. by apply Hdef.
      * right. intros Hids. apply (found_resolves cid _ c); [done..| |done].
        rewrite lookup_updated by apply subcategory_fields_fresh.
        unfold updated_field. rewrite decide_False by discriminate.
        rewrite decide_True; [done|]. split; [|exact Hdef].
        apply (bool_decide_unpack _). vm_compute. exact I.
  - rewrite (try_catch_returns _ _ _ _ _
               (put_subcategories_write_A_unmatched _ u _ Hfind)).
    cbn [snd db log]. rewrite Hdb. by apply Untouched.
Qed.

Lemma put_subcategories_effect req (w : world VariantA.database) :
  effect (db w) (db (VariantA.put_subcategories_id req w).2).
Proof.
  destruct (put_subcategories_id_A_cases req w)
    as [[Hcid Hrun]|[(Hcid & Hfind & Hrun)|(Hcid & Hfind & Hrun)]];
    rewrite Hrun.
  - apply put_subcategories_write_effect; [reflexivity|by left].
  - by apply Untouched.
  - apply put_subcategories_write_effect; [reflexivity|by right].
Qed.

Lemma delete_subcategories_effect req (w : world VariantA.database) :
  effect (db w) (db (VariantA.delete_subcategories_id req w).2).
Proof.
  destruct (findOne [("_id", VStr (param_id req))] (VariantA.subcategories (db w)))
    as [s|] eqn:Hfind.
  - destruct (findOne_Some _ _ _ Hfind) as (l1 & l2 & Hm).
    rewrite (delete_subcategories_id_A_matched _ _ _ _ _ Hm).
    eapply SubcategoryDeleted; [reflexivity|apply Hm|reflexivity].
  - rewrite (delete_subcategories_id_A_unmatched _ _ Hfind). by apply Untouched.
Qed.

Lemma reads_effect req (w : world VariantA.database) :
  effect (db w) (db (VariantA.get_categories req w).2) /\
  effect (db w) (db (VariantA.get_categories_id req w).2) /\
  effect (db w) (db (VariantA.get_subcategories req w).2) /\
  effect (db w) (db (VariantA.get_subcategories_id req w).2).
Proof.
  unfold VariantA.get_categories, VariantA.get_categories_id,
    VariantA.get_subcategories, VariantA.get_subcategories_id.
  run. repeat split; try (by apply Untouched).
  - destruct (findOne _ (VariantA.categories (db w))); by apply Untouched.
  - destruct (findOne _ (VariantA.subcategories (db w))); by apply Untouched.
Qed.

End Effects.

(* ===================================================================== *)
(** ** Referential integrity of variant A *)
(* ===================================================================== *)

Section EffectFacts.
Import Mongo.

Lemma resolves_mono cats cats' s :
  (forall c, c ∈ cats -> exists c', c' ∈ cats' /\ c' !! "_id" = c !! "_id") ->
  resolves cats s -> resolves cats' s.
Proof.
  intros Hsub (c & v & Hc & Hs & Hv).
  destruct (Hsub c Hc) as (c' & Hc' & Hid).
  exists c', v. by rewrite Hid.
Qed.

Lemma resolves_same_reference cats s s' :
  s' !! "categoryId" = s !! "categoryId" -> resolves cats s -> resolves cats s'.
Proof. intros Heq (c & v & Hc & Hs & Hv). exists c, v. by rewrite Heq. Qed.

(** Each effect keeps the references resolved. *)
Lemma effect_keeps_resolved d d' :
  identified (VariantA.categories d) ->
  Forall (resolves (VariantA.categories d)) (VariantA.subcategories d) ->
  effect d d' ->
  Forall (resolves (VariantA.categories d')) (VariantA.subcategories d').
Proof.
  intros Hids Hres Heff.
  destruct Heff as [->|c Hc Hs|l1 c c' l2 Hc Hc' Hs Hid|id l1 c l2 Hfirst Hc' Hs
                   |s Hc Hs Hnew|l1 s s' l2 Hc Hs Hs' Hnew|l1 s l2 Hc Hs Hs'].
  - exact Hres.
  - rewrite Hc, Hs. eapply Forall_impl; [exact Hres|].
    intros s. apply resolves_mono. intros c0 Hc0. exists c0.
    split; [apply elem_of_app; by left|done].
  - rewrite Hc', Hs. eapply Forall_impl; [exact Hres|].
    intros s. apply resolves_mono. intros c0 Hc0. rewrite Hc in Hc0.
    apply elem_of_app in Hc0 as [Hc0|Hc0];
      [exists c0; split; [apply elem_of_app; by left|done]|].
    apply elem_of_cons in Hc0 as [->|Hc0].
    + exists c'. split; [|exact Hid]. apply elem_of_app. right. by left.
    + exists c0. split; [|done]. apply elem_of_app. right. by right.
  - rewrite Hc', Hs. destruct Hfirst as (Hc & _ & Hid).
    apply Forall_forall. intros s Hin.
    unfold not_referring in Hin.
    apply list_elem_of_In, filter_In in Hin as [Hin Hother].
    apply list_elem_of_In in Hin.
    apply negb_true_iff, bool_decide_eq_false in Hother.
    rewrite Forall_forall in Hres.
    destruct (Hres s Hin) as (c0 & v & Hc0 & Hsv & Hv).
    rewrite Hc in Hc0.
    apply elem_of_app in Hc0 as [Hc0|Hc0];
      [exists c0, v; split; [apply elem_of_app; by left|done]|].
    apply elem_of_cons in Hc0 as [->|Hc0].
    + exfalso. apply Hother. congruence.
    + exists c0, v. split; [apply elem_of_app; by right|done].
  - rewrite Hc, Hs. apply Forall_app. split; [exact Hres|].
    apply Forall_singleton. by apply Hnew.
  - rewrite Hc, Hs'. rewrite Hs in Hres.
    apply Forall_app in Hres as [Hl1 Hl2].
    apply Forall_cons in Hl2 as [Hold Hl2].
    apply Forall_app. split; [exact Hl1|]. apply Forall_cons. split; [|exact Hl2].
    destruct Hnew as [Hsame|Hnew];
      [by apply (resolves_same_reference _ s)|by apply Hnew].
  - rewrite Hc, Hs'. rewrite Hs in Hres.
    apply Forall_app in Hres as [Hl1 Hl2].
    apply Forall_cons in Hl2 as [_ Hl2].
    apply Forall_app. by split.
Qed.

End EffectFacts.

Section Integrity.
Context `{jwt : Jwt.Lib}.
Variable env : process_env.

Lemma authenticateToken_effect next req (w : world VariantA.database) :
  (forall req' w', effect (db w') (db (next req' w').2)) ->
  effect (db w) (db (VariantA.authenticateToken env next req w).2).
Proof.
  intros Hnext. rewrite authenticateToken_A.
  destruct (VariantA.bearer (authorization req)) as [tok|]; [|by apply Untouched].
  destruct (bool_decide (tok = "")); [by apply Untouched|].
  destruct (Jwt.verify tok (JWT_SECRET env) (clock w (ticks w)));
    [|by apply Untouched].
  apply (Hnext _ (tick w)).
Qed.

(** One case per route: the gate, then the handler's effect. *)
Ltac route_effect :=
  first [ apply authenticateToken_effect; intros;
          first [ apply post_categories_effect | apply put_categories_effect
                | apply delete_categories_effect | apply post_subcategories_effect
                | apply put_subcategories_effect | apply delete_subcategories_effect ]
        | apply reads_effect ].

(** X6. Whatever the route and the request, variant A touches at most one
    document of one collection, except that deleting a category also
    removes the subcategories referring to its identifier: the database
    is as it was, or one category was appended, or one category was
    rewritten in place under the same [_id], or the first category with
    the path identifier was removed together with exactly the
    subcategories whose [categoryId] is that identifier, or one
    subcategory was appended, rewritten in place or removed with the
    categories as they were. A subcategory that is appended, or whose
    reference is changed, refers to a stored category whenever the
    stored categories carry identifiers. Request bodies are maps of
    scalar values, as [value] has them. *)
Theorem request_has_one_effect (r : route) (req : request)
    (w : world VariantA.database) :
  effect (db w) (db (VariantA.app env r req w).2).
Proof. destruct r; cbn [VariantA.app]; route_effect. Qed.

Lemma request_keeps_references_resolved (r : route) (req : request) :
  preserves consistent (VariantA.app env r req).
Proof.
  intros w [Hkeyed Hres]. split.
  - by apply variantA_keeps_collections_keyed.
  - apply (effect_keeps_resolved (db w)); [apply Hkeyed|exact Hres|].
    destruct r; cbn [VariantA.app]; route_effect.
Qed.

(** X7. Referential integrity is an invariant of variant A under serial
    service. When both collections are keyed by [_id] and every
    subcategory's [categoryId] is the [_id] of a stored category, the
    same holds after any sequence of requests, on any routes and
    whatever they answer, that are served one at a time, each run to
    completion before the next starts. Request bodies are maps of scalar
    values, as [value] has them. Requests that interleave are outside
    the statement: a handler waits for the driver between the parent
    lookup and the write, and a category deleted in between leaves the
    written reference dangling. *)
Theorem variantA_keeps_references_resolved (requests : list (route * request))
    (w : world VariantA.database) :
  consistent (db w) -> consistent (db (serve env requests w)).
Proof.
  revert w. induction requests as [|[r req] rest IH]; intros w Hw; [exact Hw|].
  cbn [serve]. apply IH. by apply request_keeps_references_resolved.
Qed.

End Integrity.

(* ===================================================================== *)
(** ** From an issued token to the handler *)
(* ===================================================================== *)

Section ReferenceExpiry.
Import Reference.

(** The reference token library refuses expired tokens. *)
Lemma toy_jwt_expiry : @JwtExpiry toy_jwt.
Proof.
  split. intros c s e t tok t' Hsign Hnow. simpl in *. unfold toy_sign in Hsign.
  unfold toy_verify. destruct (bool_decide (s = "")) eqn:Hs; [done|].
  injection Hsign as <-.
  rewrite unframe_frame. cbn [mbind option_bind].
  rewrite unframe_frame. cbn [mbind option_bind].
  rewrite unframe_frame. cbn [mbind option_bind].
  rewrite unframe_frame. cbn [mbind option_bind].
  rewrite unframe_frame_end. cbn [mbind option_bind].
  rewrite !of_number_number.
  apply Z.ltb_ge in Hnow. rewrite Hnow.
  by rewrite andb_false_r.
Qed.

End ReferenceExpiry.

Section HeaderFacts.

Lemma split_scheme scheme tok :
  space_free scheme = true -> space_free tok = true ->
  split " " (scheme +:+ " " +:+ tok) = [scheme; tok].
Proof.
  intros Hs Htok. induction scheme as [|c s IH].
  - change ("" +:+ " " +:+ tok) with (String " " tok).
    rewrite split_cons. cbn [Ascii.eqb Bool.eqb].
    by rewrite (split_space_free _ Htok).
  - simpl in Hs. apply andb_true_iff in Hs as [Hc Hs]. apply negb_true_iff in Hc.
    change (String c s +:+ " " +:+ tok) with (String c (s +:+ " " +:+ tok)).
    rewrite split_cons, Hc, (IH Hs). done.
Qed.

Lemma prefix_app p s : String.prefix p s = true -> exists r, s = p +:+ r.
Proof.
  revert s. induction p as [|a p IH]; intros s Hp; [by exists s|].
  destruct s as [|b s]; [done|]. simpl in Hp.
  destruct (ascii_dec a b) as [->|]; [|done].
  destruct (IH s Hp) as [r ->]. by exists r.
Qed.

(** The word before the first space is determined by the string. *)
Lemma scheme_unique a b x y :
  space_free a = true -> space_free b = true ->
  a +:+ " " +:+ x = b +:+ " " +:+ y -> a = b.
Proof.
  revert b. induction a as [|c a IH]; intros b Ha Hb Heq.
  - destruct b as [|c' b]; [done|]. simpl in Hb, Heq.
    injection Heq as <- _. done.
  - simpl in Ha. apply andb_true_iff in Ha as [Hc Ha].
    destruct b as [|c' b]; simpl in Heq.
    + injection Heq as -> _. done.
    + simpl in Hb. apply andb_true_iff in Hb as [_ Hb].
      injection Heq as -> Heq. f_equal. by apply IH.
Qed.

Lemma no_bearer_prefix scheme tok :
  space_free scheme = true -> scheme <> "Bearer" ->
  startsWith "Bearer " (scheme +:+ " " +:+ tok) = false.
Proof.
  intros Hs Hne. unfold startsWith.
  destruct (String.prefix "Bearer " (scheme +:+ " " +:+ tok)) eqn:Hp; [|done].
  apply prefix_app in Hp as [r Hr]. exfalso. apply Hne.
  apply (scheme_unique scheme "Bearer" tok r); [exact Hs|reflexivity|exact Hr].
Qed.

Lemma no_space_no_prefix h :
  space_free h = true -> startsWith "Bearer " h = false.
Proof.
  intros Hh. unfold startsWith.
  destruct (String.prefix "Bearer " h) eqn:Hp; [|done].
  apply prefix_app in Hp as [r ->].
  change ("Bearer " +:+ r)
    with (String "B" (String "e" (String "a" (String "r" (String "e"
           (String "r" (String " " r))))))) in Hh.
  simpl in Hh. done.
Qed.

Lemma truthy_header h : truthy (str_value (Some h)) = negb (bool_decide (h = "")).
Proof. reflexivity. Qed.

Lemma header_nonempty a b : a +:+ " " +:+ b <> "".
Proof. by destruct a. Qed.

Lemma bearer_A_scheme scheme tok :
  space_free scheme = true -> space_free tok = true ->
  VariantA.bearer (Some (scheme +:+ " " +:+ tok)) = Some tok.
Proof.
  intros Hs Htok. unfold VariantA.bearer.
  rewrite truthy_header, bool_decide_eq_false_2 by apply header_nonempty.
  cbv [negb default id]. by rewrite split_scheme.
Qed.

Lemma bearer_B_scheme scheme tok :
  space_free scheme = true -> scheme <> "Bearer" ->
  VariantB.bearer (Some (scheme +:+ " " +:+ tok)) = None.
Proof.
  intros Hs Hne. unfold VariantB.bearer.
  rewrite truthy_header, bool_decide_eq_false_2 by apply header_nonempty.
  cbv [negb default id]. by rewrite no_bearer_prefix.
Qed.

Lemma bearer_A_no_space h :
  space_free h = true ->
  truthy (str_value (VariantA.bearer (Some h))) = false.
Proof.
  intros Hh. unfold VariantA.bearer. rewrite truthy_header.
  case_bool_decide as He; cbv [negb default id]; [by subst|].
  by rewrite (split_space_free _ Hh).
Qed.

Lemma bearer_B_no_space h :
  space_free h = true -> VariantB.bearer (Some h) = None.
Proof.
  intros Hh. unfold VariantB.bearer. rewrite truthy_header.
  case_bool_decide as He; cbv [negb default id]; [done|].
  by rewrite no_space_no_prefix.
Qed.

End HeaderFacts.

Section GateOutcomes.
Context `{jwt : Jwt.Lib} `{bson : Bson}.
Variable env : process_env.

Lemma app_A_gated r req (w : world VariantA.database) :
  mutating r = true ->
  VariantA.app env r req w
    = VariantA.authenticateToken env (gated_handler_A r) req w.
Proof. by destruct r. Qed.

Lemma app_B_gated r req (w : world VariantB.database) :
  mutating r = true ->
  VariantB.app env r req w
    = VariantB.authenticateToken env (gated_handler_B r) req w.
Proof. by destruct r. Qed.

Lemma authenticateToken_A_falsy next req (w : world VariantA.database) :
  truthy (str_value (VariantA.bearer (authorization req))) = false ->
  VariantA.authenticateToken env next req w
    = (inr (Response 401 (JError "Access token required")), w).
Proof. intros Hf. unfold VariantA.authenticateToken. by rewrite Hf. Qed.

(** X8. The scheme word of the header. Variant A takes whatever follows the
    first space as the token, so a header [<scheme> <token>] with any
    scheme word other than [Bearer] reaches verification and, with a
    token that verifies, the handler; variant B answers such a header
    401 without looking at the token. *)
Theorem variantA_ignores_scheme_word (scheme tok : string) (r : route)
    (req : request) (wa : world VariantA.database) (wb : world VariantB.database) :
  mutating r = true ->
  space_free scheme = true -> scheme <> "Bearer" ->
  space_free tok = true -> tok <> "" ->
  authorization req = Some (scheme +:+ " " +:+ tok) ->
  VariantA.app env r req wa
    = match Jwt.verify tok (JWT_SECRET env) (clock wa (ticks wa)) with
      | Some d => gated_handler_A r (with_user d req) (tick wa)
      | None => (inr (Response 403 (JError "Invalid or expired token")), tick wa)
      end /\
  VariantB.app env r req wb
    = (inr (Response 401 (JError "Access token required")), wb).
Proof.
  intros Hr Hs Hne Htok Hnonempty Hauth. split.
  - rewrite (app_A_gated _ _ _ Hr), authenticateToken_A, Hauth.
    rewrite (bearer_A_scheme _ _ Hs Htok).
    rewrite bool_decide_eq_false_2 by exact Hnonempty.
    by destruct (Jwt.verify tok (JWT_SECRET env) (clock wa (ticks wa))).
  - rewrite (app_B_gated _ _ _ Hr), authenticateToken_B, Hauth.
    by rewrite (bearer_B_scheme _ _ Hs Hne).
Qed.

(** X9. A header without a space carries no token: both variants answer a
    mutating request 401 and leave the world untouched, whatever the
    header says, a valid token with the scheme word forgotten
    included. *)
Theorem header_without_space_is_401 (h : string) (r : route) (req : request)
    (wa : world VariantA.database) (wb : world VariantB.database) :
  mutating r = true ->
  space_free h = true ->
  authorization req = Some h ->
  VariantA.app env r req wa
    = (inr (Response 401 (JError "Access token required")), wa) /\
  VariantB.app env r req wb
    = (inr (Response 401 (JError "Access token required")), wb).
Proof.
  intros Hr Hh Hauth. split.
  - rewrite (app_A_gated _ _ _ Hr). apply authenticateToken_A_falsy.
    rewrite Hauth. by apply bearer_A_no_space.
  - rewrite (app_B_gated _ _ _ Hr), authenticateToken_B, Hauth.
    by rewrite (bearer_B_no_space _ Hh).
Qed.

Context `{laws : !Jwt.Laws} `{expiry : !JwtExpiry}.

Lemma generateToken_signed u tok (w0 w0' : world VariantA.database) :
  VariantA.generateToken env u w0 = (inr tok, w0') ->
  Jwt.sign (Jwt.Claims (_id u) (email u)) (JWT_SECRET env) thirty_days
           (clock w0 (ticks w0)) = Some tok.
Proof.
  unfold VariantA.generateToken.
  destruct (Jwt.sign _ _ _ _) as [t|]; [|done].
  by intros [= -> _].
Qed.

(** X10. The life of a token. A token that [generateToken] issued, sent as
    [Bearer <token>] with a mutating request, opens the gate of both
    variants as long as the clock, in whole seconds, is short of thirty
    days after the issue: the route runs its handler with [req.user] set
    to the decoded claims of the identity the token was issued for. From
    thirty days on the answer is 403 and the handler is not run. *)
Theorem token_opens_gate_for_thirty_days (u : user) (secret tok : string)
    (r : route) (req : request) (w0 w0' wa : world VariantA.database)
    (wb : world VariantB.database) :
  let issue := clock w0 (ticks w0) / 1000 in
  let d := Jwt.Decoded (Jwt.Claims (_id u) (email u)) issue (issue + thirty_days) in
  JWT_SECRET env = Some secret ->
  VariantA.generateToken env u w0 = (inr tok, w0') ->
  tok <> "" -> space_free tok = true ->
  mutating r = true ->
  authorization req = Some ("Bearer " +:+ tok) ->
  (clock wa (ticks wa) / 1000 < issue + thirty_days ->
     VariantA.app env r req wa = gated_handler_A r (with_user d req) (tick wa)) /\
  (issue + thirty_days <= clock wa (ticks wa) / 1000 ->
     VariantA.app env r req wa
       = (inr (Response 403 (JError "Invalid or expired token")), tick wa)) /\
  (clock wb (ticks wb) / 1000 < issue + thirty_days ->
     VariantB.app env r req wb = gated_handler_B r (with_user d req) (tick wb)) /\
  (issue + thirty_days <= clock wb (ticks wb) / 1000 ->
     VariantB.app env r req wb
       = (inr (Response 403 (JError "Invalid or expired token")), tick wb)).
Proof.
  intros issue d Hsecret Hgen Hne Hsf Hr Hauth.
  apply generateToken_signed in Hgen. rewrite Hsecret in Hgen.
  repeat split; intros Hnow.
  - rewrite (app_A_gated _ _ _ Hr), authenticateToken_A, Hauth.
    rewrite (bearer_A_header _ Hne Hsf), bool_decide_eq_false_2 by exact Hne.
    by rewrite Hsecret, (Jwt.verify_signed _ _ _ _ _ _ Hgen Hnow).
  - rewrite (app_A_gated _ _ _ Hr), authenticateToken_A, Hauth.
    rewrite (bearer_A_header _ Hne Hsf), bool_decide_eq_false_2 by exact Hne.
    by rewrite Hsecret, (verify_expired _ _ _ _ _ _ Hgen Hnow).
  - rewrite (app_B_gated _ _ _ Hr), authenticateToken_B, Hauth.
    rewrite (bearer_B_header _ Hne Hsf), bool_decide_eq_false_2 by exact Hne.
    by rewrite Hsecret, (Jwt.verify_signed _ _ _ _ _ _ Hgen Hnow).
  - rewrite (app_B_gated _ _ _ Hr), authenticateToken_B, Hauth.
    rewrite (bearer_B_header _ Hne Hsf), bool_decide_eq_false_2 by exact Hne.
    by rewrite Hsecret, (verify_expired _ _ _ _ _ _ Hgen Hnow).
Qed.

End GateOutcomes.

(* ===================================================================== *)
(** ** Variant B: identifiers, the index and the cascade *)
(* ===================================================================== *)

Section VariantBCreate.
Import Mongo.
Context `{bson : Bson}.

(** The objects that the create handlers of variant B build. *)
Lemma post_categories_B_runs req (w : world VariantB.database) :
  let cat := object [
    ("name", prop "name" (body req));
    ("description", prop "description" (body req));
    ("image", prop "image" (body req));
    ("isActive", prop_default "isActive" (VBool true) (body req));
    ("createdAt", VDate (clock w (ticks w)));
    ("updatedAt", VDate (clock w (S (ticks w))))] in
  let oid := VOid (oids w (issued w)) in
  let written := <["_id" := oid]> cat in
  let after d :=
    World d (trace w ++ [OpInsertOne Categories written]) (clock w)
          (S (S (ticks w))) (oids w) (S (issued w)) in
  truthy (prop "name" (body req)) = true ->
  VariantB.post_categories req w =
    match insert (unique_fields Categories (db w)) (serialize written)
                 (VariantB.categories (db w)) with
    | Some l =>
        (inr (Response 201 (JDoc written)),
         after (VariantB.Database l (VariantB.subcategories (db w))
                  (VariantB.categories_name_unique (db w))
                  (VariantB.subcategories_name_unique (db w))))
    | None =>
        (inr (Response 500 (JError "Failed to create category")), after (db w))
    end.
Proof.
  intros cat oid written after Hname.
  unfold VariantB.post_categories. rewrite Hname. run.
  cbn [negb]. cbv beta iota.
  change (object _) with cat.
  assert (cat !! "_id" = None) as Hid by (unfold cat; lookup_literal; reflexivity).
  rewrite Hid.
  cbn [docs with_docs unique_fields VariantB.database_store db trace clock
       ticks oids issued VariantB.categories VariantB.subcategories
       VariantB.categories_name_unique VariantB.subcategories_name_unique].
  fold oid. fold written.
  destruct (insert _ (serialize written) (VariantB.categories (db w))) as [l|];
    [|reflexivity].
  assert (prop "_id" written = oid) as ->
    by (apply prop_lookup; unfold written; apply lookup_insert_eq).
  reflexivity.
Qed.

(** What a 201 from [POST /subcategories] of variant B means: the
    reference was accepted by [ObjectId], a category with that
    identifier was found, and one document carrying the reference as it
    was sent has been appended to the subcategories. *)
Lemma post_subcategories_B_201 req (w : world VariantB.database) resp w' :
  let cid := prop "categoryId" (body req) in
  VariantB.post_subcategories req w = (inr resp, w') ->
  status resp = 201 ->
  exists hex c stored,
    cid <> VUndefined
    /\ ObjectId cid = Some hex
    /\ findOne [("_id", VOid hex)] (VariantB.categories (db w)) = Some c
    /\ VariantB.categories (db w') = VariantB.categories (db w)
    /\ VariantB.subcategories (db w') = VariantB.subcategories (db w) ++ [stored]
    /\ stored !! "categoryId" = Some cid.
Proof.
  intros cid. unfold VariantB.post_subcategories, VariantB.new_ObjectId. fold cid.
  destruct (truthy (prop "name" (body req))) eqn:Hname;
    [|run; cbn [negb]; by intros [= <- <-]].
  destruct (truthy cid) eqn:Hcid; [|run; cbn [negb]; by intros [= <- <-]].
  destruct (truthy_defined _ Hcid) as [Hdef _].
  run. cbn [negb]. cbv beta iota.
  destruct (ObjectId cid) as [hex|]; [|by intros [= <- <-]].
  cbv beta iota.
  destruct (findOne [("_id", VOid hex)] (VariantB.categories (db w))) as [c|] eqn:Hc;
    [|by intros [= <- <-]].
  cbv beta iota.
  match goal with |- context [object ?kvs !! "_id"] => set (sub := object kvs) end.
  assert (sub !! "_id" = None) as Hid by (unfold sub; lookup_literal; reflexivity).
  assert (sub !! "categoryId" = Some cid) as Hsub
    by (unfold sub; lookup_literal; reflexivity).
  rewrite Hid.
  cbn [docs with_docs unique_fields VariantB.database_store db trace clock
       ticks oids issued VariantB.categories VariantB.subcategories
       VariantB.categories_name_unique VariantB.subcategories_name_unique].
  destruct (insert _ _ (VariantB.subcategories (db w))) as [l|] eqn:Hins;
    [|by intros [= <- <-]].
  apply insert_Some in Hins as ->.
  intros [= <- <-] _. eexists hex, c, _. repeat split; [done..|].
  apply lookup_serialize_defined; [|exact Hdef].
  by rewrite lookup_insert_ne.
Qed.

End VariantBCreate.

Section VariantBCascade.
Import Mongo.
Context `{bson : Bson}.

Lemma matched_id v c : v <> VUndefined -> v <> VNull ->
  matches [("_id", v)] c = true -> c !! "_id" = Some v.
Proof.
  intros Hu Hn. rewrite matches_one. unfold field_eq.
  rewrite (bson_defined _ Hu).
  destruct (c !! "_id") as [x|]; intros Hm%bool_decide_eq_true; congruence.
Qed.

(** X12. The cascade of variant B compares strings where the lookups compare
    identifiers. A subcategory is created under a reference that
    [ObjectId] reads as the identifier of a stored category; the
    category is then deleted through a path identifier that [ObjectId]
    reads as the same identifier but that is another string (another
    letter case, say). The delete answers 200 and removes the category,
    and the subcategory stays behind with its reference. *)
Theorem variantB_cascade_misses_other_spellings (create delete : request)
    (w w1 : world VariantB.database) (resp : response) :
  let cid := prop "categoryId" (body create) in
  VariantB.post_subcategories create w = (inr resp, w1) ->
  status resp = 201 ->
  ObjectId (VStr (param_id delete)) = ObjectId cid ->
  cid <> VStr (param_id delete) ->
  exists hex stored l1 c l2 w2,
    ObjectId cid = Some hex
    /\ VariantB.categories (db w1) = l1 ++ c :: l2
    /\ c !! "_id" = Some (VOid hex)
    /\ VariantB.delete_categories_id delete w1
         = (inr (Response 200 (JMessage "Category deleted successfully")), w2)
    /\ VariantB.categories (db w2) = l1 ++ l2
    /\ stored ∈ VariantB.subcategories (db w2)
    /\ stored !! "categoryId" = Some cid.
Proof.
  intros cid Hrun H201 Hsame Hother.
  destruct (post_subcategories_B_201 _ _ _ _ Hrun H201)
    as (hex & c & stored & Hdef & Hhex & Hfind & Hcats & Hsubs & Hstored).
  fold cid in Hdef, Hhex, Hstored.
  destruct (findOne_Some _ _ _ Hfind) as (l1 & l2 & Hm).
  rewrite <- Hcats in Hm. rewrite Hhex in Hsame.
  exists hex, stored, l1, c, l2. eexists.
  split; [exact Hhex|]. split; [apply Hm|].
  split; [apply matched_id; [done..|apply Hm]|].
  split; [exact (delete_categories_id_B_matched _ _ _ _ _ _ Hsame Hm)|].
  cbn [db VariantB.categories VariantB.subcategories].
  split; [reflexivity|]. split; [|exact Hstored].
  apply delete_many_spec. split.
  - rewrite Hsubs. apply elem_of_app. right. by left.
  - rewrite matches_one. unfold field_eq. rewrite Hstored.
    apply bool_decide_eq_false. simpl. exact Hother.
Qed.

Lemma update_rejected f uniq q u c l1 d l2 x :
  f ∈ uniq -> first_match q c l1 d l2 -> x ∈ l1 ++ l2 ->
  index_key f (set_fields u d) = index_key f x ->
  update uniq q u c = Rejected.
Proof.
  intros Hf Hm Hx Hkey. unfold update.
  rewrite (first_match_findOne _ _ _ _ _ Hm), (first_match_delete _ _ _ _ _ Hm),
    (first_match_update _ u _ _ _ _ Hm).
  assert (existsb (collides uniq (set_fields u d)) (l1 ++ l2) = true) as ->; [|done].
  apply existsb_exists. exists x. split; [by apply list_elem_of_In|].
  unfold collides. apply existsb_exists. exists f.
  split; [by apply list_elem_of_In|by apply bool_decide_eq_true].
Qed.

(** X13. Variant B with the index in place: renaming a category to the name
    of another stored category is refused by the index; the answer is
    500 and the database is as it was. *)
Theorem variantB_rename_to_taken_name_is_500 (req : request)
    (w : world VariantB.database) hex l1 c l2 x :
  VariantB.categories_name_unique (db w) = true ->
  ObjectId (VStr (param_id req)) = Some hex ->
  first_match [("_id", VOid hex)] (VariantB.categories (db w)) l1 c l2 ->
  x ∈ l1 ++ l2 ->
  prop "name" (body req) <> VUndefined ->
  x !! "name" = Some (prop "name" (body req)) ->
  exists w',
    VariantB.put_categories_id req w
      = (inr (Response 500 (JError "Failed to update category")), w')
    /\ db w' = db w.
Proof.
  intros Hindex Hok Hm Hx Hname Hxname.
  unfold VariantB.put_categories_id, VariantB.new_ObjectId. run.
  rewrite Hok. cbv beta iota.
  cbn [docs with_docs unique_fields VariantB.database_store db trace clock
       ticks oids issued VariantB.categories VariantB.subcategories
       VariantB.categories_name_unique VariantB.subcategories_name_unique].
  rewrite Hindex.
  set (u := updateData_of category_fields (clock w (ticks w)) (body req)).
  change (assign_if_defined "isActive" _ _) with u.
  rewrite (update_rejected "name" ["name"] _ u _ l1 c l2 x);
    [eexists; split; reflexivity|apply list_elem_of_here|exact Hm|exact Hx|].
  unfold index_key. rewrite Hxname.
  unfold u. rewrite lookup_updated by apply category_fields_fresh.
  unfold updated_field. rewrite decide_False by discriminate.
  rewrite decide_True; [done|]. split; [|exact Hname].
  apply (bool_decide_unpack _). vm_compute. exact I.
Qed.

End VariantBCascade.

Section VariantBStartup.
Import Mongo.

(** X14. The start-up of variant B swallows a refused index. When the stored
    category names are not pairwise distinct, [createIndex] is refused,
    the [catch] discards the error and the server listens without the
    index; from then on a create is answered 201 and stored whatever its
    name, a name already in use included. *)
Theorem variantB_duplicates_survive_startup (env : process_env)
    (d : VariantB.database) :
  truthy (str_value (JWT_SECRET env)) = true ->
  VariantB.categories_name_unique d = false ->
  ~ NoDup (index_key "name" <$> VariantB.categories d) ->
  exists d',
    VariantB.startup env (Some d) = Listening d'
    /\ VariantB.categories_name_unique d' = false
    /\ VariantB.categories d' = VariantB.categories d
    /\ forall (req : request) (w : world VariantB.database),
         db w = d' ->
         truthy (prop "name" (body req)) = true ->
         no_document (VOid (oids w (issued w))) (VariantB.categories d) ->
         exists created w',
           VariantB.post_categories req w
             = (inr (Response 201 (JDoc created)), w')
           /\ created !! "name" = Some (prop "name" (body req))
           /\ VariantB.categories (db w')
                = VariantB.categories d ++ [serialize created].
Proof.
  intros Hsecret Hflag Hdup. unfold VariantB.startup. rewrite Hsecret.
  eexists. split; [reflexivity|].
  assert (VariantB.createIndex_name Categories d = None) as Hrefused.
  { unfold VariantB.createIndex_name.
    cbn [unique_fields docs VariantB.database_store]. rewrite Hflag.
    rewrite bool_decide_eq_false_2 by discriminate.
    by rewrite bool_decide_eq_false_2 by exact Hdup. }
  assert (VariantB.categories_name_unique (VariantB.connectDB d) = false
          /\ VariantB.categories (VariantB.connectDB d) = VariantB.categories d)
    as [Hflag' Hcats].
  { unfold VariantB.connectDB. rewrite Hrefused. cbn [default].
    unfold VariantB.createIndex_name.
    repeat case_bool_decide; cbn [default VariantB.categories_name_unique
                                    VariantB.categories]; done. }
  split; [exact Hflag'|]. split; [exact Hcats|].
  intros req w Hdb Hname Hfresh.
  pose proof (post_categories_B_runs req w Hname) as Hrun. cbv zeta in Hrun.
  cbn [unique_fields VariantB.database_store] in Hrun.
  rewrite Hdb, Hflag', Hcats in Hrun.
  rewrite (insert_fresh (VOid (oids w (issued w)))) in Hrun;
    [| apply lookup_serialize_defined; [apply lookup_insert_eq|done]
     | done | exact Hfresh].
  eexists _, _. split; [exact Hrun|].
  split; [|reflexivity].
  rewrite lookup_insert_ne by discriminate. lookup_literal. reflexivity.
Qed.

End VariantBStartup.

Section VariantBRoundTrip.
Import Mongo.
Context `{bson : Bson}.

Lemma insert_Some_fresh uniq d c l :
  insert uniq d c = Some l ->
  Forall (fun x => index_key "_id" d <> index_key "_id" x) c.
Proof.
  unfold insert. destruct (existsb _ c) eqn:Hcol; [done|]. intros _.
  apply Forall_forall. intros x Hx Heq.
  assert (existsb (collides ("_id" :: uniq) d) c = true) as Hyes; [|congruence].
  apply existsb_exists. exists x. split; [by apply list_elem_of_In|].
  unfold collides. cbn [existsb]. apply orb_true_iff. left.
  by apply bool_decide_eq_true.
Qed.

(** X20. A category that variant B has created can be read back under the
    identifier the driver generated for it. When the create answers 201,
    the returned document carries the generated [ObjectId], the stored
    document is its serialised form, appended to the collection, and
    [GET /categories/:id] with any path identifier that [ObjectId] reads
    as the generated one answers 200 with the stored document. *)
Theorem variantB_created_category_is_read_back (req req' : request)
    (w w' : world VariantB.database) (created : obj) :
  let oid := oids w (issued w) in
  VariantB.post_categories req w = (inr (Response 201 (JDoc created)), w') ->
  ObjectId (VStr (param_id req')) = Some oid ->
  created !! "_id" = Some (VOid oid)
  /\ created !! "name" = Some (prop "name" (body req))
  /\ VariantB.categories (db w')
       = VariantB.categories (db w) ++ [serialize created]
  /\ VariantB.subcategories (db w') = VariantB.subcategories (db w)
  /\ exists w'',
       VariantB.get_categories_id req' w'
         = (inr (Response 200 (JDoc (serialize created))), w'').
Proof.
  intros oid Hrun Hok.
  destruct (truthy (prop "name" (body req))) eqn:Hname;
    [|unfold VariantB.post_categories, try_catch in Hrun;
      rewrite Hname in Hrun; discriminate Hrun].
  rewrite (post_categories_B_runs req w Hname) in Hrun. cbv zeta in Hrun.
  destruct (insert _ _ (VariantB.categories (db w))) as [l|] eqn:Hins;
    [|discriminate Hrun].
  injection Hrun as <- <-.
  pose proof (insert_Some_fresh _ _ _ _ Hins) as Hfresh.
  apply insert_Some in Hins as ->.
  cbn [db VariantB.categories VariantB.subcategories].
  split; [apply lookup_insert_eq|].
  split; [rewrite lookup_insert_ne by discriminate; lookup_literal; reflexivity|].
  split; [reflexivity|]. split; [reflexivity|].
  match type of Hfresh with
  | Forall (fun x => index_key "_id" ?d <> _) _ => set (stored := d) in *
  end.
  assert (stored !! "_id" = Some (VOid oid)) as Hid
    by (apply lookup_serialize_defined; [apply lookup_insert_eq|done]).
  unfold VariantB.get_categories_id, VariantB.new_ObjectId. run.
  rewrite Hok. cbv beta iota.
  cbn [db trace clock ticks oids issued VariantB.categories].
  rewrite (first_match_findOne [("_id", VOid oid)]
             (VariantB.categories (db w) ++ [stored])
             (VariantB.categories (db w)) stored []);
    [eexists; reflexivity|].
  split; [reflexivity|]. split.
  - eapply Forall_impl; [exact Hfresh|]. intros x Hx.
    rewrite matches_one. unfold field_eq, index_key in *. rewrite Hid in Hx.
    simpl in *.
    destruct (x !! "_id") as [y|]; [|reflexivity].
    apply bool_decide_eq_false. intros ->. by apply Hx.
  - rewrite matches_one. unfold field_eq. rewrite Hid.
    by apply bool_decide_eq_true.
Qed.

End VariantBRoundTrip.

(* ===================================================================== *)
(** ** The debug route *)
(* ===================================================================== *)

Section DebugRoute.
Context `{jwt : Jwt.Lib}.
Variable env : process_env.


End DebugRoute.

(* ===================================================================== *)
(** ** Instances on concrete requests *)
(* ===================================================================== *)

(** A keyed collection given as a literal. *)
Ltac literal_keyed :=
  split;
  [ repeat constructor; eexists; reflexivity
  | apply (bool_decide_unpack _); vm_compute; exact I ].

(** One category, read by its identifier as a category and as a
    subcategory. *)
Lemma read_routes_answer_witness :
  let hoodies := object [("_id", VStr "1"); ("name", VStr "Hoodies")] in
  let w := World (VariantA.Database [hoodies] []) [] (fun _ => 0) 0 (fun _ => "") 0 in
  let req := Request None "1" ∅ ∅ None in
  VariantA.get_categories_id req w
    = (inr (Response 200 (JDoc hoodies)),
       log (OpFindOne Categories [("_id", VStr "1")]) w) /\
  VariantA.get_subcategories_id req w
    = (inr (Response 404 (JError "Subcategory not found")),
       log (OpFindOne Subcategories [("_id", VStr "1")]) w).
Proof.
  intros hoodies w req.
  destruct (read_routes_answer req w) as (_ & _ & _ & Hcat & Hsub & _).
  split.
  - apply (Hcat [] hoodies []). split; [reflexivity|]. split; [constructor|reflexivity].
  - apply Hsub. constructor.
Defined.

(** Two subcategories of one category; the first is deleted, twice. *)
Lemma delete_subcategory_removes_one_witness :
  let hoodies := object [("_id", VStr "1"); ("name", VStr "Hoodies")] in
  let zip := object [("_id", VStr "2"); ("name", VStr "Zip"); ("categoryId", VStr "1")] in
  let polo := object [("_id", VStr "3"); ("name", VStr "Polo"); ("categoryId", VStr "1")] in
  let w := World (VariantA.Database [hoodies] [zip; polo]) []
                 (fun _ => 0) 0 (fun _ => "") 0 in
  let req := Request None "2" ∅ ∅ None in
  exists w' w2,
    VariantA.delete_subcategories_id req w
      = (inr (Response 200 (JMessage "Subcategory deleted successfully")), w')
    /\ VariantA.subcategories (db w') = [polo]
    /\ VariantA.delete_subcategories_id req w'
         = (inr (Response 404 (JError "Subcategory not found")), w2).
Proof.
  intros hoodies zip polo w req.
  destruct (delete_subcategory_removes_one req w) as [_ Hdel].
  destruct (Hdel [] zip [polo]) as (w' & Hrun & Hsubs & _ & _ & Hagain).
  { split; [reflexivity|]. split; [constructor|reflexivity]. }
  destruct Hagain as (w2 & w3 & H2 & _); [literal_keyed|].
  exists w', w2. split; [exact Hrun|]. split; [exact Hsubs|exact H2].
Defined.

(** A category deleted, and deleted again. *)
Lemma deleted_category_is_gone_witness :
  let hoodies := object [("_id", VStr "1"); ("name", VStr "Hoodies")] in
  let polo := object [("_id", VStr "2"); ("name", VStr "Polo")] in
  let w := World (VariantA.Database [hoodies; polo] []) []
                 (fun _ => 0) 0 (fun _ => "") 0 in
  let req := Request None "2" ∅ ∅ None in
  exists w2,
    VariantA.delete_categories_id req (VariantA.delete_categories_id req w).2
      = (inr (Response 404 (JError "Category not found")), w2).
Proof.
  intros hoodies polo w req.
  destruct (deleted_category_is_gone req w
              (Response 200 (JMessage "Category deleted successfully"))
              (VariantA.delete_categories_id req w).2)
    as (w2 & _ & H2 & _);
    [literal_keyed|vm_compute; reflexivity|reflexivity|].
  exists w2. exact H2.
Defined.

(** A category with one subcategory; a second subcategory is created
    under it and the category is then deleted, by requests that carry a
    token of the reference library. *)
Lemma variantA_keeps_references_resolved_witness :
  let hoodies := object [("_id", VStr "1"); ("name", VStr "Hoodies")] in
  let zip := object [("_id", VStr "2"); ("name", VStr "Zip"); ("categoryId", VStr "1")] in
  let w := World (VariantA.Database [hoodies] [zip]) []
                 (fun _ => 5) 0 (fun _ => "") 0 in
  let env := Env (Some "s3cret") in
  let tok := default "" (Reference.toy_sign (Jwt.Claims "u1" "a@b.c") (Some "s3cret")
                           thirty_days 0) in
  let create := Request (Some ("Bearer " +:+ tok)) "" ∅
                  (object [("name", VStr "Polo"); ("categoryId", VStr "1")]) None in
  let delete := Request (Some ("Bearer " +:+ tok)) "1" ∅ ∅ None in
  let served := serve (jwt := Reference.toy_jwt) env
                  [(POST_subcategories, create); (DELETE_categories_id, delete)] w in
  consistent (db w) /\ consistent (db served) /\
  (VariantA.categories (db served) = []) /\
  (VariantA.subcategories (db served) = []).
Proof.
  intros hoodies zip w env tok create delete served.
  assert (consistent (db w)) as Hw.
  { split; [split; literal_keyed|].
    repeat constructor. exists hoodies, (VStr "1").
    split; [apply list_elem_of_here|split; reflexivity]. }
  split; [exact Hw|]. split.
  - exact (variantA_keeps_references_resolved (jwt := Reference.toy_jwt) env
             [(POST_subcategories, create); (DELETE_categories_id, delete)] w Hw).
  - split; vm_compute; reflexivity.
Defined.

(** A token of the reference library under the scheme word [Token]:
    variant A creates the category, variant B answers 401. *)
Lemma variantA_ignores_scheme_word_witness :
  let env := Env (Some "s3cret") in
  let tok := default "" (Reference.toy_sign (Jwt.Claims "u1" "a@b.c") (Some "s3cret")
                           thirty_days 0) in
  let req := Request (Some ("Token " +:+ tok)) "" ∅ (object [("name", VStr "Hoodies")])
                     None in
  let wa := World (VariantA.Database [] []) [] (fun _ => 0) 0 (fun _ => "") 0 in
  let wb := World (VariantB.Database [] [] true true) [] (fun _ => 0) 0 (fun _ => "") 0 in
  (VariantA.app (jwt := Reference.toy_jwt) env POST_categories req wa).1
    = inr (Response 201 (JDoc (new_category_A (body req) 0 0 0))) /\
  VariantB.app (jwt := Reference.toy_jwt) (bson := Reference.hex24_bson)
      env POST_categories req wb
    = (inr (Response 401 (JError "Access token required")), wb).
Proof.
  intros env tok req wa wb.
  destruct (variantA_ignores_scheme_word
              (jwt := Reference.toy_jwt) (bson := Reference.hex24_bson)
              env "Token" tok POST_categories req wa wb eq_refl eq_refl)
    as [Ha Hb];
    [discriminate|vm_compute; reflexivity|vm_compute; discriminate|reflexivity|].
  split; [|exact Hb].
  rewrite Ha. vm_compute. reflexivity.
Defined.

(** A token sent without the scheme word. *)
Lemma header_without_space_is_401_witness :
  let env := Env (Some "s3cret") in
  let tok := default "" (Reference.toy_sign (Jwt.Claims "u1" "a@b.c") (Some "s3cret")
                           thirty_days 0) in
  let req := Request (Some tok) "" ∅ (object [("name", VStr "Hoodies")]) None in
  let wa := World (VariantA.Database [] []) [] (fun _ => 0) 0 (fun _ => "") 0 in
  let wb := World (VariantB.Database [] [] true true) [] (fun _ => 0) 0 (fun _ => "") 0 in
  VariantA.app (jwt := Reference.toy_jwt) env POST_categories req wa
    = (inr (Response 401 (JError "Access token required")), wa) /\
  VariantB.app (jwt := Reference.toy_jwt) (bson := Reference.hex24_bson)
      env POST_categories req wb
    = (inr (Response 401 (JError "Access token required")), wb).
Proof.
  intros env tok req wa wb.
  apply (header_without_space_is_401
           (jwt := Reference.toy_jwt) (bson := Reference.hex24_bson)
           env tok POST_categories req wa wb eq_refl);
    [vm_compute; reflexivity|reflexivity].
Defined.

(** A token issued at the epoch, used ten days and thirty days later. *)
Lemma token_opens_gate_for_thirty_days_witness :
  let env := Env (Some "s3cret") in
  let u := User "u1" "a@b.c" in
  let w0 := World (VariantA.Database [] []) [] (fun _ => 0) 0 (fun _ => "") 0 in
  let tok := default "" (Reference.toy_sign (Jwt.Claims "u1" "a@b.c") (Some "s3cret")
                           thirty_days 0) in
  let req := Request (Some ("Bearer " +:+ tok)) "1" ∅ ∅ None in
  let d := Jwt.Decoded (Jwt.Claims "u1" "a@b.c") 0 thirty_days in
  let early := World (VariantA.Database [] []) [] (fun _ => 864000000) 0 (fun _ => "") 0 in
  let late := World (VariantA.Database [] []) [] (fun _ => 2592000000) 0 (fun _ => "") 0 in
  VariantA.app (jwt := Reference.toy_jwt) env DELETE_categories_id req early
    = VariantA.delete_categories_id (with_user d req) (tick early) /\
  VariantA.app (jwt := Reference.toy_jwt) env DELETE_categories_id req late
    = (inr (Response 403 (JError "Invalid or expired token")), tick late).
Proof.
  intros env u w0 tok req d early late.
  assert (VariantA.generateToken (jwt := Reference.toy_jwt) env u w0
          = (inr tok, tick w0)) as Hgen by reflexivity.
  assert (tok <> "") as Hne by (vm_compute; discriminate).
  assert (space_free tok = true) as Hsf by (vm_compute; reflexivity).
  split.
  - destruct (token_opens_gate_for_thirty_days
                (jwt := Reference.toy_jwt) (bson := Reference.hex24_bson)
                (laws := toy_jwt_laws) (expiry := toy_jwt_expiry)
                env u "s3cret" tok DELETE_categories_id req w0 (tick w0) early
                (World (VariantB.Database [] [] true true) [] (fun _ => 0) 0
                       (fun _ => "") 0)
                eq_refl Hgen Hne Hsf eq_refl eq_refl) as (Hearly & _).
    apply Hearly. reflexivity.
  - destruct (token_opens_gate_for_thirty_days
                (jwt := Reference.toy_jwt) (bson := Reference.hex24_bson)
                (laws := toy_jwt_laws) (expiry := toy_jwt_expiry)
                env u "s3cret" tok DELETE_categories_id req w0 (tick w0) late
                (World (VariantB.Database [] [] true true) [] (fun _ => 0) 0
                       (fun _ => "") 0)
                eq_refl Hgen Hne Hsf eq_refl eq_refl) as (_ & Hlate & _).
    apply Hlate. discriminate.
Defined.


(** A subcategory created under the upper-case spelling of its parent's
    identifier, and the parent deleted under the lower-case spelling. *)
Lemma variantB_cascade_misses_other_spellings_witness :
  let hoodies := object [("_id", VOid "64b7f0c2a1b2c3d4e5f60718");
                         ("name", VStr "Hoodies")] in
  let w := World (VariantB.Database [hoodies] [] true true) []
                 (fun _ => 0) 0 (fun _ => "64b7f0c2a1b2c3d4e5f60719") 0 in
  let create := Request None "" ∅
                  (object [("name", VStr "Zip");
                           ("categoryId", VStr "64B7F0C2A1B2C3D4E5F60718")]) None in
  let delete := Request None "64b7f0c2a1b2c3d4e5f60718" ∅ ∅ None in
  exists resp w1 stored w2,
    VariantB.post_subcategories (bson := Reference.hex24_bson) create w = (inr resp, w1)
    /\ VariantB.delete_categories_id (bson := Reference.hex24_bson) delete w1
         = (inr (Response 200 (JMessage "Category deleted successfully")), w2)
    /\ stored ∈ VariantB.subcategories (db w2)
    /\ stored !! "categoryId" = Some (VStr "64B7F0C2A1B2C3D4E5F60718").
Proof.
  intros hoodies w create delete.
  destruct (VariantB.post_subcategories (bson := Reference.hex24_bson) create w)
    as [[e|resp] w1] eqn:Hrun.
  - vm_compute in Hrun. discriminate Hrun.
  - assert (status resp = 201) as H201.
    { pose proof Hrun as H. vm_compute in H. injection H as <- _. reflexivity. }
    destruct (variantB_cascade_misses_other_spellings (bson := Reference.hex24_bson)
                create delete w w1 resp Hrun H201 eq_refl)
      as (hex & stored & l1 & c & l2 & w2 & _ & _ & _ & Hdel & _ & Hin & Hstored);
      [discriminate|].
    exists resp, w1, stored, w2. split; [reflexivity|].
    split; [exact Hdel|]. split; [exact Hin|exact Hstored].
Defined.

(** Two categories under the index; the second is renamed to the name of
    the first. *)
Lemma variantB_rename_to_taken_name_is_500_witness :
  let hoodies := object [("_id", VOid "64b7f0c2a1b2c3d4e5f60718");
                         ("name", VStr "Hoodies")] in
  let polo := object [("_id", VOid "64b7f0c2a1b2c3d4e5f60719");
                      ("name", VStr "Polo")] in
  let w := World (VariantB.Database [hoodies; polo] [] true true) []
                 (fun _ => 0) 0 (fun _ => "") 0 in
  let req := Request None "64b7f0c2a1b2c3d4e5f60719" ∅
               (object [("name", VStr "Hoodies")]) None in
  exists w',
    VariantB.put_categories_id (bson := Reference.hex24_bson) req w
      = (inr (Response 500 (JError "Failed to update category")), w')
    /\ db w' = db w.
Proof.
  intros hoodies polo w req.
  apply (variantB_rename_to_taken_name_is_500 (bson := Reference.hex24_bson)
           req w "64b7f0c2a1b2c3d4e5f60719" [hoodies] polo [] hoodies eq_refl eq_refl).
  - split; [reflexivity|]. split; [|vm_compute; reflexivity].
    constructor; [vm_compute; reflexivity|constructor].
  - apply list_elem_of_here.
  - vm_compute. discriminate.
  - vm_compute. reflexivity.
Defined.

(** Two stored categories named alike: the server starts without the
    index and stores a third. *)
Lemma variantB_duplicates_survive_startup_witness :
  let first := object [("_id", VOid "64b7f0c2a1b2c3d4e5f60718");
                       ("name", VStr "Hoodies")] in
  let second := object [("_id", VOid "64b7f0c2a1b2c3d4e5f60719");
                        ("name", VStr "Hoodies")] in
  let d := VariantB.Database [first; second] [] false false in
  let req := Request None "" ∅ (object [("name", VStr "Hoodies")]) None in
  exists d',
    VariantB.startup (Env (Some "s3cret")) (Some d) = Listening d'
    /\ exists created w',
         VariantB.post_categories req
           (World d' [] (fun _ => 0) 0 (fun _ => "64b7f0c2a1b2c3d4e5f6071a") 0)
         = (inr (Response 201 (JDoc created)), w')
         /\ VariantB.categories (db w') = [first; second; Mongo.serialize created].
Proof.
  intros first second d req.
  destruct (variantB_duplicates_survive_startup
              (Env (Some "s3cret")) d eq_refl eq_refl)
    as (d' & Hstart & _ & _ & Hcreate).
  { apply (bool_decide_unpack _). vm_compute. exact I. }
  exists d'. split; [exact Hstart|].
  destruct (Hcreate req (World d' [] (fun _ => 0) 0
                           (fun _ => "64b7f0c2a1b2c3d4e5f6071a") 0)
              eq_refl eq_refl)
    as (created & w' & Hrun & _ & Hcats).
  { repeat constructor; vm_compute; discriminate. }
  exists created, w'. split; [exact Hrun|exact Hcats].
Defined.

(** A second category named like the first, under the index. *)
Lemma variantB_rejects_duplicate_name_witness :
  let hoodies := object [("_id", VOid "64b7f0c2a1b2c3d4e5f60718");
                         ("name", VStr "Hoodies")] in
  let w := World (VariantB.Database [hoodies] [] true true) []
                 (fun _ => 0) 0 (fun _ => "64b7f0c2a1b2c3d4e5f60719") 0 in
  let req := Request None "" ∅ (object [("name", VStr "Hoodies")]) None in
  exists w',
    VariantB.post_categories req w
      = (inr (Response 500 (JError "Failed to create category")), w')
    /\ db w' = db w.
Proof.
  intros hoodies w req.
  apply (variantB_rejects_duplicate_name req w hoodies eq_refl eq_refl).
  - apply list_elem_of_here.
  - vm_compute. reflexivity.
Defined.

(** A create under the index, from a database with distinct names. *)
Lemma variantB_keeps_names_unique_witness :
  let hoodies := object [("_id", VOid "64b7f0c2a1b2c3d4e5f60718");
                         ("name", VStr "Hoodies")] in
  let w := World (VariantB.Database [hoodies] [] true true) []
                 (fun _ => 0) 0 (fun _ => "64b7f0c2a1b2c3d4e5f60719") 0 in
  let env := Env (Some "s3cret") in
  let tok := default "" (Reference.toy_sign (Jwt.Claims "u1" "a@b.c") (Some "s3cret")
                           thirty_days 0) in
  let req := Request (Some ("Bearer " +:+ tok)) "" ∅
               (object [("name", VStr "Polo")]) None in
  names_unique (db w) /\
  names_unique (db (VariantB.app (jwt := Reference.toy_jwt)
                      (bson := Reference.hex24_bson) env POST_categories req w).2).
Proof.
  intros hoodies w env tok req.
  assert (names_unique (db w)) as Hw.
  { split; intros _; apply (bool_decide_unpack _); vm_compute; exact I. }
  split; [exact Hw|].
  exact (variantB_keeps_names_unique (jwt := Reference.toy_jwt)
           (bson := Reference.hex24_bson) env POST_categories req w Hw).
Defined.

(** Start-up on two categories with distinct names. *)
Lemma variantB_startup_creates_index_witness :
  let hoodies := object [("_id", VOid "64b7f0c2a1b2c3d4e5f60718");
                         ("name", VStr "Hoodies")] in
  let polo := object [("_id", VOid "64b7f0c2a1b2c3d4e5f60719");
                      ("name", VStr "Polo")] in
  let d := VariantB.Database [hoodies; polo] [] false false in
  exists d',
    VariantB.startup (Env (Some "s3cret")) (Some d) = Listening d'
    /\ VariantB.categories_name_unique d' = true.
Proof.
  intros hoodies polo d.
  destruct (variantB_startup_creates_index (Env (Some "s3cret")) d eq_refl)
    as (d' & Hstart & Hflag & _).
  { apply (bool_decide_unpack _). vm_compute. exact I. }
  exists d'. split; [exact Hstart|exact Hflag].
Defined.

(** The identifier ["abc"], read and deleted. *)
Lemma variantB_malformed_id_is_500_witness :
  let w := World (VariantB.Database [] [] true true) [] (fun _ => 0) 0 (fun _ => "") 0 in
  let req := Request None "abc" ∅ ∅ None in
  VariantB.get_categories_id (bson := Reference.hex24_bson) req w
    = (inr (Response 500 (JError "Failed to fetch category")), w) /\
  VariantB.delete_subcategories_id (bson := Reference.hex24_bson) req w
    = (inr (Response 500 (JError "Failed to delete subcategory")), w).
Proof.
  intros w req.
  destruct (variantB_malformed_id_is_500 (bson := Reference.hex24_bson) req w eq_refl)
    as (Hget & _ & _ & _ & Hdel).
  split; [exact Hget|exact Hdel].
Defined.

(** A subcategory created under the parent reference ["abc"]. *)
Lemma variantB_malformed_parent_is_500_witness :
  let w := World (VariantB.Database [] [] true true) [] (fun _ => 0) 0 (fun _ => "") 0 in
  let req := Request None "" ∅
               (object [("name", VStr "Zip"); ("categoryId", VStr "abc")]) None in
  VariantB.post_subcategories (bson := Reference.hex24_bson) req w
    = (inr (Response 500 (JError "Failed to create subcategory")), w).
Proof.
  intros w req.
  destruct (variantB_malformed_parent_is_500 (bson := Reference.hex24_bson) req w eq_refl)
    as [Hpost _].
  apply Hpost; reflexivity.
Defined.

(** A category created by variant B and read back under the upper-case
    spelling of the generated identifier. *)
Lemma variantB_created_category_is_read_back_witness :
  let w := World (VariantB.Database [] [] true true) []
                 (fun _ => 0) 0 (fun _ => "64b7f0c2a1b2c3d4e5f6071a") 0 in
  let req := Request None "" ∅ (object [("name", VStr "Hoodies")]) None in
  let req' := Request None "64B7F0C2A1B2C3D4E5F6071A" ∅ ∅ None in
  let created := <["_id" := VOid "64b7f0c2a1b2c3d4e5f6071a"]>
                   (object [("name", VStr "Hoodies"); ("description", VUndefined);
                            ("image", VUndefined); ("isActive", VBool true);
                            ("createdAt", VDate 0); ("updatedAt", VDate 0)]) in
  exists w'',
    VariantB.get_categories_id (bson := Reference.hex24_bson) req'
      (VariantB.post_categories req w).2
    = (inr (Response 200 (JDoc (Mongo.serialize created))), w'').
Proof.
  intros w req req' created.
  destruct (variantB_created_category_is_read_back (bson := Reference.hex24_bson)
              req req' w (VariantB.post_categories req w).2 created)
    as (_ & _ & _ & _ & Hget);
    [vm_compute; reflexivity|reflexivity|].
  exact Hget.
Defined.

(* ===================================================================== *)
(** ** Requests that interleave *)
(* ===================================================================== *)

(** Under interleaving the invariant is lost. [PUT /subcategories/:id]
    waits for the driver between its parent lookup and its [updateOne];
    here the lookup finds the category ["2"], a whole
    [DELETE /categories/2] is served during the wait, and the rest of the
    update then stores a reference to the category that is gone. *)
Lemma interleaved_delete_leaves_dangling_reference :
  let hoodies := object [("_id", VStr "1"); ("name", VStr "Hoodies")] in
  let tees := object [("_id", VStr "2"); ("name", VStr "Tees")] in
  let zip := object [("_id", VStr "3"); ("name", VStr "Zip"); ("categoryId", VStr "1")] in
  let w := World (VariantA.Database [hoodies; tees] [zip]) []
                 (fun _ => 5) 0 (fun _ => "") 0 in
  let updateData := object [("updatedAt", VDate 5); ("categoryId", VStr "2")] in
  let looked_up := db_findOne Categories [("_id", VStr "2")] w in
  let deleted := VariantA.delete_categories_id (Request None "2" ∅ ∅ None) looked_up.2 in
  let written := VariantA.put_subcategories_write "3" updateData deleted.2 in
  consistent (db w) /\
  looked_up.1 = inr (Some tees) /\
  deleted.1 = inr (Response 200 (JMessage "Category deleted successfully")) /\
  match written.1 with inr resp => status resp = 200 | inl _ => False end /\
  VariantA.categories (db written.2) = [hoodies] /\
  (prop "categoryId" <$> VariantA.subcategories (db written.2)) = [VStr "2"] /\
  ~ consistent (db written.2).
Proof.
  intros hoodies tees zip w updateData looked_up deleted written.
  assert (VariantA.categories (db written.2) = [hoodies]) as Hcats
    by (vm_compute; reflexivity).
  assert ((prop "categoryId" <$> VariantA.subcategories (db written.2)) = [VStr "2"])
    as Hsubs by (vm_compute; reflexivity).
  split.
  { split; [split; literal_keyed|].
    repeat constructor. exists hoodies, (VStr "1").
    split; [apply list_elem_of_here|split; reflexivity]. }
  split; [vm_compute; reflexivity|].
  split; [vm_compute; reflexivity|]. split; [vm_compute; reflexivity|].
  split; [exact Hcats|]. split; [exact Hsubs|].
  intros [_ Hres]. rewrite Hcats in Hres.
  destruct (VariantA.subcategories (db written.2)) as [|s [|s' rest]];
    try discriminate Hsubs.
  injection Hsubs as Hs. apply Forall_cons in Hres as [(c & v & Hc & Hv & Hid) _].
  apply list_elem_of_singleton in Hc as ->.
  unfold prop in Hs. rewrite Hv in Hs. simpl in Hs. subst v.
  vm_compute in Hid. discriminate Hid.
Qed.
